(** * Movie recommendation system: a shallow embedding of
      [movie_recommendation_system.py] and the properties of its
      recommender and of its query loop.

    - Numbers are exact: ratings and scores are rationals, and a cosine
      similarity is kept as the pair of its numerator and of the square of
      its denominator, so that every comparison the program makes is
      decidable and every definition evaluates.  Rounding of the machine
      floats is not modelled.  Where the order of the similarities matters,
      the similarity routine is a parameter ([get_recommendations_computed])
      and the properties hold for whatever matrix it returns.
    - A pandas frame is its row labels, its column labels and its array of
      values; the operations the program calls are functions on it, and a
      label that is not there, or a first row of no rows, is the exception
      pandas raises.
    - A run is the list of what it printed, together with the call of the
      similarity routine, and how it ended: with a value or an exception.
    - The matrix and the joined table that [main] hands to every call are
      two objects; [get_recommendations_on] is the function with these two
      in a heap, each access to one of them a read or a write of the heap.
    - [Series.sort_values] is called without [kind], so that it sorts with
      numpy's default routine, of which only sortedness is documented: the
      program is a function of that routine, and the properties hold for
      every routine that sorts.  [numpy_quicksort] is the routine itself, as
      its scalar code has it, and [numpy_quicksort_avx512] as its vectorised
      code has it for short series.
    - A line of the standard input is a string of characters; [int] is
      modelled on the lines of ASCII characters. *)

From Stdlib Require Import List ZArith QArith Qabs Qreals Reals Lra Lia.
From Stdlib Require Import String Ascii Bool Permutation Sorted.
From Stdlib Require Lqa.
Import ListNotations.

Local Open Scope string_scope.
Local Open Scope list_scope.

(* ================================================================== *)
(** * Numbers *)

Definition Qsum (l : list Q) : Q := fold_right Qplus (0 : Q) l.

(** [Series.mean] / [DataFrame.mean] on values without NaN. *)
Definition mean (l : list Q) : Q :=
  (Qsum l / inject_Z (Z.of_nat (List.length l)))%Q.

(** The aggregation of [pivot_table] (default [aggfunc='mean']): a
    (user, title) pair without any row has no value (NaN). *)
Definition mean_opt (l : list Q) : option Q :=
  match l with
  | [] => None
  | _ :: _ => Some (mean l)
  end.

(* ================================================================== *)
(** * Sorting routines

    [stable_sort] is an insertion sort that keeps equal elements in their
    original order (numpy's [kind='stable']).  [insert_behind] is the step of
    the insertion sort that numpy's quicksort ends with: an element moves to
    the left past the greater ones only. *)

Fixpoint insert {A : Type} (le : A -> A -> bool) (x : A) (l : list A) : list A :=
  match l with
  | [] => [x]
  | y :: l' => if le x y then x :: l else y :: insert le x l'
  end.

Fixpoint stable_sort {A : Type} (le : A -> A -> bool) (l : list A) : list A :=
  match l with
  | [] => []
  | x :: l' => insert le x (stable_sort le l')
  end.

Fixpoint insert_behind {A : Type} (le : A -> A -> bool) (x : A) (l : list A) : list A :=
  match l with
  | [] => [x]
  | y :: l' => if le y x then y :: insert_behind le x l' else x :: l
  end.

Definition total {A : Type} (le : A -> A -> bool) : Prop :=
  forall x y, le x y = true \/ le y x = true.

Definition transitive {A : Type} (le : A -> A -> bool) : Prop :=
  forall x y z, le x y = true -> le y z = true -> le x z = true.

(** What numpy documents of a sorting routine that is not one of the stable
    kinds: the result is a rearrangement of the input in ascending order. *)
Definition sorts (sort : forall A : Type, (A -> A -> bool) -> list A -> list A) : Prop :=
  forall (A : Type) (le : A -> A -> bool), total le -> transitive le ->
  forall l : list A,
    Permutation l (sort A le l) /\
    StronglySorted (fun x y => le x y = true) (sort A le l).

(** ** numpy's quicksort

    The routine of [npysort/quicksort.cpp] that sorts an array of positions
    by the values they point to ([argsort]), as it runs where no vectorised
    routine is dispatched: an introsort.  A range of more than 17 elements
    is partitioned around the median of its first, middle and last element;
    a smaller one is sorted by insertion; a range taken from the stack when
    the depth bound is used up is sorted by heapsort.  The list holds the
    values in the order of the positions. *)
Section Introsort.
Context {A : Type} (le : A -> A -> bool) (d : A).
Local Open Scope nat_scope.

Definition less (x y : A) : bool := negb (le y x).

(** [a[i] = x]. *)
Definition store (a : list A) (i : nat) (x : A) : list A :=
  firstn i a ++ x :: skipn (S i) a.

Definition swap (a : list A) (i j : nat) : list A :=
  store (store a i (nth j a d)) j (nth i a d).

(** A routine run on the elements from [pl] to [pr]. *)
Definition on_range (sort : list A -> list A) (a : list A) (pl pr : nat) : list A :=
  let n := S pr - pl in
  firstn pl a ++ sort (firstn n (skipn pl a)) ++ skipn (pl + n) a.

Definition insertion_sort (l : list A) : list A :=
  fold_left (fun sorted x => insert_behind le x sorted) l [].

(** The inner loop of the heapsort, on positions counted from 1. *)
Fixpoint sift_down (fuel : nat) (a : list A) (tmp : A) (i j n : nat) : list A :=
  match fuel with
  | O => store a (i - 1) tmp
  | S fuel' =>
      if (j <=? n)%nat then
        let j := if (j <? n)%nat && less (nth (j - 1) a d) (nth j a d) then (j + 1)%nat else j in
        if less tmp (nth (j - 1) a d)
        then sift_down fuel' (store a (i - 1) (nth (j - 1) a d)) tmp j (j + j) n
        else store a (i - 1) tmp
      else store a (i - 1) tmp
  end.

Definition heapsort (l : list A) : list A :=
  let n := List.length l in
  let heap :=
    fold_left (fun a k => sift_down n a (nth (k - 1) a d) k (2 * k) n)
              (rev (seq 1 (n / 2))) l in
  fold_left (fun a m =>
               let tmp := nth (m - 1) a d in
               let a := store a (m - 1) (nth 0 a d) in
               sift_down n a tmp 1 2 (m - 1))
            (rev (seq 2 (n - 1))) heap.

(** [do ++pi; while (v[*pi] < vp)], after the first step. *)
Fixpoint scan_up (fuel : nat) (a : list A) (vp : A) (pi : nat) : nat :=
  match fuel with
  | O => pi
  | S fuel' => if less (nth pi a d) vp then scan_up fuel' a vp (S pi) else pi
  end.

(** [do --pj; while (vp < v[*pj])], after the first step. *)
Fixpoint scan_down (a : list A) (vp : A) (pj : nat) : nat :=
  match pj with
  | O => O
  | S pj' => if less vp (nth pj a d) then scan_down a vp pj' else pj
  end.

Fixpoint hoare_partition (fuel : nat) (a : list A) (vp : A) (pi pj : nat) : list A * nat :=
  match fuel with
  | O => (a, pi)
  | S fuel' =>
      let pi := scan_up (List.length a) a vp (S pi) in
      let pj := scan_down a vp (pj - 1) in
      if (pj <=? pi)%nat then (a, pi) else hoare_partition fuel' (swap a pi pj) vp pi pj
  end.

(** The elements from [pl] to [pr]; the smaller part is sorted at once, the
    larger one is taken from the stack afterwards, where the depth bound is
    looked at. *)
Fixpoint quicksort_range (fuel : nat) (cdepth : Z) (a : list A) (pl pr : nat) : list A :=
  match fuel with
  | O => a
  | S fuel' =>
      if (16 <? pr - pl)%nat then
        let pm := pl + (pr - pl) / 2 in
        let a := if less (nth pm a d) (nth pl a d) then swap a pm pl else a in
        let a := if less (nth pr a d) (nth pm a d) then swap a pr pm else a in
        let a := if less (nth pm a d) (nth pl a d) then swap a pm pl else a in
        let vp := nth pm a d in
        let a := swap a pm (pr - 1) in
        let (a, pi) := hoare_partition (List.length a) a vp pl (pr - 1) in
        let a := swap a pi (pr - 1) in
        let cdepth := (cdepth - 1)%Z in
        let popped := fun a pl pr =>
          if (cdepth <? 0)%Z then on_range heapsort a pl pr
          else quicksort_range fuel' cdepth a pl pr in
        if (pi - pl <? pr - pi)%nat
        then popped (quicksort_range fuel' cdepth a pl (pi - 1)) (pi + 1) pr
        else popped (quicksort_range fuel' cdepth a (pi + 1) pr) pl (pi - 1)
      else on_range insertion_sort a pl pr
  end.

End Introsort.

Definition numpy_quicksort (A : Type) (le : A -> A -> bool) (l : list A) : list A :=
  match l with
  | [] => []
  | d :: _ =>
      let num := List.length l in
      quicksort_range le d num (2 * Z.log2 (Z.of_nat num))%Z l 0%nat (num - 1)%nat
  end.

(** ** numpy's vectorised quicksort

    On an x86 machine with AVX-512 numpy hands [argsort] of 64-bit values to
    the routine of x86-simd-sort, which sorts up to 256 values by a bitonic
    network: the values are laid out in vectors of 8, the last vectors
    filled up with infinities, to 8, 16, 32, ... places; every vector is
    sorted, then the vectors are merged two by two, four by four, and so
    on.  A merge compares a block with its mirror image and then the halves
    of the halves; the two values of a pair change places when the first is
    greater, never when they are equal.  [None] is the infinity of a
    filled-up place.  Longer series are partitioned first; that part is not
    modelled, and [numpy_quicksort] stands in for it. *)
Section Bitonic.
Context {A : Type} (le : A -> A -> bool).
Local Open Scope nat_scope.

Definition less_padded (x y : option A) : bool :=
  match x, y with
  | Some a, Some b => less le a b
  | Some _, None => true
  | None, _ => false
  end.

(** Compare and exchange. *)
Definition coex (a : list (option A)) (pair : nat * nat) : list (option A) :=
  let (i, j) := pair in
  if less_padded (nth j a None) (nth i a None) then swap None a i j else a.

(** The blocks of [k] places of [n] places. *)
Definition blocks (n k : nat) : list nat := map (fun q => q * k) (seq 0 (n / k)).

Definition mirror_pairs (n k : nat) : list (nat * nat) :=
  flat_map (fun b => map (fun i => (b + i, b + k - 1 - i)) (seq 0 (k / 2))) (blocks n k).

Definition clean_pairs (n j : nat) : list (nat * nat) :=
  flat_map (fun b => map (fun i => (b + i, b + i + j)) (seq 0 j)) (blocks n (2 * j)).

(** [j], [j / 2], ..., 1. *)
Fixpoint halves (fuel j : nat) : list nat :=
  match fuel with
  | O => []
  | S fuel' => if j =? 0 then [] else j :: halves fuel' (j / 2)
  end.

Definition merge_pairs (n k : nat) : list (nat * nat) :=
  mirror_pairs n k ++ flat_map (clean_pairs n) (halves k (k / 4)).

(** 2, 4, ..., [n]. *)
Fixpoint doublings (fuel k n : nat) : list nat :=
  match fuel with
  | O => []
  | S fuel' => if n <? k then [] else k :: doublings fuel' (2 * k) n
  end.

Definition bitonic_network (n : nat) : list (nat * nat) :=
  flat_map (merge_pairs n) (doublings n 2 n).

(** The places the values are laid out in: 8, 16, 32, ... *)
Fixpoint places (fuel n num : nat) : nat :=
  match fuel with
  | O => n
  | S fuel' => if num <=? n then n else places fuel' (2 * n) num
  end.

Definition bitonic_sort (l : list A) : list A :=
  let num := List.length l in
  let n := places num 8 num in
  let padded := map Some l ++ repeat None (n - num) in
  flat_map (fun x => match x with Some a => [a] | None => [] end)
           (firstn num (fold_left coex (bitonic_network n) padded)).

End Bitonic.

Definition numpy_quicksort_avx512 (A : Type) (le : A -> A -> bool) (l : list A) : list A :=
  if (List.length l <=? 256)%nat then bitonic_sort le l else numpy_quicksort A le l.

(* ================================================================== *)
(** * Labels, series and data frames *)

Class Label (L : Type) := {
  label_eqb : L -> L -> bool;
  label_eqb_eq : forall a b, label_eqb a b = true <-> a = b
}.

#[export] Instance Z_Label : Label Z :=
  {| label_eqb := Z.eqb; label_eqb_eq := Z.eqb_eq |}.

#[export] Instance string_Label : Label string :=
  {| label_eqb := String.eqb; label_eqb_eq := String.eqb_eq |}.

(** Python's [x in labels]. *)
Definition contains {L : Type} `{Label L} (x : L) (labels : list L) : bool :=
  existsb (label_eqb x) labels.

(** Position of the first occurrence of a label. *)
Fixpoint position {L : Type} `{Label L} (x : L) (labels : list L) : option nat :=
  match labels with
  | [] => None
  | y :: rest => if label_eqb x y then Some 0%nat else option_map S (position x rest)
  end.

(** A pandas Series: values with their labels, in order. *)
Definition Series (L V : Type) : Type := list (L * V).

(** A pandas DataFrame: row labels, column labels and the two-dimensional
    array of values, one inner list per row. *)
Record DataFrame (I C V : Type) : Type := {
  index : list I;
  columns : list C;
  values : list (list V)
}.
Arguments index {I C V} _.
Arguments columns {I C V} _.
Arguments values {I C V} _.

(** The value read at a position outside a row; no position of a rectangular
    frame is outside. *)
Class Blank (V : Type) := blank : V.

#[export] Instance Q_Blank : Blank Q := (0 : Q).

(** The frames the program handles are rectangular and, as [pivot_table]
    builds them, carry no label twice. *)
Definition rectangular {I C V : Type} (df : DataFrame I C V) : Prop :=
  List.length (values df) = List.length (index df) /\
  Forall (fun row => List.length row = List.length (columns df)) (values df).

Definition well_formed {I C V : Type} (df : DataFrame I C V) : Prop :=
  NoDup (index df) /\ NoDup (columns df) /\ rectangular df.

(* ================================================================== *)
(** * The effects of the program: printed lines, library calls, exceptions *)

(** The exceptions the program meets; [OtherError] is any other class, by
    its name. *)
Inductive exn : Type :=
| KeyError
| IndexError
| ValueError
| EOFError
| FileNotFoundError
| OtherError (name : string).

(** Exact cosine similarity: the real number [sim_dot / sqrt sim_norm2]. *)
Record sim : Type := { sim_dot : Q; sim_norm2 : Q }.

(** What the program prints, by content; the layout of a line (emoji,
    two-decimal rounding of a score) is left out. *)
Inductive message : Type :=
| MsgDataLoaded
| MsgFilesMissing
| MsgMatrixCreated
| MsgUserNotFound (user_id : Z)
| MsgNoSimilarUsers
| MsgSimilarUsers (user_id : Z) (similar_users : Series Z sim)
| MsgHeader (user_id : Z)
| MsgRecommendation (title genres : string) (score : Q)
| MsgPrompt
| MsgInvalidInput
| MsgUnexpected (e : exn).

Inductive event : Type :=
| Print (m : message)
| CosineSimilarity (rows : nat).

Inductive outcome (A : Type) : Type :=
| Returned (a : A)
| Raised (e : exn).
Arguments Returned {A} a.
Arguments Raised {A} e.

(** A computation: the events it produced, and how it ended. *)
Definition Run (A : Type) : Type := (list event * outcome A)%type.

Definition ret {A : Type} (a : A) : Run A := ([], Returned a).

Definition raise {A : Type} (e : exn) : Run A := ([], Raised e).

Definition bind {A B : Type} (m : Run A) (f : A -> Run B) : Run B :=
  match m with
  | (t, Returned a) => let (t', r) := f a in (t ++ t', r)
  | (t, Raised e) => (t, Raised e)
  end.

Notation "x <- m ;; k" := (bind m (fun x => k))
  (at level 61, m at next level, right associativity).
Notation "m ;; k" := (bind m (fun _ => k))
  (at level 61, right associativity).

Definition print (m : message) : Run unit := ([Print m], Returned tt).

Definition trace {A : Type} (m : Run A) : list event := fst m.
Definition result {A : Type} (m : Run A) : outcome A := snd m.

Fixpoint for_each {A : Type} (l : list A) (body : A -> Run unit) : Run unit :=
  match l with
  | [] => ret tt
  | x :: rest => body x ;; for_each rest body
  end.

Fixpoint map_run {A B : Type} (f : A -> Run B) (l : list A) : Run (list B) :=
  match l with
  | [] => ret []
  | x :: rest => y <- f x ;; ys <- map_run f rest ;; ret (y :: ys)
  end.

Definition lookup {L : Type} `{Label L} (x : L) (labels : list L) : Run nat :=
  match position x labels with
  | Some k => ret k
  | None => raise KeyError
  end.

(* ================================================================== *)
(** * The pandas operations the program uses *)

Section Frames.
Context {I C V : Type} `{Label I} `{Label C} `{Blank V}.

(** [df[c]]: one column, as a series over the row labels. *)
Definition getitem (df : DataFrame I C V) (c : C) : Run (Series I V) :=
  j <- lookup c (columns df) ;;
  ret (combine (index df) (map (fun row => nth j row blank) (values df))).

(** [df.loc[i]]: one row, its values in column order. *)
Definition loc (df : DataFrame I C V) (i : I) : Run (list V) :=
  k <- lookup i (index df) ;;
  ret (nth k (values df) []).

(** [df.loc[labels]]: the rows of the given labels, in the given order. *)
Definition loc_rows (df : DataFrame I C V) (labels : list I) : Run (DataFrame I C V) :=
  rows <- map_run (loc df) labels ;;
  ret {| index := labels; columns := columns df; values := rows |}.

(** [df[labels]]: the columns of the given labels, in the given order. *)
Definition getitem_columns (df : DataFrame I C V) (labels : list C) : Run (DataFrame I C V) :=
  js <- map_run (fun c => lookup c (columns df)) labels ;;
  ret {| index := index df; columns := labels;
         values := map (fun row => map (fun j => nth j row blank) js) (values df) |}.

(** [labels[mask]]: the labels at the positions where the mask is true. *)
Definition boolean_mask (labels : list C) (mask : list bool) : list C :=
  map fst (filter snd (combine labels mask)).

(** [s.drop(label)]: the series without the entries of that label; a label
    that is not there is a [KeyError]. *)
Definition drop (label : I) (s : Series I V) : Run (Series I V) :=
  if contains label (map fst s)
  then ret (filter (fun entry => negb (label_eqb label (fst entry))) s)
  else raise KeyError.

(** [s.head(n)]. *)
Definition head (n : nat) (s : Series I V) : Series I V := firstn n s.

(** [s.empty]. *)
Definition empty (s : Series I V) : bool :=
  match s with
  | [] => true
  | _ :: _ => false
  end.

(** [rows.iloc[0]]: the first of the rows; none is an [IndexError]. *)
Definition iloc0 {A : Type} (rows : list A) : Run A :=
  match rows with
  | [] => raise IndexError
  | r :: _ => ret r
  end.

End Frames.

(** [df.mean(axis=0)]: the mean of every column, as a series over the column
    labels. *)
Definition mean_axis0 {I C : Type} (df : DataFrame I C Q) : Series C Q :=
  combine (columns df)
    (map (fun j => mean (map (fun row => nth j row blank) (values df)))
         (seq 0 (List.length (columns df)))).

(** [df.fillna(d)]. *)
Definition fillna {I C : Type} (d : Q) (df : DataFrame I C (option Q)) : DataFrame I C Q :=
  {| index := index df; columns := columns df;
     values := map (map (fun v => match v with Some q => q | None => d end)) (values df) |}.

(* ================================================================== *)
(** * The tables *)

(** A row of [movies.csv]. *)
Record MovieRow : Type := {
  m_movieId : Z;
  m_title : string;
  m_genres : string
}.

(** A row of [ratings.csv]. *)
Record RatingRow : Type := {
  r_userId : Z;
  r_movieId : Z;
  r_rating : Q
}.

(** A row of the joined table. *)
Record MergedRow : Type := {
  userId : Z;
  movieId : Z;
  rating : Q;
  title : string;
  genres : string
}.

(** [pd.merge(ratings, movies, on='movieId')]: an inner join, in the order of
    the ratings; a rating whose movie is not in the catalog gives no row. *)
Definition merge (ratings : list RatingRow) (movies : list MovieRow) : list MergedRow :=
  flat_map
    (fun r =>
       map (fun m => {| userId := r_userId r; movieId := r_movieId r;
                        rating := r_rating r;
                        title := m_title m; genres := m_genres m |})
           (filter (fun m => Z.eqb (m_movieId m) (r_movieId r)) movies))
    ratings.

(** The group keys of [pivot_table]: the distinct values, sorted. *)
Definition group_keys {L : Type} (eq_dec : forall a b : L, {a = b} + {a <> b})
    (le : L -> L -> bool) (l : list L) : list L :=
  stable_sort le (nodup eq_dec l).

(** [df.pivot_table(index='userId', columns='title', values='rating')]: one
    row per user, one column per title, the mean of the ratings of that user
    for that title, and no value where there is none. *)
Definition pivot_table (df : list MergedRow) : DataFrame Z string (option Q) :=
  let users := group_keys Z.eq_dec Z.leb (map userId df) in
  let titles := group_keys string_dec String.leb (map title df) in
  {| index := users;
     columns := titles;
     values :=
       map (fun u =>
              map (fun t =>
                     mean_opt
                       (map rating
                          (filter (fun r => Z.eqb (userId r) u && String.eqb (title r) t) df)))
                  titles)
           users |}.

Definition create_user_item_matrix (ratings : list RatingRow) (movies : list MovieRow)
  : Run (DataFrame Z string Q * list MergedRow) :=
  let df := merge ratings movies in
  let user_item_matrix := fillna 0 (pivot_table df) in
  print MsgMatrixCreated ;;
  ret (user_item_matrix, df).

(* ================================================================== *)
(** * Cosine similarity (scikit-learn's [cosine_similarity]) *)

Definition dot (x y : list Q) : Q :=
  Qsum (map (fun p => (fst p * snd p)%Q) (combine x y)).

Definition squared_norm (x : list Q) : Q := dot x x.

(** A norm of zero is replaced by one before the division, so that a row of
    zeros has similarity 0 with every row. *)
Definition handle_zeros (n2 : Q) : Q := if Qeq_bool n2 0 then 1%Q else n2.

(** Entry (i, j) is [dot x_i x_j / (norm x_i * norm x_j)]; the square of the
    denominator is rational and is what is stored. *)
Definition cosine_similarity (X : list (list Q)) : list (list sim) :=
  map (fun x =>
         map (fun y =>
                {| sim_dot := dot x y;
                   sim_norm2 := (handle_zeros (squared_norm x) * handle_zeros (squared_norm y))%Q |})
             X)
      X.

#[export] Instance sim_Blank : Blank sim := {| sim_dot := 0; sim_norm2 := 1 |}.

(** The real number a [sim] stands for. *)
Definition sim_R (s : sim) : R := (Q2R (sim_dot s) / sqrt (Q2R (sim_norm2 s)))%R.

(** Comparison of two similarities through [x |-> x * |x|], which is
    increasing: [s <= t] if and only if [sim_key s <= sim_key t]. *)
Definition sim_key (s : sim) : Q := (sim_dot s * Qabs (sim_dot s) / sim_norm2 s)%Q.

Definition sim_leb (s t : sim) : bool := Qle_bool (sim_key s) (sim_key t).

(** The same computation step by step over the reals, as the library does it:
    the rows are divided by their norms, then multiplied with each other. *)
Definition norm_R (x : list Q) : R := sqrt (Q2R (squared_norm x)).

Definition handle_zeros_R (n : R) : R := if Req_dec_T n 0 then 1%R else n.

Definition normalize (X : list (list Q)) : list (list R) :=
  map (fun x => map (fun v => (Q2R v / handle_zeros_R (norm_R x))%R) x) X.

Definition dot_R (x y : list R) : R :=
  fold_right Rplus 0%R (map (fun p => (fst p * snd p)%R) (combine x y)).

Definition cosine_similarity_R (X : list (list Q)) : list (list R) :=
  let X_normalized := normalize X in
  map (fun x => map (fun y => dot_R x y) X_normalized) X_normalized.

(** The call, as an effect, on an array with at least one column (for an
    array without a column scikit-learn raises a [ValueError]). *)
Definition sklearn_cosine_similarity (X : list (list Q)) : Run (list (list sim)) :=
  ([CosineSimilarity (List.length X)], Returned (cosine_similarity X)).

(* ================================================================== *)
(** * The files *)

(** What is at the path of a table: nothing, a file that [pd.read_csv]
    cannot read or parse, with the exception it raises, or a table. *)
Inductive csv (A : Type) : Type :=
| Missing
| Unreadable (e : exn)
| Table (rows : list A).
Arguments Missing {A}.
Arguments Unreadable {A} e.
Arguments Table {A} rows.

(* ================================================================== *)
(** * The recommender *)

Section Program.

(** numpy's default sorting routine, [kind='quicksort'], which
    [Series.sort_values] uses when no [kind] is given.  It is documented to
    sort ([sorts]); of the kinds, only ['mergesort'] and ['stable'] are
    documented to keep equal values in their original order. *)
Variable quicksort : forall A : Type, (A -> A -> bool) -> list A -> list A.

(** [s.sort_values(ascending=...)]: pandas sorts in ascending order; for a
    descending order it reverses the values before and the result after. *)
Definition sort_values {L V : Type} (le : V -> V -> bool) (ascending : bool)
    (s : Series L V) : Series L V :=
  let by_value := fun a b : L * V => le (snd a) (snd b) in
  if ascending then quicksort _ by_value s
  else rev (quicksort _ by_value (rev s)).

Definition get_recommendations (user_id : Z) (user_item_matrix : DataFrame Z string Q)
    (movies_df : list MergedRow) : Run unit :=
  if negb (contains user_id (index user_item_matrix)) then
    print (MsgUserNotFound user_id)
  else
    (* 1. cosine similarity *)
    user_similarities <- sklearn_cosine_similarity (values user_item_matrix) ;;
    let user_similarity_df :=
      {| index := index user_item_matrix;
         columns := index user_item_matrix;
         values := user_similarities |} in
    (* 2. similar users *)
    similarities <- getitem user_similarity_df user_id ;;
    dropped <- drop user_id (sort_values sim_leb false similarities) ;;
    let similar_users := head 10 dropped in
    if empty similar_users then
      print MsgNoSimilarUsers
    else
      print (MsgSimilarUsers user_id similar_users) ;;
      (* 3. movies to recommend *)
      similar_users_ratings <- loc_rows user_item_matrix (map fst similar_users) ;;
      target_ratings <- loc user_item_matrix user_id ;;
      let unseen_movies_mask := map (fun v => Qeq_bool v 0) target_ratings in
      let unseen_movies := boolean_mask (columns user_item_matrix) unseen_movies_mask in
      recommendable_movies <- getitem_columns similar_users_ratings unseen_movies ;;
      let recommendation_scores :=
        sort_values Qle_bool false (mean_axis0 recommendable_movies) in
      (* 4. top recommendations *)
      let top_10_recommendations := head 10 recommendation_scores in
      let recommended_movies_details :=
        filter (fun r => contains (title r) (map fst top_10_recommendations)) movies_df in
      print (MsgHeader user_id) ;;
      for_each top_10_recommendations
        (fun item =>
           details <- iloc0 (filter (fun r => String.eqb (title r) (fst item))
                                    recommended_movies_details) ;;
           print (MsgRecommendation (title details) (genres details) (snd item))).

(* ================================================================== *)
(** * The query loop *)

Definition lower_char (c : ascii) : ascii :=
  let n := nat_of_ascii c in
  if (65 <=? n)%nat && (n <=? 90)%nat then ascii_of_nat (n + 32) else c.

(** [str.lower], on ASCII. *)
Fixpoint lower (s : string) : string :=
  match s with
  | EmptyString => EmptyString
  | String c rest => String (lower_char c) (lower rest)
  end.

(** The blanks [int] skips around the number of an ASCII string: tab, line
    feed, vertical tab, form feed, carriage return and space. *)
Definition is_space (c : ascii) : bool :=
  let n := nat_of_ascii c in
  ((9 <=? n)%nat && (n <=? 13)%nat) || (n =? 32)%nat.

Definition is_digit (c : ascii) : bool :=
  let n := nat_of_ascii c in (48 <=? n)%nat && (n <=? 57)%nat.

Definition digit_value (c : ascii) : Z := Z.of_nat (nat_of_ascii c - 48).

Fixpoint lstrip (l : list ascii) : list ascii :=
  match l with
  | [] => []
  | c :: rest => if is_space c then lstrip rest else l
  end.

Definition strip (l : list ascii) : list ascii := rev (lstrip (rev (lstrip l))).

(** Decimal digits, a single underscore allowed between two digits. *)
Fixpoint digits (acc : Z) (after_digit : bool) (l : list ascii) : option Z :=
  match l with
  | [] => if after_digit then Some acc else None
  | c :: rest =>
      if is_digit c then digits (10 * acc + digit_value c) true rest
      else if Ascii.eqb c "_"%char && after_digit then digits acc false rest
      else None
  end.


(** The number of digits [int] converts at most
    ([sys.int_info.default_max_str_digits]). *)
Definition max_str_digits : Z := 4300.

(** [int(s)] on an ASCII string: surrounding blanks, an optional sign,
    decimal digits, no more than [max_str_digits] of them.  [None] is the
    [ValueError]. *)
Definition parse_int (s : string) : option Z :=
  let l := strip (list_ascii_of_string s) in
  if (max_str_digits <? Z.of_nat (List.length (filter is_digit l)))%Z then None
  else
    match l with
    | "+"%char :: rest => digits 0 false rest
    | "-"%char :: rest => option_map Z.opp (digits 0 false rest)
    | l => digits 0 false l
    end.

Definition int (s : string) : Run Z :=
  match parse_int s with
  | Some n => ret n
  | None => raise ValueError
  end.

(** [input(prompt)]: the next line of the standard input; at its end,
    [EOFError]. *)
Definition input (stdin : list string) : Run string :=
  print MsgPrompt ;;
  match stdin with
  | [] => raise EOFError
  | line :: _ => ret line
  end.

Inductive control : Type := Break | Continue.

(** The [try] block of the loop body. *)
Definition loop_try (user_item_matrix : DataFrame Z string Q) (merged_df : list MergedRow)
    (stdin : list string) : Run control :=
  user_id_input <- input stdin ;;
  if String.eqb (lower user_id_input) "exit" then ret Break
  else
    target_user_id <- int user_id_input ;;
    get_recommendations target_user_id user_item_matrix merged_df ;;
    ret Continue.

(** One turn of [while True]: the [try] block and its two handlers. *)
Definition loop_body (user_item_matrix : DataFrame Z string Q) (merged_df : list MergedRow)
    (stdin : list string) : list event * control :=
  match loop_try user_item_matrix merged_df stdin with
  | (t, Returned c) => (t, c)
  | (t, Raised ValueError) => (t ++ [Print MsgInvalidInput], Continue)
  | (t, Raised e) => (t ++ [Print (MsgUnexpected e)], Continue)
  end.

(** [while True] for at most [fuel] turns: the events, and whether the loop
    was left. *)
Fixpoint while_true (fuel : nat) (user_item_matrix : DataFrame Z string Q)
    (merged_df : list MergedRow) (stdin : list string) : list event * bool :=
  match fuel with
  | O => ([], false)
  | S fuel' =>
      match loop_body user_item_matrix merged_df stdin with
      | (t, Break) => (t, true)
      | (t, Continue) =>
          let (t', left) := while_true fuel' user_item_matrix merged_df (tl stdin) in
          (t ++ t', left)
      end
  end.

(** [pd.read_csv(path)]: no file at the path is a [FileNotFoundError]; a
    file that cannot be read or parsed is the exception pandas raises for it
    (an empty file is an [EmptyDataError]); otherwise the rows of the table,
    which has the columns the program reads, with numbers in the columns it
    computes with. *)
Definition read_csv {A : Type} (file : csv A) : Run (list A) :=
  match file with
  | Missing => raise FileNotFoundError
  | Unreadable e => raise e
  | Table rows => ret rows
  end.

(** The [try] block of [load_data] and its handler, which catches
    [FileNotFoundError] and nothing else. *)
Definition load_data (movies_csv : csv MovieRow) (ratings_csv : csv RatingRow)
  : Run (option (list MovieRow) * option (list RatingRow)) :=
  match (movies <- read_csv movies_csv ;;
         ratings <- read_csv ratings_csv ;;
         print MsgDataLoaded ;;
         ret (Some movies, Some ratings)) with
  | (t, Raised FileNotFoundError) => (t ++ [Print MsgFilesMissing], Returned (None, None))
  | run => run
  end.

(** [main], run for at most [fuel] turns of its loop: the events and, when
    the process has ended, its exit code, which is 1 after an exception that
    nothing caught. *)
Definition main (fuel : nat) (movies_csv : csv MovieRow)
    (ratings_csv : csv RatingRow) (stdin : list string)
  : list event * option Z :=
  match load_data movies_csv ratings_csv with
  | (t0, Returned (Some movies, Some ratings)) =>
      match create_user_item_matrix ratings movies with
      | (t1, Returned (user_item_matrix, merged_df)) =>
          let (t2, left) := while_true fuel user_item_matrix merged_df stdin in
          (t0 ++ t1 ++ t2, if left then Some 0%Z else None)
      | (t1, Raised _) => (t0 ++ t1, Some 1%Z)
      end
  | (t0, Returned _) => (t0, Some 0%Z)
  | (t0, Raised _) => (t0, Some 1%Z)
  end.

End Program.

(* ================================================================== *)
(** * The recommender over the similarities as they are computed

    scikit-learn computes the similarities in floating point, and what
    [get_recommendations] sorts is the matrix that came back, whatever its
    rounding.  [get_recommendations_computed] is [get_recommendations] with
    the routine as a parameter; a floating-point number [x] is the [sim] of
    numerator [x] and squared denominator 1, and [sim_leb] is its order. *)

Definition similarity_call (cosine : list (list Q) -> list (list sim)) (X : list (list Q))
  : Run (list (list sim)) :=
  ([CosineSimilarity (List.length X)], Returned (cosine X)).

Section Computed.
Variable quicksort : forall A : Type, (A -> A -> bool) -> list A -> list A.
Variable cosine : list (list Q) -> list (list sim).

Definition get_recommendations_computed (user_id : Z)
    (user_item_matrix : DataFrame Z string Q) (movies_df : list MergedRow) : Run unit :=
  if negb (contains user_id (index user_item_matrix)) then
    print (MsgUserNotFound user_id)
  else
    (* 1. cosine similarity *)
    user_similarities <- similarity_call cosine (values user_item_matrix) ;;
    let user_similarity_df :=
      {| index := index user_item_matrix;
         columns := index user_item_matrix;
         values := user_similarities |} in
    (* 2. similar users *)
    similarities <- getitem user_similarity_df user_id ;;
    dropped <- drop user_id (sort_values quicksort sim_leb false similarities) ;;
    let similar_users := head 10 dropped in
    if empty similar_users then
      print MsgNoSimilarUsers
    else
      print (MsgSimilarUsers user_id similar_users) ;;
      (* 3. movies to recommend *)
      similar_users_ratings <- loc_rows user_item_matrix (map fst similar_users) ;;
      target_ratings <- loc user_item_matrix user_id ;;
      let unseen_movies_mask := map (fun v => Qeq_bool v 0) target_ratings in
      let unseen_movies := boolean_mask (columns user_item_matrix) unseen_movies_mask in
      recommendable_movies <- getitem_columns similar_users_ratings unseen_movies ;;
      let recommendation_scores :=
        sort_values quicksort Qle_bool false (mean_axis0 recommendable_movies) in
      (* 4. top recommendations *)
      let top_10_recommendations := head 10 recommendation_scores in
      let recommended_movies_details :=
        filter (fun r => contains (title r) (map fst top_10_recommendations)) movies_df in
      print (MsgHeader user_id) ;;
      for_each top_10_recommendations
        (fun item =>
           details <- iloc0 (filter (fun r => String.eqb (title r) (fst item))
                                    recommended_movies_details) ;;
           print (MsgRecommendation (title details) (genres details) (snd item))).

End Computed.

(** The recommendations a run printed, in order. *)
Definition recommendations (t : list event) : list (string * string * Q) :=
  flat_map (fun e => match e with
                     | Print (MsgRecommendation t g s) => [(t, g, s)]
                     | _ => []
                     end) t.

(** The similar users a run printed. *)
Definition similar_users_printed (t : list event) : list (Series Z sim) :=
  flat_map (fun e => match e with
                     | Print (MsgSimilarUsers _ su) => [su]
                     | _ => []
                     end) t.

(* ================================================================== *)
(** * The two frames as objects

    [main] holds the matrix and the joined table and hands them to every
    call of [get_recommendations]: Python passes the two objects themselves,
    and a pandas frame can be changed in place ([df.loc[i] = row],
    [df[c] = column], [inplace=True]).  Here the two objects are a heap, a
    statement of the function that touches one of them is an access to the
    heap, and the call returns the heap it leaves behind.  What the
    function builds from them (series, frames of selected rows) is new
    objects that nothing else holds. *)

Record heap : Type := {
  matrix_object : DataFrame Z string Q;
  table_object : list MergedRow
}.

(** A computation on the heap. *)
Definition Stateful (A : Type) : Type := heap -> heap * Run A.

Definition on_store {A B : Type} (m : Stateful A) (f : A -> Stateful B) : Stateful B :=
  fun s =>
    match m s with
    | (s1, (t, Returned a)) =>
        match f a s1 with
        | (s2, (t', r)) => (s2, (t ++ t', r))
        end
    | (s1, (t, Raised e)) => (s1, (t, Raised e))
    end.

(** A computation that touches neither object. *)
Definition aside {A : Type} (m : Run A) : Stateful A := fun s => (s, m).

(** An access that reads the matrix: an attribute, [in], [.loc[...]] on the
    right of an assignment, or the matrix as the argument of
    [cosine_similarity], which works on a copy of its input. *)
Definition read_matrix {A : Type} (access : DataFrame Z string Q -> Run A) : Stateful A :=
  fun s => (s, access (matrix_object s)).

(** An access that reads the table: [movies_df[...]] on the right of an
    assignment. *)
Definition read_table {A : Type} (access : list MergedRow -> Run A) : Stateful A :=
  fun s => (s, access (table_object s)).

(** An access that changes the matrix in place, as [df.loc[i] = row] or a
    method called with [inplace=True] would. *)
Definition write_matrix (change : DataFrame Z string Q -> DataFrame Z string Q)
  : Stateful unit :=
  fun s => ({| matrix_object := change (matrix_object s);
               table_object := table_object s |}, ret tt).

(** An access that changes the table in place. *)
Definition write_table (change : list MergedRow -> list MergedRow) : Stateful unit :=
  fun s => ({| matrix_object := matrix_object s;
               table_object := change (table_object s) |}, ret tt).

Section Objects.
Variable quicksort : forall A : Type, (A -> A -> bool) -> list A -> list A.

(** [get_recommendations], statement by statement, with its two arguments in
    the heap. *)
Definition get_recommendations_on (user_id : Z) : Stateful unit :=
  on_store (read_matrix (fun user_item_matrix =>
                           ret (contains user_id (index user_item_matrix))))
    (fun present =>
  if negb present then
    aside (print (MsgUserNotFound user_id))
  else
    (* 1. cosine similarity *)
    on_store (read_matrix (fun user_item_matrix =>
                             sklearn_cosine_similarity (values user_item_matrix)))
      (fun user_similarities =>
    on_store (read_matrix (fun user_item_matrix => ret (index user_item_matrix)))
      (fun labels =>
    let user_similarity_df :=
      {| index := labels; columns := labels; values := user_similarities |} in
    (* 2. similar users *)
    on_store (aside (similarities <- getitem user_similarity_df user_id ;;
                     drop user_id (sort_values quicksort sim_leb false similarities)))
      (fun dropped =>
    let similar_users := head 10 dropped in
    if empty similar_users then
      aside (print MsgNoSimilarUsers)
    else
      on_store (aside (print (MsgSimilarUsers user_id similar_users)))
        (fun _ =>
      (* 3. movies to recommend *)
      on_store (read_matrix (fun user_item_matrix =>
                               loc_rows user_item_matrix (map fst similar_users)))
        (fun similar_users_ratings =>
      on_store (read_matrix (fun user_item_matrix => loc user_item_matrix user_id))
        (fun target_ratings =>
      let unseen_movies_mask := map (fun v => Qeq_bool v 0) target_ratings in
      on_store (read_matrix (fun user_item_matrix =>
                               ret (boolean_mask (columns user_item_matrix)
                                      unseen_movies_mask)))
        (fun unseen_movies =>
      on_store (aside (getitem_columns similar_users_ratings unseen_movies))
        (fun recommendable_movies =>
      let recommendation_scores :=
        sort_values quicksort Qle_bool false (mean_axis0 recommendable_movies) in
      (* 4. top recommendations *)
      let top_10_recommendations := head 10 recommendation_scores in
      on_store (read_table (fun movies_df =>
                              ret (filter (fun r => contains (title r)
                                                      (map fst top_10_recommendations))
                                          movies_df)))
        (fun recommended_movies_details =>
      aside (print (MsgHeader user_id) ;;
             for_each top_10_recommendations
               (fun item =>
                  details <- iloc0 (filter (fun r => String.eqb (title r) (fst item))
                                           recommended_movies_details) ;;
                  print (MsgRecommendation (title details) (genres details)
                           (snd item)))))))))))))).

(** Two calls for the same user, one after the other on the same two
    objects, as two turns of the loop of [main] make them. *)
Definition two_calls (user_id : Z) : Stateful unit :=
  on_store (get_recommendations_on user_id) (fun _ => get_recommendations_on user_id).

End Objects.

(* ================================================================== *)
(** * Reading the matrix by labels

    The quantities the properties below are stated with. *)

(** The rating vector of a user. *)
Definition row (M : DataFrame Z string Q) (u : Z) : list Q :=
  match position u (index M) with
  | Some k => nth k (values M) []
  | None => []
  end.

(** The matrix value of a user in the column of a title. *)
Definition cell (M : DataFrame Z string Q) (u : Z) (t : string) : Q :=
  match position t (columns M) with
  | Some j => nth j (row M u) (0 : Q)
  | None => 0
  end.

(** The similarity of two users. *)
Definition similarity (M : DataFrame Z string Q) (u v : Z) : sim :=
  {| sim_dot := dot (row M u) (row M v);
     sim_norm2 := (handle_zeros (squared_norm (row M u)) *
                   handle_zeros (squared_norm (row M v)))%Q |}.

(** Every user other than the target, in row order, with the similarity to
    the target. *)
Definition other_users (M : DataFrame Z string Q) (user_id : Z) : Series Z sim :=
  map (fun u => (u, similarity M u user_id))
      (filter (fun u => negb (Z.eqb user_id u)) (index M)).

(** The titles the target user has the value 0 for, in column order. *)
Definition unrated (M : DataFrame Z string Q) (user_id : Z) : list string :=
  filter (fun t => Qeq_bool (cell M user_id t) 0) (columns M).

(** The unweighted arithmetic mean of a title's column over some users: the
    sum of their matrix values, zeros included, divided by their number. *)
Definition unweighted_mean (M : DataFrame Z string Q) (users : list Z) (t : string) : Q :=
  (Qsum (map (fun u => cell M u t) users) / inject_Z (Z.of_nat (List.length users)))%Q.

(** The candidates with their scores, in column order. *)
Definition candidates (M : DataFrame Z string Q) (user_id : Z) (users : list Z)
  : Series string Q :=
  map (fun t => (t, unweighted_mean M users t)) (unrated M user_id).

(** The values of the locals [similar_users] and [top_10_recommendations] of
    [get_recommendations], read by labels. *)
Section Selection.
Variable quicksort : forall A : Type, (A -> A -> bool) -> list A -> list A.

Definition similar_users (M : DataFrame Z string Q) (user_id : Z) : Series Z sim :=
  head 10
    (filter (fun entry => negb (Z.eqb user_id (fst entry)))
       (sort_values quicksort sim_leb false
          (map (fun u => (u, similarity M u user_id)) (index M)))).

Definition top_10_recommendations (M : DataFrame Z string Q) (user_id : Z)
  : Series string Q :=
  head 10
    (sort_values quicksort Qle_bool false
       (candidates M user_id (map fst (similar_users M user_id)))).

End Selection.

(** The entry of the similarity matrix as it was computed, for the row of
    [u] and the column of [v]. *)
Definition computed_similarity (cosine : list (list Q) -> list (list sim))
    (M : DataFrame Z string Q) (u v : Z) : sim :=
  match position v (index M) with
  | Some j =>
      nth j (match position u (index M) with
             | Some k => nth k (cosine (values M)) []
             | None => []
             end) blank
  | None => blank
  end.

(** Every user other than the target, in row order, with the computed
    similarity to the target. *)
Definition other_users_computed (cosine : list (list Q) -> list (list sim))
    (M : DataFrame Z string Q) (user_id : Z) : Series Z sim :=
  map (fun u => (u, computed_similarity cosine M u user_id))
      (filter (fun u => negb (Z.eqb user_id u)) (index M)).

(** The value of the local [similar_users] of [get_recommendations_computed]. *)
Definition similar_users_computed
    (quicksort : forall A : Type, (A -> A -> bool) -> list A -> list A)
    (cosine : list (list Q) -> list (list sim))
    (M : DataFrame Z string Q) (user_id : Z) : Series Z sim :=
  head 10
    (filter (fun entry => negb (Z.eqb user_id (fst entry)))
       (sort_values quicksort sim_leb false
          (map (fun u => (u, computed_similarity cosine M u user_id)) (index M)))).

(** The routine returns one row for every row it is given. *)
Definition row_per_user (cosine : list (list Q) -> list (list sim)) : Prop :=
  forall X, List.length (cosine X) = List.length X.

(** A series in descending order of its values. *)
Definition descending {L V : Type} (le : V -> V -> bool) (s : Series L V) : Prop :=
  StronglySorted (fun a b => le (snd b) (snd a) = true) s.

(** Descending order with equal values left in their original order: what a
    stable sort gives. *)
Definition sort_descending_stable {L V : Type} (le : V -> V -> bool) (s : Series L V)
  : Series L V :=
  stable_sort (fun a b => le (snd b) (snd a)) s.

(** The first row of the joined table with a given title. *)
Definition first_match (movies_df : list MergedRow) (t : string) : option MergedRow :=
  find (fun r => String.eqb (title r) t) movies_df.

(** The genre string of that row. *)
Definition genre_of (movies_df : list MergedRow) (t : string) : string :=
  match first_match movies_df t with
  | Some details => genres details
  | None => ""
  end.

(** The loop body of [get_recommendations] for one scored title. *)
Definition show_recommendation (movies_df : list MergedRow) (item : string * Q) : Run unit :=
  match first_match movies_df (fst item) with
  | Some details => print (MsgRecommendation (title details) (genres details) (snd item))
  | None => raise IndexError
  end.

(** Every title of the matrix has a row in the joined table. *)
Definition covers (movies_df : list MergedRow) (M : DataFrame Z string Q) : Prop :=
  forall t, In t (columns M) -> exists r, In r movies_df /\ title r = t.

(* ================================================================== *)
(** * Reading the tables *)

(** The ratings a user gave to the movies of a title, in the order of the
    joined table. *)
Definition ratings_of (df : list MergedRow) (u : Z) (t : string) : list Q :=
  map rating (filter (fun r => Z.eqb (userId r) u && String.eqb (title r) t) df).

(** The movie of a rating is in the catalog. *)
Definition catalogued (movies : list MovieRow) (r : RatingRow) : bool :=
  existsb (fun m => Z.eqb (m_movieId m) (r_movieId r)) movies.

(** The rating a row of the joined table comes from. *)
Definition rating_of_row (row : MergedRow) : RatingRow :=
  {| r_userId := userId row; r_movieId := movieId row; r_rating := rating row |}.

(** The value [fillna] leaves in a cell. *)
Definition filled (d : Q) (v : option Q) : Q :=
  match v with
  | Some q => q
  | None => d
  end.

(** An ASCII letter. *)
Definition is_letter (c : ascii) : bool :=
  let n := nat_of_ascii c in
  ((65 <=? n)%nat && (n <=? 90)%nat) || ((97 <=? n)%nat && (n <=? 122)%nat).

(* ================================================================== *)
(** * Sample data *)

Definition sample_movies : list MovieRow :=
  [ {| m_movieId := 10; m_title := "A"; m_genres := "Drama" |};
    {| m_movieId := 20; m_title := "B"; m_genres := "Comedy" |};
    {| m_movieId := 30; m_title := "C"; m_genres := "Action" |} ].

(** User 1 rated A; user 2 rated A and B; user 3 rated C. *)
Definition sample_ratings : list RatingRow :=
  [ {| r_userId := 1; r_movieId := 10; r_rating := 5 |};
    {| r_userId := 2; r_movieId := 10; r_rating := 5 |};
    {| r_userId := 2; r_movieId := 20; r_rating := 4 |};
    {| r_userId := 3; r_movieId := 30; r_rating := 5 |} ].

Definition sample_table : list MergedRow := merge sample_ratings sample_movies.

Definition sample_matrix : DataFrame Z string Q := fillna 0 (pivot_table sample_table).

(** The two objects [main] would hold for the sample data. *)
Definition sample_heap : heap :=
  {| matrix_object := sample_matrix; table_object := sample_table |}.

(** Users 2 and 3 have the same ratings, hence the same similarity to user 1. *)
Definition twin_ratings : list RatingRow :=
  [ {| r_userId := 1; r_movieId := 10; r_rating := 5 |};
    {| r_userId := 2; r_movieId := 10; r_rating := 4 |};
    {| r_userId := 2; r_movieId := 20; r_rating := 3 |};
    {| r_userId := 3; r_movieId := 10; r_rating := 4 |};
    {| r_userId := 3; r_movieId := 20; r_rating := 3 |} ].

Definition twin_table : list MergedRow := merge twin_ratings sample_movies.

Definition twin_matrix : DataFrame Z string Q := fillna 0 (pivot_table twin_table).

(** User 2 gave B and C the same rating; user 1 rated neither. *)
Definition level_ratings : list RatingRow :=
  [ {| r_userId := 1; r_movieId := 10; r_rating := 5 |};
    {| r_userId := 2; r_movieId := 10; r_rating := 5 |};
    {| r_userId := 2; r_movieId := 20; r_rating := 4 |};
    {| r_userId := 2; r_movieId := 30; r_rating := 4 |} ].

Definition level_table : list MergedRow := merge level_ratings sample_movies.

Definition level_matrix : DataFrame Z string Q := fillna 0 (pivot_table level_table).

(** The only rating of user 2 is a 0: the rating vector of user 2 is all-zero. *)
Definition zero_ratings : list RatingRow :=
  [ {| r_userId := 1; r_movieId := 10; r_rating := 5 |};
    {| r_userId := 2; r_movieId := 20; r_rating := 0 |} ].

Definition zero_table : list MergedRow := merge zero_ratings sample_movies.

Definition zero_matrix : DataFrame Z string Q := fillna 0 (pivot_table zero_table).

(** A matrix with a single user. *)
Definition lone_matrix : DataFrame Z string Q :=
  {| index := [1%Z]; columns := ["A"]; values := [[5%Q]] |}.

(** Twelve users: all rated A with 5, and user [k] rated B with [k - 1]
    (user 1 did not rate B), so that the similarity to user 1 decreases along
    the rows. *)
Definition crowd_ratings : list RatingRow :=
  map (fun k => {| r_userId := k; r_movieId := 10; r_rating := 5 |})
      [1; 2; 3; 4; 5; 6; 7; 8; 9; 10; 11; 12]%Z
  ++ map (fun k => {| r_userId := k; r_movieId := 20; r_rating := inject_Z (k - 1) |})
         [2; 3; 4; 5; 6; 7; 8; 9; 10; 11; 12]%Z.

Definition crowd_table : list MergedRow := merge crowd_ratings sample_movies.

Definition crowd_matrix : DataFrame Z string Q := fillna 0 (pivot_table crowd_table).

(** Twelve movies; user 1 rated the first one only, user 2 rated all of them,
    the later ones lower. *)
Definition shelf_movies : list MovieRow :=
  map (fun p => {| m_movieId := fst p; m_title := snd p; m_genres := "Drama" |})
      [(1%Z, "M01"); (2%Z, "M02"); (3%Z, "M03"); (4%Z, "M04"); (5%Z, "M05");
       (6%Z, "M06"); (7%Z, "M07"); (8%Z, "M08"); (9%Z, "M09"); (10%Z, "M10");
       (11%Z, "M11"); (12%Z, "M12")].

Definition shelf_ratings : list RatingRow :=
  {| r_userId := 1; r_movieId := 1; r_rating := 5 |}
  :: map (fun p => {| r_userId := 2; r_movieId := fst p; r_rating := snd p |})
       [(1%Z, 5%Q); (2%Z, 5%Q); (3%Z, 9 # 2); (4%Z, 4%Q); (5%Z, 7 # 2); (6%Z, 3%Q);
        (7%Z, 5 # 2); (8%Z, 2%Q); (9%Z, 3 # 2); (10%Z, 1%Q); (11%Z, 1 # 2);
        (12%Z, 1 # 2)].

Definition shelf_table : list MergedRow := merge shelf_ratings shelf_movies.

Definition shelf_matrix : DataFrame Z string Q := fillna 0 (pivot_table shelf_table).

(** Forty-one users and two movies.  User 41 rated A only; of the forty
    users before, the odd ones rated A with 4 and B with 3 and the even ones
    A with 3 and B with 4: the odd users all have the similarity 4/5 to user
    41, the even users all 3/5. *)
Definition hall_ratings : list RatingRow :=
  flat_map (fun k => [ {| r_userId := k; r_movieId := 10;
                          r_rating := if Z.odd k then 4 else 3 |};
                       {| r_userId := k; r_movieId := 20;
                          r_rating := if Z.odd k then 3 else 4 |} ])
           (map Z.of_nat (seq 1 40))
  ++ [ {| r_userId := 41; r_movieId := 10; r_rating := 5 |} ].

Definition hall_table : list MergedRow := merge hall_ratings sample_movies.

Definition hall_matrix : DataFrame Z string Q := fillna 0 (pivot_table hall_table).

(** Twenty-four movies; user 1 rated the first one only; user 2 rated all of
    them, the first with 5 and the others with 4 and 3 in turn. *)
Definition rack_movies : list MovieRow :=
  map (fun p => {| m_movieId := fst p; m_title := snd p; m_genres := "Drama" |})
      [(1%Z, "M01"); (2%Z, "M02"); (3%Z, "M03"); (4%Z, "M04"); (5%Z, "M05");
       (6%Z, "M06"); (7%Z, "M07"); (8%Z, "M08"); (9%Z, "M09"); (10%Z, "M10");
       (11%Z, "M11"); (12%Z, "M12"); (13%Z, "M13"); (14%Z, "M14"); (15%Z, "M15");
       (16%Z, "M16"); (17%Z, "M17"); (18%Z, "M18"); (19%Z, "M19"); (20%Z, "M20");
       (21%Z, "M21"); (22%Z, "M22"); (23%Z, "M23"); (24%Z, "M24")].

Definition rack_ratings : list RatingRow :=
  [ {| r_userId := 1; r_movieId := 1; r_rating := 5 |};
    {| r_userId := 2; r_movieId := 1; r_rating := 5 |} ]
  ++ map (fun k => {| r_userId := 2; r_movieId := k;
                      r_rating := if Z.even k then 4 else 3 |})
         (map Z.of_nat (seq 2 23)).

Definition rack_table : list MergedRow := merge rack_ratings rack_movies.

Definition rack_matrix : DataFrame Z string Q := fillna 0 (pivot_table rack_table).

(* ================================================================== *)
(** * Sorting *)

Section Sorting.
Context {A : Type} (le : A -> A -> bool).
Hypothesis le_total : total le.
Hypothesis le_trans : transitive le.

Let R := fun x y : A => le x y = true.

Lemma insert_perm (x : A) (l : list A) : Permutation (x :: l) (insert le x l).
Proof.
  induction l as [|y l IH]; simpl.
  - apply Permutation_refl.
  - destruct (le x y).
    + apply Permutation_refl.
    + eapply perm_trans; [apply perm_swap|]. now apply perm_skip.
Qed.

Lemma insert_behind_perm (x : A) (l : list A) : Permutation (x :: l) (insert_behind le x l).
Proof.
  induction l as [|y l IH]; simpl.
  - apply Permutation_refl.
  - destruct (le y x).
    + eapply perm_trans; [apply perm_swap|]. now apply perm_skip.
    + apply Permutation_refl.
Qed.

Lemma stable_sort_perm (l : list A) : Permutation l (stable_sort le l).
Proof.
  induction l as [|x l IH]; simpl.
  - apply perm_nil.
  - eapply perm_trans; [apply perm_skip, IH | apply insert_perm].
Qed.

Lemma not_le_ge (x y : A) : le x y = false -> le y x = true.
Proof.
  intros E. destruct (le_total x y) as [H|H]; [congruence | exact H].
Qed.

Lemma insert_sorted (x : A) (l : list A) :
  StronglySorted R l -> StronglySorted R (insert le x l).
Proof.
  induction 1 as [|y l Hs IH Hy]; simpl.
  - constructor; [constructor | constructor].
  - destruct (le x y) eqn:E.
    + constructor; [now constructor|].
      constructor; [exact E|].
      eapply Forall_impl; [|exact Hy]. intros z Hz. exact (le_trans _ _ _ E Hz).
    + constructor; [exact IH|].
      apply Forall_forall. intros z Hz.
      apply (Permutation_in _ (Permutation_sym (insert_perm x l))) in Hz.
      destruct Hz as [<-|Hz].
      * now apply not_le_ge.
      * rewrite Forall_forall in Hy. now apply Hy.
Qed.

Lemma insert_behind_sorted (x : A) (l : list A) :
  StronglySorted R l -> StronglySorted R (insert_behind le x l).
Proof.
  induction 1 as [|y l Hs IH Hy]; simpl.
  - constructor; [constructor | constructor].
  - destruct (le y x) eqn:E.
    + constructor; [exact IH|].
      apply Forall_forall. intros z Hz.
      apply (Permutation_in _ (Permutation_sym (insert_behind_perm x l))) in Hz.
      destruct Hz as [<-|Hz].
      * exact E.
      * rewrite Forall_forall in Hy. now apply Hy.
    + apply not_le_ge in E.
      constructor; [now constructor|].
      constructor; [exact E|].
      eapply Forall_impl; [|exact Hy]. intros z Hz. exact (le_trans _ _ _ E Hz).
Qed.

Lemma stable_sort_sorted (l : list A) : StronglySorted R (stable_sort le l).
Proof.
  induction l as [|x l IH]; simpl; [constructor | now apply insert_sorted].
Qed.

End Sorting.

Lemma stable_sort_sorts : sorts (@stable_sort).
Proof.
  intros A le Ht Htr l. split.
  - apply stable_sort_perm.
  - now apply stable_sort_sorted.
Qed.

Lemma StronglySorted_snoc {A : Type} (R : A -> A -> Prop) (l : list A) (a : A) :
  StronglySorted R l -> Forall (fun x => R x a) l -> StronglySorted R (l ++ [a]).
Proof.
  induction 1 as [|y l Hs IH Hy]; intros Ha; simpl.
  - constructor; constructor.
  - inversion Ha as [|? ? Hya Hla]; subst.
    constructor; [now apply IH|].
    apply Forall_app. split; [exact Hy | now constructor].
Qed.

Lemma StronglySorted_rev {A : Type} (R : A -> A -> Prop) (l : list A) :
  StronglySorted R l -> StronglySorted (fun x y => R y x) (rev l).
Proof.
  induction 1 as [|y l Hs IH Hy]; simpl.
  - constructor.
  - apply StronglySorted_snoc; [exact IH|].
    apply Forall_rev. exact Hy.
Qed.

Lemma StronglySorted_filter {A : Type} (R : A -> A -> Prop) (f : A -> bool) (l : list A) :
  StronglySorted R l -> StronglySorted R (filter f l).
Proof.
  induction 1 as [|y l Hs IH Hy]; simpl.
  - constructor.
  - destruct (f y); [|exact IH].
    constructor; [exact IH|].
    apply Forall_forall. intros z Hz. apply filter_In in Hz.
    rewrite Forall_forall in Hy. now apply Hy.
Qed.

Lemma StronglySorted_firstn {A : Type} (R : A -> A -> Prop) (n : nat) (l : list A) :
  StronglySorted R l -> StronglySorted R (firstn n l).
Proof.
  intros Hs. revert n. induction Hs as [|y l Hs IH Hy]; intros [|n]; simpl; try constructor.
  - apply IH.
  - apply Forall_forall. intros z Hz.
    rewrite Forall_forall in Hy. apply Hy.
    rewrite <- (firstn_skipn n l). apply in_or_app. now left.
Qed.

Lemma Permutation_filter' {A : Type} (f : A -> bool) (l l' : list A) :
  Permutation l l' -> Permutation (filter f l) (filter f l').
Proof.
  induction 1 as [| x l l' HP IH | x y l | l l' l'' HP1 IH1 HP2 IH2]; simpl.
  - constructor.
  - destruct (f x); [now constructor | exact IH].
  - destruct (f x), (f y); try apply Permutation_refl. apply perm_swap.
  - eapply perm_trans; eassumption.
Qed.

(** What [sort_values] guarantees for a descending sort. *)
Section SortValues.
Variable quicksort : forall A : Type, (A -> A -> bool) -> list A -> list A.
Hypothesis quicksort_sorts : sorts quicksort.
Context {L V : Type} (le : V -> V -> bool).
Hypothesis le_total : total le.
Hypothesis le_trans : transitive le.

Lemma sort_values_perm (s : Series L V) :
  Permutation s (sort_values quicksort le false s).
Proof.
  unfold sort_values.
  assert (Ht : total (fun a b : L * V => le (snd a) (snd b))) by (intros a b; apply le_total).
  assert (Htr : transitive (fun a b : L * V => le (snd a) (snd b)))
    by (intros a b c; apply le_trans).
  destruct (quicksort_sorts _ _ Ht Htr (rev s)) as [HP _].
  eapply perm_trans; [apply Permutation_rev|].
  eapply perm_trans; [exact HP|]. apply Permutation_rev.
Qed.

Lemma sort_values_descending (s : Series L V) :
  descending le (sort_values quicksort le false s).
Proof.
  unfold sort_values, descending.
  assert (Ht : total (fun a b : L * V => le (snd a) (snd b))) by (intros a b; apply le_total).
  assert (Htr : transitive (fun a b : L * V => le (snd a) (snd b)))
    by (intros a b c; apply le_trans).
  destruct (quicksort_sorts _ _ Ht Htr (rev s)) as [_ HS].
  apply (StronglySorted_rev _ _ HS).
Qed.

End SortValues.

Lemma Qle_bool_total : total Qle_bool.
Proof.
  intros x y. rewrite !Qle_bool_iff.
  destruct (Qlt_le_dec x y) as [H|H]; [left; now apply Qlt_le_weak | now right].
Qed.

Lemma Qle_bool_transitive : transitive Qle_bool.
Proof.
  intros x y z. rewrite !Qle_bool_iff. apply Qle_trans.
Qed.

Lemma sim_leb_total : total sim_leb.
Proof. intros s t. apply Qle_bool_total. Qed.

Lemma sim_leb_transitive : transitive sim_leb.
Proof. intros s t u. apply Qle_bool_transitive. Qed.
(** * Labels and positions *)

Section Positions.
Context {L : Type} `{Label L}.

Lemma label_eqb_refl (x : L) : label_eqb x x = true.
Proof. now apply label_eqb_eq. Qed.

Lemma contains_In (x : L) (l : list L) : contains x l = true <-> In x l.
Proof.
  unfold contains. rewrite existsb_exists. split.
  - intros (y & Hy & E). apply label_eqb_eq in E. now subst.
  - intros Hx. exists x. split; [exact Hx | apply label_eqb_refl].
Qed.

Lemma position_Some (x : L) (l : list L) (k : nat) :
  position x l = Some k -> (k < List.length l)%nat /\ nth_error l k = Some x.
Proof.
  revert k. induction l as [|y l IH]; intros k; simpl; [discriminate|].
  destruct (label_eqb x y) eqn:E.
  - intros [= <-]. apply label_eqb_eq in E. subst. split; [lia | reflexivity].
  - destruct (position x l) as [k'|]; simpl; [|discriminate].
    intros [= <-]. destruct (IH k' eq_refl) as [H1 H2]. split; [lia | exact H2].
Qed.

Lemma position_In (x : L) (l : list L) :
  In x l -> exists k, position x l = Some k.
Proof.
  induction l as [|y l IH]; simpl; [intros []|].
  intros Hx. destruct (label_eqb x y) eqn:E; [now exists 0%nat|].
  destruct Hx as [->|Hx]; [rewrite label_eqb_refl in E; discriminate|].
  destruct (IH Hx) as [k ->]. now exists (S k).
Qed.

Lemma position_nth (l : list L) (k : nat) (d : L) :
  NoDup l -> (k < List.length l)%nat -> position (nth k l d) l = Some k.
Proof.
  intros Hnd. revert k. induction Hnd as [|y l Hy Hnd IH]; intros k Hk; simpl in *; [lia|].
  destruct k as [|k].
  - now rewrite label_eqb_refl.
  - destruct (label_eqb (nth k l d) y) eqn:E.
    + apply label_eqb_eq in E. exfalso. apply Hy. rewrite <- E. apply nth_In. lia.
    + rewrite IH by lia. reflexivity.
Qed.

Lemma lookup_In (x : L) (l : list L) :
  In x l -> exists k, position x l = Some k /\ lookup x l = ret k.
Proof.
  intros Hx. destruct (position_In x l Hx) as [k Hk]. exists k. split; [exact Hk|].
  unfold lookup. now rewrite Hk.
Qed.

(** Values laid out along labels are the values found by label. *)
Lemma combine_by_label {X Y : Type} (l : list L) (xs : list X) (g : X -> Y) (d : X) :
  NoDup l -> List.length xs = List.length l ->
  combine l (map g xs) =
  map (fun a => (a, g (match position a l with Some k => nth k xs d | None => d end))) l.
Proof.
  intros Hnd Hlen.
  destruct l as [|a0 l'] eqn:El.
  - reflexivity.
  - rewrite <- El in *.
    apply (nth_ext _ _ (a0, g d) (a0, g (match position a0 l with
                                          | Some k => nth k xs d | None => d end))).
    + rewrite length_combine, !length_map, Hlen. apply Nat.min_id.
    + intros n Hn.
      rewrite length_combine, length_map, Hlen, Nat.min_id in Hn.
      rewrite combine_nth by (rewrite length_map; now symmetry).
      rewrite (map_nth (fun a => (a, g (match position a l with
                                        | Some k => nth k xs d | None => d end))) l a0 n).
      rewrite (position_nth l n a0 Hnd Hn).
      f_equal. apply map_nth.
Qed.

End Positions.

Lemma filter_snd_map {X : Type} (h : X -> bool) (l : list X) :
  map fst (filter snd (map (fun a => (a, h a)) l)) = filter h l.
Proof.
  induction l as [|a l IH]; simpl; [reflexivity|].
  destruct (h a); simpl; now rewrite IH.
Qed.

Lemma combine_seq {X Y : Type} (l : list X) (G : nat -> Y) (F : X -> Y) (d : X) :
  (forall j, (j < List.length l)%nat -> G j = F (nth j l d)) ->
  combine l (map G (seq 0 (List.length l))) = map (fun a => (a, F a)) l.
Proof.
  intros HG.
  apply (nth_ext _ _ (d, F d) (d, F d)).
  - rewrite length_combine, !length_map, length_seq. apply Nat.min_id.
  - intros n Hn.
    rewrite length_combine, length_map, length_seq, Nat.min_id in Hn.
    rewrite combine_nth by (now rewrite length_map, length_seq).
    rewrite (map_nth (fun a => (a, F a)) l d n).
    f_equal.
    rewrite (nth_indep _ (F d) (G 0%nat)) by (now rewrite length_map, length_seq).
    rewrite map_nth, seq_nth by exact Hn. now apply HG.
Qed.

(** * Computations *)

Lemma bind_Returned {A B : Type} (t : list event) (a : A) (f : A -> Run B) :
  bind (t, Returned a) f = (t ++ fst (f a), snd (f a)).
Proof. unfold bind. now destruct (f a). Qed.

Lemma bind_ret {A B : Type} (a : A) (f : A -> Run B) : bind (ret a) f = f a.
Proof. unfold ret. rewrite bind_Returned. now destruct (f a). Qed.

Lemma map_run_ret {A B : Type} (f : A -> Run B) (g : A -> B) (l : list A) :
  (forall x, In x l -> f x = ret (g x)) -> map_run f l = ret (map g l).
Proof.
  induction l as [|x l IH]; intros Hf; simpl; [reflexivity|].
  rewrite (Hf x) by now left. rewrite bind_ret.
  rewrite IH by (intros y Hy; apply Hf; now right).
  now rewrite bind_ret.
Qed.

Lemma for_each_ext {A : Type} (l : list A) (f g : A -> Run unit) :
  (forall x, In x l -> f x = g x) -> for_each l f = for_each l g.
Proof.
  induction l as [|x l IH]; intros Hfg; simpl; [reflexivity|].
  rewrite (Hfg x) by now left.
  rewrite IH by (intros y Hy; apply Hfg; now right). reflexivity.
Qed.

(* ================================================================== *)
(** * The run of the recommender *)

Section Run.
Variable quicksort : forall A : Type, (A -> A -> bool) -> list A -> list A.
Hypothesis quicksort_sorts : sorts quicksort.
Variable M : DataFrame Z string Q.
Variable movies_df : list MergedRow.
Variable user_id : Z.
Hypothesis M_wf : well_formed M.
Hypothesis user_present : In user_id (index M).

Lemma loc_row (u : Z) : In u (index M) -> loc M u = ret (row M u).
Proof.
  intros Hu. unfold loc, row.
  destruct (lookup_In u (index M) Hu) as (k & Hk & ->).
  now rewrite bind_ret, Hk.
Qed.

Lemma row_length (u : Z) : In u (index M) -> List.length (row M u) = List.length (columns M).
Proof.
  intros Hu. unfold row.
  destruct (position_In u (index M) Hu) as [k Hk]. rewrite Hk.
  destruct (position_Some _ _ _ Hk) as [Hlt _].
  destruct M_wf as (_ & _ & Hlen & Hrows).
  rewrite Forall_forall in Hrows. apply Hrows. apply nth_In. lia.
Qed.

Lemma similarities_column :
  getitem {| index := index M; columns := index M;
             values := cosine_similarity (values M) |} user_id
  = ret (map (fun u => (u, similarity M u user_id)) (index M)).
Proof.
  unfold getitem. simpl.
  destruct (lookup_In user_id (index M) user_present) as (j & Hj & ->).
  rewrite bind_ret. f_equal. f_equal.
  destruct M_wf as (Hnd & _ & Hlen & _).
  destruct (position_Some _ _ _ Hj) as [Hlt _].
  unfold cosine_similarity. rewrite map_map.
  rewrite (combine_by_label (index M) (values M) _ [] Hnd Hlen).
  apply map_ext. intros u. f_equal.
  change (match position u (index M) with
          | Some k => nth k (values M) []
          | None => []
          end) with (row M u).
  set (S := fun x y : list Q =>
              {| sim_dot := dot x y;
                 sim_norm2 := (handle_zeros (squared_norm x) * handle_zeros (squared_norm y))%Q |}).
  change (nth j (map (fun y => S (row M u) y) (values M)) blank = similarity M u user_id).
  rewrite (nth_indep _ (blank : sim) (S (row M u) [])) by (rewrite length_map; lia).
  rewrite (map_nth (fun y => S (row M u) y)).
  unfold similarity. replace (row M user_id) with (nth j (values M) []) by (unfold row; now rewrite Hj). reflexivity.
Qed.


Lemma sorted_similarities_perm :
  Permutation (map (fun u => (u, similarity M u user_id)) (index M))
    (sort_values quicksort sim_leb false
       (map (fun u => (u, similarity M u user_id)) (index M))).
Proof.
  apply sort_values_perm;
    [exact quicksort_sorts | exact sim_leb_total | exact sim_leb_transitive].
Qed.

Lemma drop_target :
  drop user_id
    (sort_values quicksort sim_leb false
       (map (fun u => (u, similarity M u user_id)) (index M)))
  = ret (filter (fun entry => negb (Z.eqb user_id (fst entry)))
           (sort_values quicksort sim_leb false
              (map (fun u => (u, similarity M u user_id)) (index M)))).
Proof.
  unfold drop.
  replace (contains user_id _) with true; [reflexivity|].
  symmetry. apply contains_In.
  apply (Permutation_in _ (Permutation_map fst sorted_similarities_perm)).
  rewrite map_map. simpl. now rewrite map_id.
Qed.

Lemma similar_users_present (u : Z) :
  In u (map fst (similar_users quicksort M user_id)) -> In u (index M) /\ u <> user_id.
Proof.
  unfold similar_users, head. intros Hu.
  apply in_map_iff in Hu. destruct Hu as ([u' s] & <- & Hin). simpl.
  assert (Hin' : In (u', s)
            (filter (fun entry : Z * sim => negb (Z.eqb user_id (fst entry)))
               (sort_values quicksort sim_leb false
                  (map (fun u => (u, similarity M u user_id)) (index M))))).
  { rewrite <- (firstn_skipn 10 (filter _ _)). apply in_or_app. now left. }
  apply filter_In in Hin'. destruct Hin' as [Hs Hne]. simpl in Hne.
  apply (Permutation_in _ (Permutation_sym sorted_similarities_perm)) in Hs.
  apply in_map_iff in Hs. destruct Hs as (u0 & [= <- _] & Hu0).
  split; [exact Hu0|].
  intros ->. now rewrite Z.eqb_refl in Hne.
Qed.

Lemma similar_users_rows (labels : list Z) :
  (forall u, In u labels -> In u (index M)) ->
  loc_rows M labels =
  ret {| index := labels; columns := columns M; values := map (row M) labels |}.
Proof.
  intros Hl. unfold loc_rows.
  rewrite (map_run_ret (loc M) (row M)) by (intros u Hu; apply loc_row; auto).
  now rewrite bind_ret.
Qed.

Lemma unseen_movies_unrated :
  boolean_mask (columns M) (map (fun v => Qeq_bool v 0) (row M user_id)) = unrated M user_id.
Proof.
  unfold boolean_mask, unrated.
  destruct M_wf as (_ & Hnd & _).
  rewrite (combine_by_label (columns M) (row M user_id) _ (0 : Q) Hnd
             (row_length user_id user_present)).
  apply (filter_snd_map (fun t => Qeq_bool (cell M user_id t) 0)).
Qed.

Lemma unrated_columns (t : string) : In t (unrated M user_id) -> In t (columns M).
Proof. unfold unrated. intros Ht. now apply filter_In in Ht. Qed.

Lemma recommendable_movies (labels : list Z) (titles : list string) :
  (forall t, In t titles -> In t (columns M)) ->
  getitem_columns
    {| index := labels; columns := columns M; values := map (row M) labels |} titles
  = ret {| index := labels; columns := titles;
           values := map (fun u => map (fun t => cell M u t) titles) labels |}.
Proof.
  intros Ht. unfold getitem_columns. simpl.
  set (column_number := fun t : string =>
         match position t (columns M) with Some j => j | None => 0%nat end).
  rewrite (map_run_ret _ column_number).
  - rewrite bind_ret. f_equal. f_equal. rewrite map_map.
    apply map_ext. intros u. rewrite map_map.
    apply map_ext_in. intros t Hin.
    unfold cell, column_number.
    destruct (position_In t (columns M) (Ht t Hin)) as [j ->]. reflexivity.
  - intros t Hin. unfold column_number.
    destruct (lookup_In t (columns M) (Ht t Hin)) as (j & -> & ->). reflexivity.
Qed.

Lemma recommendation_scores (labels : list Z) (titles : list string) :
  mean_axis0 {| index := labels; columns := titles;
                values := map (fun u => map (fun t => cell M u t) titles) labels |}
  = map (fun t => (t, unweighted_mean M labels t)) titles.
Proof.
  unfold mean_axis0. simpl.
  apply (combine_seq titles _ (fun t => unweighted_mean M labels t) ""%string).
  intros j Hj. unfold mean, unweighted_mean.
  rewrite map_map, !length_map. f_equal. f_equal.
  apply map_ext. intros u.
  rewrite (nth_indep _ (blank : Q) (cell M u ""%string)) by (now rewrite length_map).
  apply (map_nth (fun t => cell M u t)).
Qed.

Lemma genre_lookup (titles : list string) (t : string) (score : Q) :
  In t titles ->
  (details <- iloc0 (filter (fun r => String.eqb (title r) t)
                       (filter (fun r => contains (title r) titles) movies_df)) ;;
   print (MsgRecommendation (title details) (genres details) score))
  = show_recommendation movies_df (t, score).
Proof.
  intros Ht. unfold show_recommendation, first_match. simpl.
  induction movies_df as [|r df IH]; simpl.
  - reflexivity.
  - destruct (String.eqb (title r) t) eqn:E.
    + apply String.eqb_eq in E.
      replace (contains (title r) titles) with true
        by (symmetry; apply contains_In; now rewrite E).
      simpl. apply String.eqb_eq in E. rewrite E. simpl. reflexivity.
    + destruct (contains (title r) titles); simpl; [rewrite E|]; exact IH.
Qed.

(** The run of [get_recommendations] for a user of the matrix. *)
Lemma get_recommendations_run :
  get_recommendations quicksort user_id M movies_df =
  if empty (similar_users quicksort M user_id) then
    ([CosineSimilarity (List.length (values M)); Print MsgNoSimilarUsers], Returned tt)
  else
    ([CosineSimilarity (List.length (values M));
      Print (MsgSimilarUsers user_id (similar_users quicksort M user_id));
      Print (MsgHeader user_id)]
     ++ fst (for_each (top_10_recommendations quicksort M user_id)
               (show_recommendation movies_df)),
     snd (for_each (top_10_recommendations quicksort M user_id)
            (show_recommendation movies_df))).
Proof.
  unfold get_recommendations.
  replace (contains user_id (index M)) with true by (symmetry; now apply contains_In).
  simpl negb. cbv iota.
  unfold sklearn_cosine_similarity. rewrite bind_Returned.
  rewrite similarities_column, bind_ret.
  rewrite drop_target, bind_ret.
  fold (similar_users quicksort M user_id).
  destruct (empty (similar_users quicksort M user_id)) eqn:Eempty.
  - reflexivity.
  - unfold print at 1. rewrite bind_Returned.
    rewrite similar_users_rows by (intros u Hu; now apply similar_users_present).
    rewrite bind_ret.
    rewrite (loc_row user_id user_present), bind_ret.
    rewrite unseen_movies_unrated.
    rewrite recommendable_movies by apply unrated_columns.
    rewrite bind_ret.
    rewrite recommendation_scores.
    fold (candidates M user_id (map fst (similar_users quicksort M user_id))).
    fold (top_10_recommendations quicksort M user_id).
    unfold print at 1. rewrite bind_Returned.
    rewrite (for_each_ext _ _ (show_recommendation movies_df)).
    + destruct (for_each (top_10_recommendations quicksort M user_id)
                  (show_recommendation movies_df)); reflexivity.
    + intros [t score] Hin. simpl.
      apply genre_lookup. apply in_map_iff. now exists (t, score).
Qed.

End Run.

(* ================================================================== *)
(** * What the run prints *)

Lemma first_match_title (movies_df : list MergedRow) (t : string) (r : MergedRow) :
  first_match movies_df t = Some r -> In r movies_df /\ title r = t.
Proof.
  unfold first_match. intros Hf. apply find_some in Hf.
  destruct Hf as [Hin E]. apply String.eqb_eq in E. now split.
Qed.

Lemma first_match_defined (movies_df : list MergedRow) (t : string) :
  (exists r, In r movies_df /\ title r = t) -> exists r, first_match movies_df t = Some r.
Proof.
  intros (r & Hin & E). unfold first_match.
  destruct (find (fun r0 => String.eqb (title r0) t) movies_df) as [r'|] eqn:F.
  - now exists r'.
  - exfalso. apply (find_none _ _ F) in Hin. apply String.eqb_neq in Hin. contradiction.
Qed.

(** The loop over the scored titles prints them in order, with the genres of
    their first rows, up to the first title without a row. *)
Lemma show_recommendations_prefix (movies_df : list MergedRow) (items : Series string Q) :
  exists k : nat,
    recommendations (fst (for_each items (show_recommendation movies_df)))
    = map (fun item => (fst item, genre_of movies_df (fst item), snd item)) (firstn k items).
Proof.
  induction items as [|[t s] items IH].
  - exists 0%nat. reflexivity.
  - simpl for_each. unfold show_recommendation at 1. simpl fst. simpl snd.
    destruct (first_match movies_df t) as [r|] eqn:F.
    + destruct IH as [k IH]. exists (S k).
      unfold print. rewrite bind_Returned. cbn [fst firstn map].
      destruct (first_match_title _ _ _ F) as [_ Et].
      unfold recommendations in *. cbn [flat_map app]. rewrite IH.
      unfold genre_of. rewrite F, Et. reflexivity.
    + exists 0%nat. reflexivity.
Qed.

Lemma show_recommendations_all (movies_df : list MergedRow) (items : Series string Q) :
  (forall item, In item items -> exists r, In r movies_df /\ title r = fst item) ->
  recommendations (fst (for_each items (show_recommendation movies_df)))
  = map (fun item => (fst item, genre_of movies_df (fst item), snd item)) items
  /\ snd (for_each items (show_recommendation movies_df)) = Returned tt.
Proof.
  induction items as [|[t s] items IH]; intros Hall.
  - split; reflexivity.
  - simpl for_each. unfold show_recommendation at 1 3. simpl fst. simpl snd.
    destruct (first_match_defined movies_df t (Hall (t, s) (or_introl eq_refl))) as [r F].
    rewrite F. destruct (first_match_title _ _ _ F) as [_ Et].
    destruct IH as [IH1 IH2]; [intros item Hi; apply Hall; now right|].
    unfold print. rewrite bind_Returned. cbn [fst snd].
    split; [|exact IH2].
    unfold recommendations in *. cbn [flat_map app map fst snd]. rewrite IH1.
    unfold genre_of. rewrite F, Et. reflexivity.
Qed.

Lemma show_recommendations_events (movies_df : list MergedRow) (items : Series string Q)
    (e : event) :
  In e (fst (for_each items (show_recommendation movies_df))) ->
  exists t g s, e = Print (MsgRecommendation t g s).
Proof.
  induction items as [|[t s] items IH]; simpl for_each.
  - intros [].
  - unfold show_recommendation at 1. simpl fst. simpl snd.
    destruct (first_match movies_df t) as [r|].
    + unfold print. rewrite bind_Returned. cbn [fst]. intros [<-|Hin].
      * now exists (title r), (genres r), s.
      * now apply IH.
    + intros [].
Qed.

Section Printed.
Variable quicksort : forall A : Type, (A -> A -> bool) -> list A -> list A.
Hypothesis quicksort_sorts : sorts quicksort.
Variable M : DataFrame Z string Q.
Variable movies_df : list MergedRow.
Variable user_id : Z.
Hypothesis M_wf : well_formed M.
Hypothesis user_present : In user_id (index M).

Lemma printed_similar_users :
  similar_users_printed (trace (get_recommendations quicksort user_id M movies_df)) =
  match similar_users quicksort M user_id with
  | [] => []
  | _ :: _ => [similar_users quicksort M user_id]
  end.
Proof.
  rewrite (get_recommendations_run quicksort quicksort_sorts M movies_df user_id M_wf user_present).
  destruct (similar_users quicksort M user_id) as [|e su] eqn:E; simpl; [reflexivity|].
  unfold trace. cbn [fst]. unfold similar_users_printed. cbn [flat_map app].
  f_equal.
  induction (top_10_recommendations quicksort M user_id) as [|item items IH]; [reflexivity|].
  simpl for_each. unfold show_recommendation at 1.
  destruct (first_match movies_df (fst item)); [|reflexivity].
  unfold print. rewrite bind_Returned. cbn [fst flat_map app]. exact IH.
Qed.

Lemma top_10_candidates (item : string * Q) :
  In item (top_10_recommendations quicksort M user_id) ->
  In item (candidates M user_id (map fst (similar_users quicksort M user_id))).
Proof.
  unfold top_10_recommendations, head. intros Hin.
  eapply Permutation_in.
  - apply Permutation_sym.
    apply (sort_values_perm quicksort quicksort_sorts Qle_bool
             Qle_bool_total Qle_bool_transitive).
  - rewrite <- (firstn_skipn 10 (sort_values _ _ _ _)). apply in_or_app. now left.
Qed.

Lemma top_10_unrated (item : string * Q) :
  In item (top_10_recommendations quicksort M user_id) -> In (fst item) (unrated M user_id).
Proof.
  intros Hin. apply top_10_candidates in Hin.
  unfold candidates in Hin. apply in_map_iff in Hin.
  destruct Hin as (t & <- & Ht). exact Ht.
Qed.

Lemma printed_recommendations :
  exists k : nat,
    recommendations (trace (get_recommendations quicksort user_id M movies_df)) =
    map (fun item => (fst item, genre_of movies_df (fst item), snd item))
        (firstn k (top_10_recommendations quicksort M user_id))
    /\ (similar_users quicksort M user_id = [] -> k = 0%nat).
Proof.
  rewrite (get_recommendations_run quicksort quicksort_sorts M movies_df user_id M_wf user_present).
  destruct (similar_users quicksort M user_id) as [|e su] eqn:E; simpl empty; cbv iota.
  - exists 0%nat. split; reflexivity.
  - destruct (show_recommendations_prefix movies_df
                (top_10_recommendations quicksort M user_id)) as [k Hk].
    exists k. split; [|discriminate].
    unfold trace. cbn [fst]. unfold recommendations in *. cbn [flat_map app].
    exact Hk.
Qed.

Lemma printed_recommendations_covered :
  covers movies_df M ->
  similar_users quicksort M user_id <> [] ->
  recommendations (trace (get_recommendations quicksort user_id M movies_df)) =
    map (fun item => (fst item, genre_of movies_df (fst item), snd item))
        (top_10_recommendations quicksort M user_id)
  /\ result (get_recommendations quicksort user_id M movies_df) = Returned tt.
Proof.
  intros Hc Hne.
  rewrite (get_recommendations_run quicksort quicksort_sorts M movies_df user_id M_wf user_present).
  destruct (similar_users quicksort M user_id) as [|e su] eqn:E; [congruence|].
  simpl empty. cbv iota.
  destruct (show_recommendations_all movies_df (top_10_recommendations quicksort M user_id))
    as [H1 H2].
  - intros item Hi. apply Hc.
    apply top_10_unrated in Hi.
    now apply (unrated_columns M user_id).
  - split; [|exact H2].
    unfold trace. cbn [fst]. unfold recommendations in *. cbn [flat_map app]. exact H1.
Qed.

End Printed.

(* ================================================================== *)
(** * The run over the similarities as they are computed *)

Lemma get_recommendations_computed_exact
    (quicksort : forall A : Type, (A -> A -> bool) -> list A -> list A)
    (user_id : Z) (M : DataFrame Z string Q) (movies_df : list MergedRow) :
  get_recommendations_computed quicksort cosine_similarity user_id M movies_df
  = get_recommendations quicksort user_id M movies_df.
Proof. reflexivity. Qed.

Lemma cosine_similarity_rows : row_per_user cosine_similarity.
Proof. intros X. unfold cosine_similarity. apply length_map. Qed.

Section ComputedRun.
Variable quicksort : forall A : Type, (A -> A -> bool) -> list A -> list A.
Hypothesis quicksort_sorts : sorts quicksort.
Variable cosine : list (list Q) -> list (list sim).
Hypothesis cosine_rows : row_per_user cosine.
Variable M : DataFrame Z string Q.
Variable movies_df : list MergedRow.
Variable user_id : Z.
Hypothesis M_wf : well_formed M.
Hypothesis user_present : In user_id (index M).

Lemma computed_column :
  getitem {| index := index M; columns := index M; values := cosine (values M) |} user_id
  = ret (map (fun u => (u, computed_similarity cosine M u user_id)) (index M)).
Proof.
  unfold getitem. simpl.
  destruct (lookup_In user_id (index M) user_present) as (j & Hj & ->).
  rewrite bind_ret. f_equal.
  destruct M_wf as (Hnd & _ & Hlen & _).
  rewrite (combine_by_label (index M) (cosine (values M))
             (fun row : list sim => nth j row blank) [] Hnd)
    by (rewrite cosine_rows; exact Hlen).
  apply map_ext. intros u. unfold computed_similarity. now rewrite Hj.
Qed.

Lemma computed_sorted_perm :
  Permutation (map (fun u => (u, computed_similarity cosine M u user_id)) (index M))
    (sort_values quicksort sim_leb false
       (map (fun u => (u, computed_similarity cosine M u user_id)) (index M))).
Proof.
  apply sort_values_perm;
    [exact quicksort_sorts | exact sim_leb_total | exact sim_leb_transitive].
Qed.

Lemma computed_drop_target :
  drop user_id
    (sort_values quicksort sim_leb false
       (map (fun u => (u, computed_similarity cosine M u user_id)) (index M)))
  = ret (filter (fun entry => negb (Z.eqb user_id (fst entry)))
           (sort_values quicksort sim_leb false
              (map (fun u => (u, computed_similarity cosine M u user_id)) (index M)))).
Proof.
  unfold drop.
  replace (contains user_id _) with true; [reflexivity|].
  symmetry. apply contains_In.
  apply (Permutation_in _ (Permutation_map fst computed_sorted_perm)).
  rewrite map_map. simpl. now rewrite map_id.
Qed.

Lemma similar_users_computed_present (u : Z) :
  In u (map fst (similar_users_computed quicksort cosine M user_id)) ->
  In u (index M) /\ u <> user_id.
Proof.
  unfold similar_users_computed, head. intros Hu.
  apply in_map_iff in Hu. destruct Hu as ([u' s] & <- & Hin). simpl.
  assert (Hin' : In (u', s)
            (filter (fun entry : Z * sim => negb (Z.eqb user_id (fst entry)))
               (sort_values quicksort sim_leb false
                  (map (fun u => (u, computed_similarity cosine M u user_id)) (index M))))).
  { rewrite <- (firstn_skipn 10 (filter _ _)). apply in_or_app. now left. }
  apply filter_In in Hin'. destruct Hin' as [Hs Hne]. simpl in Hne.
  apply (Permutation_in _ (Permutation_sym computed_sorted_perm)) in Hs.
  apply in_map_iff in Hs. destruct Hs as (u0 & [= <- _] & Hu0).
  split; [exact Hu0|].
  intros ->. now rewrite Z.eqb_refl in Hne.
Qed.

(** The run of [get_recommendations_computed] for a user of the matrix. *)
Lemma get_recommendations_computed_run :
  get_recommendations_computed quicksort cosine user_id M movies_df =
  if empty (similar_users_computed quicksort cosine M user_id) then
    ([CosineSimilarity (List.length (values M)); Print MsgNoSimilarUsers], Returned tt)
  else
    ([CosineSimilarity (List.length (values M));
      Print (MsgSimilarUsers user_id (similar_users_computed quicksort cosine M user_id));
      Print (MsgHeader user_id)]
     ++ fst (for_each
               (head 10 (sort_values quicksort Qle_bool false
                           (candidates M user_id
                              (map fst (similar_users_computed quicksort cosine M user_id)))))
               (show_recommendation movies_df)),
     snd (for_each
            (head 10 (sort_values quicksort Qle_bool false
                        (candidates M user_id
                           (map fst (similar_users_computed quicksort cosine M user_id)))))
            (show_recommendation movies_df))).
Proof.
  unfold get_recommendations_computed.
  replace (contains user_id (index M)) with true by (symmetry; now apply contains_In).
  simpl negb. cbv iota.
  unfold similarity_call. rewrite bind_Returned.
  rewrite computed_column, bind_ret.
  rewrite computed_drop_target, bind_ret.
  fold (similar_users_computed quicksort cosine M user_id).
  destruct (empty (similar_users_computed quicksort cosine M user_id)) eqn:Eempty.
  - reflexivity.
  - unfold print at 1. rewrite bind_Returned.
    rewrite (similar_users_rows M)
      by (exact M_wf || (intros u Hu; now apply similar_users_computed_present)).
    rewrite bind_ret.
    rewrite (loc_row M user_id user_present), bind_ret.
    rewrite (unseen_movies_unrated M user_id M_wf user_present).
    rewrite (recommendable_movies M) by apply unrated_columns.
    rewrite bind_ret.
    rewrite recommendation_scores.
    fold (candidates M user_id (map fst (similar_users_computed quicksort cosine M user_id))).
    unfold print at 1. rewrite bind_Returned.
    rewrite (for_each_ext _ _ (show_recommendation movies_df)).
    + destruct (for_each _ (show_recommendation movies_df)); reflexivity.
    + intros [t score] Hin. simpl.
      apply genre_lookup. apply in_map_iff. now exists (t, score).
Qed.

Lemma printed_similar_users_computed :
  similar_users_printed
    (trace (get_recommendations_computed quicksort cosine user_id M movies_df)) =
  match similar_users_computed quicksort cosine M user_id with
  | [] => []
  | _ :: _ => [similar_users_computed quicksort cosine M user_id]
  end.
Proof.
  rewrite get_recommendations_computed_run.
  destruct (similar_users_computed quicksort cosine M user_id) as [|e su] eqn:E; simpl;
    [reflexivity|].
  unfold trace. cbn [fst]. unfold similar_users_printed. cbn [flat_map app].
  f_equal.
  match goal with |- context [for_each ?l _] => induction l as [|item items IH] end;
    [reflexivity|].
  simpl for_each. unfold show_recommendation at 1.
  destruct (first_match movies_df (fst item)); [|reflexivity].
  unfold print. rewrite bind_Returned. cbn [fst flat_map app]. exact IH.
Qed.

End ComputedRun.

(* ================================================================== *)
(** * Properties of the recommender *)

Lemma sample_matrix_well_formed : well_formed sample_matrix.
Proof.
  repeat split; simpl; repeat constructor; simpl; intuition discriminate.
Qed.

Lemma map_id_pair {X Y : Type} (l : list (X * Y)) :
  map (fun item => (fst item, snd item)) l = l.
Proof.
  induction l as [|[x y] l IH]; simpl; [reflexivity | now rewrite IH].
Qed.

Lemma group_keys_NoDup {L : Type} (eq_dec : forall a b : L, {a = b} + {a <> b})
    (le : L -> L -> bool) (l : list L) :
  NoDup (group_keys eq_dec le l).
Proof.
  unfold group_keys.
  apply (Permutation_NoDup (stable_sort_perm le (nodup eq_dec l))).
  apply NoDup_nodup.
Qed.

Lemma group_keys_In {L : Type} (eq_dec : forall a b : L, {a = b} + {a <> b})
    (le : L -> L -> bool) (l : list L) (x : L) :
  In x (group_keys eq_dec le l) <-> In x l.
Proof.
  unfold group_keys. split.
  - intros Hx. apply (nodup_In eq_dec).
    apply (Permutation_in _ (Permutation_sym (stable_sort_perm le (nodup eq_dec l))) Hx).
  - intros Hx. apply (nodup_In eq_dec) in Hx.
    apply (Permutation_in _ (stable_sort_perm le (nodup eq_dec l)) Hx).
Qed.

Lemma pivot_table_well_formed (df : list MergedRow) (d : Q) :
  well_formed (fillna d (pivot_table df)).
Proof.
  unfold well_formed, rectangular, fillna, pivot_table. simpl.
  split; [apply group_keys_NoDup|]. split; [apply group_keys_NoDup|].
  split.
  - now rewrite !length_map.
  - apply Forall_forall. intros r Hr.
    apply in_map_iff in Hr. destruct Hr as (r' & <- & Hr').
    apply in_map_iff in Hr'. destruct Hr' as (u & <- & _).
    now rewrite !length_map.
Qed.

Lemma pivot_table_covered (df : list MergedRow) (d : Q) :
  covers df (fillna d (pivot_table df)).
Proof.
  intros t Ht. unfold fillna, pivot_table in Ht. simpl in Ht.
  apply group_keys_In in Ht. apply in_map_iff in Ht.
  destruct Ht as (r & E & Hr). now exists r.
Qed.

(** A matrix built by [pivot_table] that has a user has a title. *)
Lemma pivot_table_titled (df : list MergedRow) (d : Q) (u : Z) :
  In u (index (fillna d (pivot_table df))) -> columns (fillna d (pivot_table df)) <> [].
Proof.
  unfold fillna, pivot_table. simpl. intros Hu.
  apply group_keys_In in Hu. apply in_map_iff in Hu. destruct Hu as (r & _ & Hr).
  assert (Ht : In (title r) (group_keys string_dec String.leb (map title df)))
    by (apply group_keys_In; now apply in_map).
  intros E. rewrite E in Ht. destruct Ht.
Qed.

Lemma other_users_filter (M : DataFrame Z string Q) (user_id : Z) :
  filter (fun entry : Z * sim => negb (Z.eqb user_id (fst entry)))
         (map (fun u => (u, similarity M u user_id)) (index M))
  = other_users M user_id.
Proof.
  unfold other_users.
  induction (index M) as [|u l IH]; simpl; [reflexivity|].
  destruct (negb (Z.eqb user_id u)); simpl; now rewrite IH.
Qed.

Lemma StronglySorted_map {X Y : Type} (R : X -> X -> Prop) (R' : Y -> Y -> Prop)
    (f : X -> Y) (l : list X) :
  (forall a b, R a b -> R' (f a) (f b)) ->
  StronglySorted R l -> StronglySorted R' (map f l).
Proof.
  intros Hf. induction 1 as [|x l Hs IH Hx]; simpl; constructor.
  - exact IH.
  - apply Forall_forall. intros y Hy. apply in_map_iff in Hy.
    destruct Hy as (a & <- & Ha). apply Hf.
    rewrite Forall_forall in Hx. now apply Hx.
Qed.

Lemma other_users_nil (M : DataFrame Z string Q) (user_id : Z) :
  other_users M user_id = [] <-> (forall u, In u (index M) -> u = user_id).
Proof.
  unfold other_users. split.
  - intros E u Hu.
    destruct (Z.eq_dec u user_id) as [|Hne]; [assumption|].
    assert (Hf : In u (filter (fun u0 => negb (Z.eqb user_id u0)) (index M))).
    { apply filter_In. split; [exact Hu|].
      apply negb_true_iff, Z.eqb_neq. congruence. }
    destruct (filter _ (index M)); [destruct Hf | discriminate].
  - intros Hall.
    destruct (filter (fun u0 => negb (Z.eqb user_id u0)) (index M)) as [|u l] eqn:F;
      [reflexivity|].
    assert (Hu : In u (filter (fun u0 => negb (Z.eqb user_id u0)) (index M)))
      by (rewrite F; now left).
    apply filter_In in Hu. destruct Hu as [Hu Hne].
    rewrite (Hall u Hu), Z.eqb_refl in Hne. discriminate.
Qed.

Lemma similar_users_ranked
    (quicksort : forall A : Type, (A -> A -> bool) -> list A -> list A)
    (M : DataFrame Z string Q) (user_id : Z) :
  sorts quicksort ->
  exists ranked : Series Z sim,
    Permutation ranked (other_users M user_id)
    /\ similar_users quicksort M user_id = head 10 ranked.
Proof.
  intros Hs.
  exists (filter (fun entry : Z * sim => negb (Z.eqb user_id (fst entry)))
            (sort_values quicksort sim_leb false
               (map (fun u => (u, similarity M u user_id)) (index M)))).
  split; [|reflexivity].
  rewrite <- other_users_filter. apply Permutation_filter', Permutation_sym.
  apply (sort_values_perm quicksort Hs sim_leb sim_leb_total sim_leb_transitive).
Qed.

Lemma filter_other_length (l : list Z) (x : Z) :
  NoDup l -> In x l ->
  List.length (filter (fun u => negb (Z.eqb x u)) l) = (List.length l - 1)%nat.
Proof.
  induction 1 as [|y l Hy Hnd IH]; intros Hin; [destruct Hin|].
  simpl. destruct (Z.eqb x y) eqn:E; simpl.
  - apply Z.eqb_eq in E. subst y.
    rewrite Nat.sub_0_r. f_equal.
    assert (Hall : forall u, In u l -> negb (Z.eqb x u) = true).
    { intros u Hu. apply negb_true_iff, Z.eqb_neq. intros ->. contradiction. }
    clear -Hall. induction l as [|u l IH]; simpl; [reflexivity|].
    rewrite (Hall u) by now left. f_equal. apply IH. intros v Hv. apply Hall. now right.
  - destruct Hin as [->|Hin]; [rewrite Z.eqb_refl in E; discriminate|].
    rewrite (IH Hin). destruct l; [destruct Hin | cbn [List.length]; lia].
Qed.

Lemma StronglySorted_app_le {X : Type} (R : X -> X -> Prop) (l1 l2 : list X) :
  StronglySorted R (l1 ++ l2) -> forall a b, In a l1 -> In b l2 -> R a b.
Proof.
  induction l1 as [|x l1 IH]; simpl; intros Hs a b Ha Hb; [destruct Ha|].
  apply StronglySorted_inv in Hs. destruct Hs as [Hs Hx].
  destruct Ha as [<-|Ha].
  - rewrite Forall_forall in Hx. apply Hx. apply in_or_app. now right.
  - now apply IH.
Qed.

Lemma NoDup_firstn {X : Type} (n : nat) (l : list X) : NoDup l -> NoDup (firstn n l).
Proof.
  intros H. rewrite <- (firstn_skipn n l) in H. now apply NoDup_app_remove_r in H.
Qed.

Lemma other_users_labels (M : DataFrame Z string Q) (user_id : Z) :
  map fst (other_users M user_id) = filter (fun u => negb (Z.eqb user_id u)) (index M).
Proof. unfold other_users. rewrite map_map. simpl. apply map_id. Qed.

Lemma other_users_entry (M : DataFrame Z string Q) (user_id : Z) (u : Z) (s : sim) :
  In (u, s) (other_users M user_id) ->
  In u (index M) /\ u <> user_id /\ s = similarity M u user_id.
Proof.
  unfold other_users. intros H. apply in_map_iff in H.
  destruct H as (u' & [= <- <-] & Hu). apply filter_In in Hu.
  destruct Hu as [Hu Hne]. repeat split; [exact Hu|].
  intros ->. now rewrite Z.eqb_refl in Hne.
Qed.

Lemma similar_users_ranked_descending
    (quicksort : forall A : Type, (A -> A -> bool) -> list A -> list A)
    (M : DataFrame Z string Q) (user_id : Z) :
  sorts quicksort ->
  exists ranked : Series Z sim,
    Permutation ranked (other_users M user_id)
    /\ descending sim_leb ranked
    /\ similar_users quicksort M user_id = head 10 ranked.
Proof.
  intros Hs.
  exists (filter (fun entry : Z * sim => negb (Z.eqb user_id (fst entry)))
            (sort_values quicksort sim_leb false
               (map (fun u => (u, similarity M u user_id)) (index M)))).
  split; [|split; [|reflexivity]].
  - rewrite <- other_users_filter. apply Permutation_filter', Permutation_sym.
    apply (sort_values_perm quicksort Hs sim_leb sim_leb_total sim_leb_transitive).
  - apply StronglySorted_filter.
    apply (sort_values_descending quicksort Hs sim_leb sim_leb_total sim_leb_transitive).
Qed.

Lemma similar_users_length
    (quicksort : forall A : Type, (A -> A -> bool) -> list A -> list A)
    (M : DataFrame Z string Q) (user_id : Z) :
  sorts quicksort -> NoDup (index M) -> In user_id (index M) ->
  List.length (similar_users quicksort M user_id)
  = Nat.min 10 (List.length (index M) - 1).
Proof.
  intros Hs Hnd Hin.
  destruct (similar_users_ranked quicksort M user_id Hs) as (ranked & HP & ->).
  unfold head. rewrite length_firstn, (Permutation_length HP).
  rewrite <- (length_map fst), other_users_labels.
  now rewrite filter_other_length.
Qed.

Lemma candidates_titles (M : DataFrame Z string Q) (user_id : Z) (users : list Z) :
  map fst (candidates M user_id users) = unrated M user_id.
Proof. unfold candidates. rewrite map_map. simpl. apply map_id. Qed.

Lemma similar_users_nonempty
    (quicksort : forall A : Type, (A -> A -> bool) -> list A -> list A)
    (M : DataFrame Z string Q) (user_id : Z) :
  sorts quicksort -> NoDup (index M) -> In user_id (index M) ->
  (1 < List.length (index M))%nat ->
  similar_users quicksort M user_id <> [].
Proof.
  intros Hs Hnd Hin Hn E.
  pose proof (similar_users_length quicksort M user_id Hs Hnd Hin) as Hlen.
  rewrite E in Hlen. cbn [List.length] in Hlen. lia.
Qed.

(** C1: for a user of the matrix, the score of a candidate movie is the
    unweighted arithmetic mean of the movie's column over the similar users
    that were selected, their zeros included; the similarity values do not
    enter it.  With another user in the matrix the similar users are printed,
    [min 10 (n - 1)] of them for [n] rows.  Every recommendation that is
    printed is an unrated title with this mean as its score.  When every
    title has a row in the joined table, the printed list is exactly the
    first 10 of the unrated titles with these means, sorted by them in
    descending order, so that each of at most 10 unrated titles is printed
    with its mean.  When no similar user was printed, no recommendation is. *)
Theorem score_is_unweighted_mean
    (quicksort : forall A : Type, (A -> A -> bool) -> list A -> list A)
    (M : DataFrame Z string Q) (movies_df : list MergedRow) (user_id : Z) :
  sorts quicksort -> well_formed M -> In user_id (index M) -> columns M <> [] ->
  ((1 < List.length (index M))%nat ->
   exists su,
     similar_users_printed (trace (get_recommendations quicksort user_id M movies_df)) = [su]
     /\ List.length su = Nat.min 10 (List.length (index M) - 1))
  /\ (forall su,
      similar_users_printed (trace (get_recommendations quicksort user_id M movies_df)) = [su] ->
      (forall t g s,
          In (t, g, s)
             (recommendations (trace (get_recommendations quicksort user_id M movies_df))) ->
          In t (unrated M user_id) /\ s = unweighted_mean M (map fst su) t)
      /\ (covers movies_df M ->
          map (fun r => (fst (fst r), snd r))
              (recommendations (trace (get_recommendations quicksort user_id M movies_df)))
          = head 10 (sort_values quicksort Qle_bool false
                       (candidates M user_id (map fst su)))
          /\ forall t,
              In t (unrated M user_id) -> (List.length (unrated M user_id) <= 10)%nat ->
              exists g,
                In (t, g, unweighted_mean M (map fst su) t)
                   (recommendations
                      (trace (get_recommendations quicksort user_id M movies_df)))))
  /\ (similar_users_printed (trace (get_recommendations quicksort user_id M movies_df)) = [] ->
      recommendations (trace (get_recommendations quicksort user_id M movies_df)) = []).
Proof.
  intros Hs Hwf Hin _.
  pose proof (printed_similar_users quicksort Hs M movies_df user_id Hwf Hin) as Hsu.
  destruct (printed_recommendations quicksort Hs M movies_df user_id Hwf Hin)
    as (k & Hrec & Hk0).
  split; [|split].
  - intros Hn.
    pose proof (similar_users_length quicksort M user_id Hs (proj1 Hwf) Hin) as Hlen.
    exists (similar_users quicksort M user_id). split; [|exact Hlen].
    rewrite Hsu.
    destruct (similar_users quicksort M user_id); [cbn [List.length] in Hlen; lia | reflexivity].
  - intros su Hp. rewrite Hsu in Hp.
    destruct (similar_users quicksort M user_id) as [|e su'] eqn:E; [discriminate|].
    injection Hp as <-. rewrite <- E in *.
    assert (Hne : similar_users quicksort M user_id <> []) by (rewrite E; discriminate).
    clear E e su'.
    split.
    + intros t g s Hp. rewrite Hrec in Hp.
      apply in_map_iff in Hp. destruct Hp as ([t' s'] & [= <- _ <-] & Hitem).
      assert (Hc : In (t', s')
                     (candidates M user_id (map fst (similar_users quicksort M user_id)))).
      { apply (top_10_candidates quicksort Hs).
        rewrite <- (firstn_skipn k (top_10_recommendations _ _ _)).
        apply in_or_app. now left. }
      unfold candidates in Hc. apply in_map_iff in Hc.
      destruct Hc as (t0 & [= <- <-] & Ht0). now split.
    + intros Hc.
      destruct (printed_recommendations_covered quicksort Hs M movies_df user_id Hwf Hin Hc Hne)
        as [Hall _].
      split.
      * rewrite Hall, map_map. simpl. now rewrite map_id_pair.
      * intros t Ht Hlen. exists (genre_of movies_df t).
        rewrite Hall. unfold top_10_recommendations, head.
        pose proof (sort_values_perm quicksort Hs Qle_bool Qle_bool_total Qle_bool_transitive
                      (candidates M user_id (map fst (similar_users quicksort M user_id))))
          as HP.
        rewrite firstn_all2.
        -- apply in_map_iff.
           exists (t, unweighted_mean M (map fst (similar_users quicksort M user_id)) t).
           split; [reflexivity|].
           apply (Permutation_in _ HP). unfold candidates. apply in_map_iff. now exists t.
        -- rewrite <- (Permutation_length HP), <- (length_map fst), candidates_titles.
           exact Hlen.
  - intros Hnone. rewrite Hsu in Hnone.
    destruct (similar_users quicksort M user_id) as [|e su'] eqn:E; [|discriminate].
    rewrite Hrec, (Hk0 eq_refl). reflexivity.
Qed.

Lemma score_is_unweighted_mean_witness :
  sorts (@stable_sort) /\ well_formed sample_matrix /\ In 1%Z (index sample_matrix)
  /\ columns sample_matrix <> []
  /\ (1 < List.length (index sample_matrix))%nat /\ covers sample_table sample_matrix
  /\ exists su,
      similar_users_printed
        (trace (get_recommendations (@stable_sort) 1 sample_matrix sample_table)) = [su]
      /\ List.length su = Nat.min 10 (List.length (index sample_matrix) - 1)
      /\ map (fun r => (fst (fst r), snd r))
             (recommendations
                (trace (get_recommendations (@stable_sort) 1 sample_matrix sample_table)))
         = head 10 (sort_values (@stable_sort) Qle_bool false
                      (candidates sample_matrix 1 (map fst su))).
Proof.
  assert (H1 : In 1%Z (index sample_matrix)) by (simpl; auto).
  assert (H2 : (1 < List.length (index sample_matrix))%nat) by (simpl; lia).
  assert (H3 : covers sample_table sample_matrix) by apply pivot_table_covered.
  assert (H4 : columns sample_matrix <> []) by (vm_compute; discriminate).
  split; [exact stable_sort_sorts|]. split; [exact sample_matrix_well_formed|].
  split; [exact H1|]. split; [exact H4|]. split; [exact H2|]. split; [exact H3|].
  destruct (score_is_unweighted_mean (@stable_sort) sample_matrix sample_table 1%Z
              stable_sort_sorts sample_matrix_well_formed H1 H4) as (Hsel & Hscore & _).
  destruct (Hsel H2) as (su & Hsu & Hlen).
  exists su. split; [exact Hsu|]. split; [exact Hlen|].
  exact (proj1 (proj2 (Hscore su Hsu) H3)).
Defined.

(** C2: for a user of the matrix, at most 10 recommendations are printed, and
    each of them is a title of the matrix in whose column the target user has
    the value 0. *)
Theorem recommendations_unrated_at_most_10
    (quicksort : forall A : Type, (A -> A -> bool) -> list A -> list A)
    (M : DataFrame Z string Q) (movies_df : list MergedRow) (user_id : Z) :
  sorts quicksort -> well_formed M -> In user_id (index M) ->
  (List.length (recommendations (trace (get_recommendations quicksort user_id M movies_df)))
   <= 10)%nat
  /\ forall t g s,
      In (t, g, s) (recommendations (trace (get_recommendations quicksort user_id M movies_df))) ->
      In t (columns M) /\ (cell M user_id t == 0)%Q.
Proof.
  intros Hs Hwf Hin.
  destruct (printed_recommendations quicksort Hs M movies_df user_id Hwf Hin)
    as (k & Hrec & _).
  rewrite Hrec. split.
  - rewrite length_map, length_firstn.
    eapply Nat.le_trans; [apply Nat.le_min_r|].
    unfold top_10_recommendations, head. apply firstn_le_length.
  - intros t g s Hp.
    apply in_map_iff in Hp. destruct Hp as ([t' s'] & [= <- _ _] & Hitem).
    assert (Hu : In t' (unrated M user_id)).
    { apply (top_10_unrated quicksort Hs M user_id (t', s')).
      rewrite <- (firstn_skipn k (top_10_recommendations _ _ _)).
      apply in_or_app. now left. }
    unfold unrated in Hu. apply filter_In in Hu. destruct Hu as [Hc Hz].
    split; [exact Hc | now apply Qeq_bool_iff].
Qed.

Lemma recommendations_unrated_at_most_10_witness :
  sorts (@stable_sort) /\ well_formed sample_matrix /\ In 2%Z (index sample_matrix) /\
  (List.length
     (recommendations (trace (get_recommendations (@stable_sort) 2 sample_matrix sample_table)))
   <= 10)%nat.
Proof.
  split; [exact stable_sort_sorts|].
  split; [exact sample_matrix_well_formed|].
  split; [simpl; auto|].
  apply (recommendations_unrated_at_most_10 (@stable_sort) sample_matrix sample_table 2%Z
           stable_sort_sorts sample_matrix_well_formed).
  simpl; auto.
Defined.


(* ================================================================== *)
(** * The turns of the query loop *)

Section Loop.
Variable quicksort : forall A : Type, (A -> A -> bool) -> list A -> list A.
Variable M : DataFrame Z string Q.
Variable movies_df : list MergedRow.

Lemma loop_try_line (line : string) (rest : list string) :
  loop_try quicksort M movies_df (line :: rest) =
  if String.eqb (lower line) "exit" then ([Print MsgPrompt], Returned Break)
  else
    match parse_int line with
    | None => ([Print MsgPrompt], Raised ValueError)
    | Some n =>
        (Print MsgPrompt :: fst (get_recommendations quicksort n M movies_df),
         match snd (get_recommendations quicksort n M movies_df) with
         | Returned _ => Returned Continue
         | Raised e => Raised e
         end)
    end.
Proof.
  cbv [loop_try input int print ret raise bind].
  destruct (String.eqb (lower line) "exit"); [reflexivity|].
  destruct (parse_int line) as [n|]; [|reflexivity].
  destruct (get_recommendations quicksort n M movies_df) as [t [u|e]]; simpl.
  - now rewrite app_nil_r.
  - reflexivity.
Qed.

Lemma loop_body_eof :
  loop_body quicksort M movies_df []
  = ([Print MsgPrompt; Print (MsgUnexpected EOFError)], Continue).
Proof. reflexivity. Qed.

Lemma loop_body_exit (line : string) (rest : list string) :
  lower line = "exit" ->
  loop_body quicksort M movies_df (line :: rest) = ([Print MsgPrompt], Break).
Proof.
  intros E. unfold loop_body. rewrite loop_try_line.
  apply String.eqb_eq in E. now rewrite E.
Qed.

Lemma loop_body_invalid (line : string) (rest : list string) :
  lower line <> "exit" -> parse_int line = None ->
  loop_body quicksort M movies_df (line :: rest)
  = ([Print MsgPrompt; Print MsgInvalidInput], Continue).
Proof.
  intros E P. unfold loop_body. rewrite loop_try_line.
  apply String.eqb_neq in E. now rewrite E, P.
Qed.

Lemma loop_body_query (line : string) (rest : list string) (n : Z) :
  lower line <> "exit" -> parse_int line = Some n ->
  loop_body quicksort M movies_df (line :: rest)
  = (Print MsgPrompt :: fst (get_recommendations quicksort n M movies_df) ++
       match snd (get_recommendations quicksort n M movies_df) with
       | Returned _ => []
       | Raised ValueError => [Print MsgInvalidInput]
       | Raised e => [Print (MsgUnexpected e)]
       end,
     Continue).
Proof.
  intros E P. unfold loop_body. rewrite loop_try_line.
  apply String.eqb_neq in E. rewrite E, P.
  destruct (get_recommendations quicksort n M movies_df) as [t [u|e]]; simpl.
  - now rewrite app_nil_r.
  - destruct e; reflexivity.
Qed.

(** A turn reads one line and nothing behind it. *)
Lemma loop_body_head (line : string) (rest : list string) :
  loop_body quicksort M movies_df (line :: rest) = loop_body quicksort M movies_df [line].
Proof. unfold loop_body. now rewrite !loop_try_line. Qed.

End Loop.

Lemma get_recommendations_absent
    (quicksort : forall A : Type, (A -> A -> bool) -> list A -> list A)
    (M : DataFrame Z string Q) (movies_df : list MergedRow) (user_id : Z) :
  ~ In user_id (index M) ->
  get_recommendations quicksort user_id M movies_df
  = ([Print (MsgUserNotFound user_id)], Returned tt).
Proof.
  intros Hnot. unfold get_recommendations.
  destruct (contains user_id (index M)) eqn:C; [|reflexivity].
  apply contains_In in C. contradiction.
Qed.

(** C4: for a user identifier that is not a row label of the matrix,
    [get_recommendations] prints the not-found message with the identifier
    and returns: nothing else happens, no similarity is computed, no
    recommendation is printed, no exception is raised; the query loop goes on
    to its next turn. *)
Theorem unknown_user_not_found
    (quicksort : forall A : Type, (A -> A -> bool) -> list A -> list A)
    (M : DataFrame Z string Q) (movies_df : list MergedRow) (user_id : Z) :
  ~ In user_id (index M) ->
  get_recommendations quicksort user_id M movies_df
    = ([Print (MsgUserNotFound user_id)], Returned tt)
  /\ (forall n, ~ In (CosineSimilarity n)
                   (trace (get_recommendations quicksort user_id M movies_df)))
  /\ recommendations (trace (get_recommendations quicksort user_id M movies_df)) = []
  /\ (forall line rest,
        lower line <> "exit" -> parse_int line = Some user_id ->
        loop_body quicksort M movies_df (line :: rest)
          = ([Print MsgPrompt; Print (MsgUserNotFound user_id)], Continue)).
Proof.
  intros Hnot.
  pose proof (get_recommendations_absent quicksort M movies_df user_id Hnot) as E.
  rewrite E. repeat split.
  - intros n [H|[]]. discriminate.
  - intros line rest Hl Hp.
    rewrite (loop_body_query quicksort M movies_df line rest user_id Hl Hp), E.
    reflexivity.
Qed.

Lemma unknown_user_not_found_witness :
  ~ In 7%Z (index sample_matrix) /\
  get_recommendations (@stable_sort) 7 sample_matrix sample_table
    = ([Print (MsgUserNotFound 7)], Returned tt).
Proof.
  assert (H : ~ In 7%Z (index sample_matrix)) by (simpl; intuition discriminate).
  split; [exact H|].
  apply (unknown_user_not_found (@stable_sort) sample_matrix sample_table 7%Z H).
Defined.

Lemma other_users_computed_filter (cosine : list (list Q) -> list (list sim))
    (M : DataFrame Z string Q) (user_id : Z) :
  filter (fun entry : Z * sim => negb (Z.eqb user_id (fst entry)))
         (map (fun u => (u, computed_similarity cosine M u user_id)) (index M))
  = other_users_computed cosine M user_id.
Proof.
  unfold other_users_computed.
  induction (index M) as [|u l IH]; simpl; [reflexivity|].
  destruct (negb (Z.eqb user_id u)); simpl; now rewrite IH.
Qed.

(** The similarity matrix of the exact routine, read by labels. *)
Lemma computed_similarity_exact (M : DataFrame Z string Q) (u v : Z) :
  well_formed M -> In u (index M) -> In v (index M) ->
  computed_similarity cosine_similarity M u v = similarity M u v.
Proof.
  intros (Hnd & _ & Hlen & _) Hu Hv. unfold computed_similarity, similarity, row.
  destruct (position_In v (index M) Hv) as [j Hj].
  destruct (position_In u (index M) Hu) as [k Hk].
  rewrite Hj, Hk.
  destruct (position_Some _ _ _ Hj) as [Hjl _].
  destruct (position_Some _ _ _ Hk) as [Hkl _].
  unfold cosine_similarity.
  set (S := fun x y : list Q =>
              {| sim_dot := dot x y;
                 sim_norm2 := (handle_zeros (squared_norm x) * handle_zeros (squared_norm y))%Q |}).
  change (nth j (nth k (map (fun x => map (fun y => S x y) (values M)) (values M)) []) blank
          = S (nth k (values M) []) (nth j (values M) [])).
  rewrite (nth_indep _ [] ((fun x => map (fun y => S x y) (values M)) []))
    by (rewrite length_map; lia).
  rewrite (map_nth (fun x => map (fun y => S x y) (values M))).
  rewrite (nth_indep _ (blank : sim) (S (nth k (values M) []) [])) by (rewrite length_map; lia).
  apply (map_nth (fun y => S (nth k (values M) []) y)).
Qed.

(** C3, as the program has it: the similar users are the first 10 of the
    users other than the target, arranged in descending order of their
    similarity to the target as the similarity routine computed it; the
    target itself is never among them.  The arrangement of users of equal
    similarity is the one the sorting routine gives, which need not be the
    row order. *)
Theorem similar_users_selection
    (quicksort : forall A : Type, (A -> A -> bool) -> list A -> list A)
    (cosine : list (list Q) -> list (list sim))
    (M : DataFrame Z string Q) (movies_df : list MergedRow) (user_id : Z) :
  sorts quicksort -> row_per_user cosine ->
  well_formed M -> In user_id (index M) -> columns M <> [] ->
  exists ranked : Series Z sim,
    Permutation ranked (other_users_computed cosine M user_id)
    /\ descending sim_leb ranked
    /\ ~ In user_id (map fst ranked)
    /\ similar_users_printed
         (trace (get_recommendations_computed quicksort cosine user_id M movies_df))
       = match ranked with
         | [] => []
         | _ :: _ => [head 10 ranked]
         end.
Proof.
  intros Hs Hrows Hwf Hin _.
  set (ranked := filter (fun entry : Z * sim => negb (Z.eqb user_id (fst entry)))
                   (sort_values quicksort sim_leb false
                      (map (fun u => (u, computed_similarity cosine M u user_id)) (index M)))).
  assert (HP : Permutation ranked (other_users_computed cosine M user_id)).
  { rewrite <- other_users_computed_filter. apply Permutation_filter', Permutation_sym.
    apply (sort_values_perm quicksort Hs sim_leb sim_leb_total sim_leb_transitive). }
  exists ranked. split; [exact HP|]. split; [|split].
  - apply StronglySorted_filter.
    apply (sort_values_descending quicksort Hs sim_leb sim_leb_total sim_leb_transitive).
  - intros Hu. apply in_map_iff in Hu. destruct Hu as ([u s] & E & Hu). simpl in E. subst u.
    apply filter_In in Hu. destruct Hu as [_ Hne]. simpl in Hne.
    now rewrite Z.eqb_refl in Hne.
  - rewrite (printed_similar_users_computed quicksort Hs cosine Hrows M movies_df user_id
               Hwf Hin).
    fold ranked. change (similar_users_computed quicksort cosine M user_id) with (head 10 ranked).
    destruct ranked; reflexivity.
Qed.

Lemma twin_matrix_well_formed : well_formed twin_matrix.
Proof.
  repeat split; simpl; repeat constructor; simpl; intuition discriminate.
Qed.

Lemma similar_users_selection_witness :
  sorts (@stable_sort) /\ row_per_user cosine_similarity
  /\ well_formed twin_matrix /\ In 1%Z (index twin_matrix)
  /\ columns twin_matrix <> [] /\
  exists ranked : Series Z sim,
    Permutation ranked (other_users_computed cosine_similarity twin_matrix 1)
    /\ descending sim_leb ranked
    /\ ~ In 1%Z (map fst ranked)
    /\ similar_users_printed
         (trace (get_recommendations_computed (@stable_sort) cosine_similarity 1
                   twin_matrix twin_table))
       = match ranked with
         | [] => []
         | _ :: _ => [head 10 ranked]
         end.
Proof.
  split; [exact stable_sort_sorts|].
  split; [exact cosine_similarity_rows|].
  split; [exact twin_matrix_well_formed|].
  split; [simpl; auto|].
  split; [vm_compute; discriminate|].
  apply (similar_users_selection (@stable_sort) cosine_similarity twin_matrix twin_table 1%Z
           stable_sort_sorts cosine_similarity_rows twin_matrix_well_formed).
  - simpl; auto.
  - vm_compute; discriminate.
Defined.

(** C3 as stated fails.  In [hall_matrix] the twenty odd users before user
    41 have the same rating vector, hence the same similarity to user 41,
    which is higher than that of the even users: by the row order the
    similar users of user 41 would be the users 1, 3, ..., 19 in this order.
    numpy's quicksort leaves the equal ones in another order, both where it
    partitions the 41 similarities and where it runs them through the
    vectorised network: the list that is printed is not this one. *)
Lemma similar_users_tie_counterexample :
  create_user_item_matrix hall_ratings sample_movies
    = ([Print MsgMatrixCreated], Returned (hall_matrix, hall_table))
  /\ In 41%Z (index hall_matrix)
  /\ map fst (head 10 (sort_descending_stable sim_leb (other_users hall_matrix 41)))
     = [1; 3; 5; 7; 9; 11; 13; 15; 17; 19]%Z
  /\ (forall u, In u [1; 3; 5; 7; 9; 11; 13; 15; 17; 19; 21]%Z ->
        similarity hall_matrix u 41 = {| sim_dot := 20; sim_norm2 := 625 |})
  /\ similar_users_printed
       (trace (get_recommendations (@numpy_quicksort) 41 hall_matrix hall_table))
     <> [head 10 (sort_descending_stable sim_leb (other_users hall_matrix 41))]
  /\ similar_users_printed
       (trace (get_recommendations (@numpy_quicksort_avx512) 41 hall_matrix hall_table))
     <> [head 10 (sort_descending_stable sim_leb (other_users hall_matrix 41))].
Proof.
  split; [vm_compute; reflexivity|].
  split; [vm_compute; do 40 right; left; reflexivity|].
  split; [vm_compute; reflexivity|].
  split.
  - intros u Hu. repeat (destruct Hu as [<-|Hu]; [vm_compute; reflexivity|]). destruct Hu.
  - split; intros H; apply (f_equal (map (map fst))) in H; vm_compute in H; discriminate H.
Qed.

(** C8, as the program has it: the scores of the printed recommendations
    never increase from one entry to the next; with another user in the
    matrix similar users are printed, and the entries are the first 10 of
    the candidates scored over them, arranged in descending order of score,
    all of these 10 when every title has a row in the joined table.  The
    arrangement of candidates of equal score is the one the sorting routine
    gives, which need not be the column order. *)
Theorem recommendations_ranked
    (quicksort : forall A : Type, (A -> A -> bool) -> list A -> list A)
    (M : DataFrame Z string Q) (movies_df : list MergedRow) (user_id : Z) :
  sorts quicksort -> well_formed M -> In user_id (index M) -> columns M <> [] ->
  StronglySorted (fun a b => (snd b <= snd a)%Q)
    (recommendations (trace (get_recommendations quicksort user_id M movies_df)))
  /\ ((1 < List.length (index M))%nat ->
      exists su,
        similar_users_printed (trace (get_recommendations quicksort user_id M movies_df))
        = [su])
  /\ forall su,
      similar_users_printed (trace (get_recommendations quicksort user_id M movies_df)) = [su] ->
      exists (ranked : Series string Q) (k : nat),
        Permutation ranked (candidates M user_id (map fst su))
        /\ descending Qle_bool ranked
        /\ map (fun r => (fst (fst r), snd r))
               (recommendations (trace (get_recommendations quicksort user_id M movies_df)))
           = firstn k (head 10 ranked)
        /\ (covers movies_df M ->
            map (fun r => (fst (fst r), snd r))
                (recommendations (trace (get_recommendations quicksort user_id M movies_df)))
            = head 10 ranked).
Proof.
  intros Hs Hwf Hin _.
  pose proof (printed_similar_users quicksort Hs M movies_df user_id Hwf Hin) as Hsu.
  destruct (printed_recommendations quicksort Hs M movies_df user_id Hwf Hin)
    as (k & Hrec & Hk0).
  pose proof (sort_values_descending quicksort Hs Qle_bool Qle_bool_total Qle_bool_transitive
                (candidates M user_id (map fst (similar_users quicksort M user_id)))) as Hd.
  pose proof (sort_values_perm quicksort Hs Qle_bool Qle_bool_total Qle_bool_transitive
                (candidates M user_id (map fst (similar_users quicksort M user_id)))) as Hp.
  split; [|split].
  - rewrite Hrec.
    apply (StronglySorted_map (fun a b : string * Q => Qle_bool (snd b) (snd a) = true)).
    + intros a b Hab. simpl. now apply Qle_bool_iff.
    + apply StronglySorted_firstn. unfold top_10_recommendations, head.
      apply StronglySorted_firstn. exact Hd.
  - intros Hn.
    pose proof (similar_users_nonempty quicksort M user_id Hs (proj1 Hwf) Hin Hn) as Hne.
    exists (similar_users quicksort M user_id). rewrite Hsu.
    destruct (similar_users quicksort M user_id); [now elim Hne | reflexivity].
  - intros su Hprinted. rewrite Hsu in Hprinted.
    destruct (similar_users quicksort M user_id) as [|e su'] eqn:E; [discriminate|].
    injection Hprinted as <-.
    exists (sort_values quicksort Qle_bool false (candidates M user_id (map fst (e :: su')))), k.
    split; [now apply Permutation_sym|]. split; [exact Hd|]. split.
    + rewrite Hrec, map_map. simpl. rewrite map_id_pair.
      unfold top_10_recommendations. now rewrite E.
    + intros Hc.
      destruct (printed_recommendations_covered quicksort Hs M movies_df user_id Hwf Hin Hc)
        as [Hall _]; [congruence|].
      rewrite Hall, map_map. simpl. rewrite map_id_pair.
      unfold top_10_recommendations. now rewrite E.
Qed.

Lemma level_matrix_well_formed : well_formed level_matrix.
Proof.
  repeat split; simpl; repeat constructor; simpl; intuition discriminate.
Qed.

Lemma recommendations_ranked_witness :
  sorts (@stable_sort) /\ well_formed level_matrix /\ In 1%Z (index level_matrix)
  /\ columns level_matrix <> [] /\
  StronglySorted (fun a b => (snd b <= snd a)%Q)
    (recommendations (trace (get_recommendations (@stable_sort) 1 level_matrix level_table))).
Proof.
  assert (H1 : In 1%Z (index level_matrix)) by (simpl; auto).
  assert (H2 : columns level_matrix <> []) by (vm_compute; discriminate).
  split; [exact stable_sort_sorts|].
  split; [exact level_matrix_well_formed|].
  split; [exact H1|]. split; [exact H2|].
  exact (proj1 (recommendations_ranked (@stable_sort) level_matrix level_table 1%Z
                  stable_sort_sorts level_matrix_well_formed H1 H2)).
Defined.

(** C8 as stated fails.  In [rack_matrix] user 2 is the only similar user of
    user 1, and the 23 candidates have the scores 4 and 3 in turn: by the
    column order the recommendations would be M02, M04, ..., M20 in this
    order.  numpy's quicksort leaves the equal ones in another order, both
    where it partitions the 23 scores and where it runs them through the
    vectorised network: the list that is printed is not this one. *)
Lemma recommendations_tie_counterexample :
  create_user_item_matrix rack_ratings rack_movies
    = ([Print MsgMatrixCreated], Returned (rack_matrix, rack_table))
  /\ In 1%Z (index rack_matrix)
  /\ map fst (similar_users (@numpy_quicksort) rack_matrix 1) = [2%Z]
  /\ head 10 (sort_descending_stable Qle_bool (candidates rack_matrix 1 [2%Z]))
     = [("M02", 4%Q); ("M04", 4%Q); ("M06", 4%Q); ("M08", 4%Q); ("M10", 4%Q);
        ("M12", 4%Q); ("M14", 4%Q); ("M16", 4%Q); ("M18", 4%Q); ("M20", 4%Q)]
  /\ map (fun r => (fst (fst r), snd r))
         (recommendations
            (trace (get_recommendations (@numpy_quicksort) 1 rack_matrix rack_table)))
     <> head 10 (sort_descending_stable Qle_bool (candidates rack_matrix 1 [2%Z]))
  /\ map (fun r => (fst (fst r), snd r))
         (recommendations
            (trace (get_recommendations (@numpy_quicksort_avx512) 1 rack_matrix rack_table)))
     <> head 10 (sort_descending_stable Qle_bool (candidates rack_matrix 1 [2%Z])).
Proof.
  split; [vm_compute; reflexivity|].
  split; [vm_compute; auto|].
  split; [vm_compute; reflexivity|].
  split; [vm_compute; reflexivity|].
  split; intros H; apply (f_equal (map fst)) in H; vm_compute in H; discriminate H.
Qed.

(* ================================================================== *)
(** * The call and its two arguments *)

Section ObjectsRun.
Variable quicksort : forall A : Type, (A -> A -> bool) -> list A -> list A.


End ObjectsRun.


(* ================================================================== *)
(** * The matrix builder and the genre lookup *)

(** C10: when the matrix and the joined table come from the same call of
    [create_user_item_matrix], every title of the matrix, hence every
    recommended title, has a row in the joined table: the first-match lookup
    finds a row for each of them, whose title is the recommended one, and
    [get_recommendations] ends without an exception for every user
    identifier. *)
Theorem genre_lookup_defined
    (quicksort : forall A : Type, (A -> A -> bool) -> list A -> list A)
    (ratings : list RatingRow) (movies : list MovieRow)
    (t0 : list event) (M : DataFrame Z string Q) (movies_df : list MergedRow)
    (user_id : Z) :
  sorts quicksort ->
  create_user_item_matrix ratings movies = (t0, Returned (M, movies_df)) ->
  (forall t, In t (columns M) ->
     exists details, first_match movies_df t = Some details /\ title details = t)
  /\ (forall t g s,
        In (t, g, s) (recommendations (trace (get_recommendations quicksort user_id M movies_df))) ->
        exists details, first_match movies_df t = Some details /\ genres details = g)
  /\ result (get_recommendations quicksort user_id M movies_df) = Returned tt.
Proof.
  intros Hs Hc.
  unfold create_user_item_matrix, print in Hc. rewrite bind_Returned in Hc.
  simpl in Hc. injection Hc as _ HM Hdf. subst movies_df.
  assert (Hwf : well_formed M) by (rewrite <- HM; apply pivot_table_well_formed).
  assert (Hcov : covers (merge ratings movies) M)
    by (rewrite <- HM; apply pivot_table_covered).
  assert (Hfirst : forall t, In t (columns M) ->
            exists details, first_match (merge ratings movies) t = Some details
                            /\ title details = t).
  { intros t Ht. destruct (first_match_defined _ t (Hcov t Ht)) as [r F].
    exists r. split; [exact F|]. now apply first_match_title in F. }
  split; [exact Hfirst|].
  destruct (contains user_id (index M)) eqn:C.
  - apply contains_In in C.
    destruct (similar_users quicksort M user_id) as [|e su] eqn:E.
    + pose proof (get_recommendations_run quicksort Hs M (merge ratings movies) user_id Hwf C)
        as Hrun.
      rewrite E in Hrun. simpl in Hrun. rewrite Hrun. split; [intros t g s []|reflexivity].
    + destruct (printed_recommendations_covered quicksort Hs M (merge ratings movies)
                  user_id Hwf C Hcov) as [Hall Hret]; [congruence|].
      split; [|exact Hret].
      intros t g s Hp. rewrite Hall in Hp.
      apply in_map_iff in Hp. destruct Hp as (item & [= <- <- _] & Hitem).
      apply (top_10_unrated quicksort Hs) in Hitem.
      apply unrated_columns in Hitem.
      destruct (Hfirst _ Hitem) as (r & F & _).
      exists r. split; [exact F|]. unfold genre_of. now rewrite F.
  - assert (Hnot : ~ In user_id (index M))
      by (intros H; apply contains_In in H; congruence).
    rewrite (get_recommendations_absent quicksort M (merge ratings movies) user_id Hnot).
    split; [intros t g s []|reflexivity].
Qed.

Lemma genre_lookup_defined_witness :
  sorts (@stable_sort)
  /\ create_user_item_matrix sample_ratings sample_movies
     = ([Print MsgMatrixCreated], Returned (sample_matrix, sample_table))
  /\ result (get_recommendations (@stable_sort) 1 sample_matrix sample_table) = Returned tt.
Proof.
  split; [exact stable_sort_sorts|].
  split; [reflexivity|].
  apply (genre_lookup_defined (@stable_sort) sample_ratings sample_movies
           [Print MsgMatrixCreated] sample_matrix sample_table 1%Z
           stable_sort_sorts eq_refl).
Defined.

(* ================================================================== *)
(** * Properties of the query loop *)

Section LoopRuns.
Variable quicksort : forall A : Type, (A -> A -> bool) -> list A -> list A.
Variable M : DataFrame Z string Q.
Variable movies_df : list MergedRow.

Lemma loop_body_continue (line : string) (rest : list string) :
  lower line <> "exit" ->
  snd (loop_body quicksort M movies_df (line :: rest)) = Continue.
Proof.
  intros E. destruct (parse_int line) as [n|] eqn:P.
  - now rewrite (loop_body_query quicksort M movies_df line rest n E P).
  - now rewrite (loop_body_invalid quicksort M movies_df line rest E P).
Qed.

Lemma while_true_step (fuel : nat) (line : string) (rest : list string) :
  lower line <> "exit" ->
  while_true quicksort (S fuel) M movies_df (line :: rest)
  = (fst (loop_body quicksort M movies_df [line])
       ++ fst (while_true quicksort fuel M movies_df rest),
     snd (while_true quicksort fuel M movies_df rest)).
Proof.
  intros E. cbn [while_true].
  pose proof (loop_body_continue line rest E) as Hc.
  rewrite (loop_body_head quicksort M movies_df line rest) in *.
  destruct (loop_body quicksort M movies_df [line]) as [t c]. simpl in Hc. subst c.
  simpl tl. now destruct (while_true quicksort fuel M movies_df rest).
Qed.

Lemma while_true_exit (fuel : nat) (line : string) (rest : list string) :
  lower line = "exit" ->
  while_true quicksort (S fuel) M movies_df (line :: rest) = ([Print MsgPrompt], true).
Proof.
  intros E. cbn [while_true].
  now rewrite (loop_body_exit quicksort M movies_df line rest E).
Qed.

Lemma while_true_eof (fuel : nat) :
  while_true quicksort fuel M movies_df []
  = (List.concat (repeat [Print MsgPrompt; Print (MsgUnexpected EOFError)] fuel), false).
Proof.
  induction fuel as [|fuel IH]; [reflexivity|].
  cbn [while_true]. rewrite loop_body_eof. cbn [tl]. rewrite IH. reflexivity.
Qed.

Lemma while_true_lines (lines rest : list string) (fuel : nat) :
  (forall l, In l lines -> lower l <> "exit") ->
  while_true quicksort (List.length lines + fuel) M movies_df (lines ++ rest)
  = (List.concat (map (fun l => fst (loop_body quicksort M movies_df [l])) lines)
       ++ fst (while_true quicksort fuel M movies_df rest),
     snd (while_true quicksort fuel M movies_df rest)).
Proof.
  induction lines as [|line lines IH]; intros Hne.
  - simpl. now destruct (while_true quicksort fuel M movies_df rest).
  - cbn [List.length Nat.add app].
    rewrite while_true_step by (apply Hne; now left).
    rewrite IH by (intros l Hl; apply Hne; now right).
    cbn [fst snd map List.concat]. now rewrite app_assoc.
Qed.

End LoopRuns.

Lemma main_with_files
    (quicksort : forall A : Type, (A -> A -> bool) -> list A -> list A)
    (fuel : nat) (movies : list MovieRow) (ratings : list RatingRow) (stdin : list string) :
  main quicksort fuel (Table movies) (Table ratings) stdin
  = (Print MsgDataLoaded :: Print MsgMatrixCreated
       :: fst (while_true quicksort fuel (fillna 0 (pivot_table (merge ratings movies)))
                 (merge ratings movies) stdin),
     if snd (while_true quicksort fuel (fillna 0 (pivot_table (merge ratings movies)))
               (merge ratings movies) stdin)
     then Some 0%Z else None).
Proof.
  cbv [main load_data read_csv create_user_item_matrix print bind ret app].
  now destruct (while_true quicksort fuel _ _ stdin).
Qed.




(* ================================================================== *)
(** * Cosine similarity *)

Lemma dot_comm (x y : list Q) : (dot x y == dot y x)%Q.
Proof.
  unfold dot. revert y. induction x as [|a x IH]; intros [|b y]; simpl; try reflexivity.
  rewrite IH. ring.
Qed.

Lemma Qsquare_nonneg (a : Q) : (0 <= a * a)%Q.
Proof.
  unfold Qle, Qmult. simpl. rewrite Z.mul_1_r. apply Z.square_nonneg.
Qed.

Lemma Qsquare_zero (a : Q) : (a * a == 0)%Q -> (a == 0)%Q.
Proof.
  intros H. destruct (Qmult_integral _ _ H); assumption.
Qed.

Lemma squared_norm_cons (a : Q) (x : list Q) :
  squared_norm (a :: x) = (a * a + squared_norm x)%Q.
Proof. reflexivity. Qed.

Lemma squared_norm_nonneg (x : list Q) : (0 <= squared_norm x)%Q.
Proof.
  induction x as [|a x IH].
  - apply Qle_refl.
  - rewrite squared_norm_cons.
    change 0%Q with (0 + 0)%Q at 1.
    apply Qplus_le_compat; [apply Qsquare_nonneg | exact IH].
Qed.

Lemma squared_norm_zero (x : list Q) :
  (squared_norm x == 0)%Q <-> Forall (fun v => (v == 0)%Q) x.
Proof.
  induction x as [|a x IH].
  - split; [constructor | reflexivity].
  - rewrite squared_norm_cons. split.
    + intros H.
      pose proof (Qsquare_nonneg a) as Ha. pose proof (squared_norm_nonneg x) as Hx.
      assert (Hx0 : (squared_norm x == 0)%Q).
      { apply Qle_antisym; [|exact Hx].
        rewrite <- H. rewrite <- (Qplus_0_l (squared_norm x)) at 1.
        apply Qplus_le_compat; [exact Ha | apply Qle_refl]. }
      constructor; [|now apply IH].
      apply Qsquare_zero. rewrite Hx0, Qplus_0_r in H. exact H.
    + intros H. inversion H as [|? ? Ha Hx]; subst.
      apply IH in Hx. rewrite Hx, Ha. reflexivity.
Qed.

Lemma dot_zero_row (x y : list Q) :
  Forall (fun v => (v == 0)%Q) x -> (dot x y == 0)%Q.
Proof.
  unfold dot. intros H. revert y.
  induction H as [|a x Ha Hx IH]; intros [|b y]; simpl; try reflexivity.
  rewrite IH, Ha. ring.
Qed.

Lemma handle_zeros_pos (x : list Q) : (0 < handle_zeros (squared_norm x))%Q.
Proof.
  unfold handle_zeros.
  destruct (Qeq_bool (squared_norm x) 0) eqn:E; [reflexivity|].
  apply Qeq_bool_neq in E.
  destruct (Qle_lt_or_eq _ _ (squared_norm_nonneg x)) as [H|H]; [exact H|].
  symmetry in H. contradiction.
Qed.

Lemma cosine_similarity_entry (X : list (list Q)) (i j : nat) :
  (i < List.length X)%nat -> (j < List.length X)%nat ->
  nth j (nth i (cosine_similarity X) []) blank
  = {| sim_dot := dot (nth i X []) (nth j X []);
       sim_norm2 := (handle_zeros (squared_norm (nth i X [])) *
                     handle_zeros (squared_norm (nth j X [])))%Q |}.
Proof.
  intros Hi Hj. unfold cosine_similarity.
  set (S := fun x y : list Q =>
              {| sim_dot := dot x y;
                 sim_norm2 := (handle_zeros (squared_norm x) * handle_zeros (squared_norm y))%Q |}).
  change (nth j (nth i (map (fun x => map (fun y => S x y) X) X) []) blank
          = S (nth i X []) (nth j X [])).
  rewrite (nth_indep _ [] ((fun x => map (fun y => S x y) X) []))
    by (now rewrite length_map).
  rewrite (map_nth (fun x => map (fun y => S x y) X)).
  rewrite (nth_indep _ (blank : sim) (S (nth i X []) [])) by (now rewrite length_map).
  apply (map_nth (fun y => S (nth i X []) y)).
Qed.



(** ** The stored pair and the library's computation *)

Lemma Q2R_0 : Q2R 0 = 0%R.
Proof. unfold Q2R. simpl. lra. Qed.

Lemma Q2R_1 : Q2R 1 = 1%R.
Proof. unfold Q2R. simpl. lra. Qed.

Lemma Q2R_pos (q : Q) : (0 < q)%Q -> (0 < Q2R q)%R.
Proof. intros H. rewrite <- Q2R_0. now apply Qlt_Rlt. Qed.

Lemma Q2R_nonneg (q : Q) : (0 <= q)%Q -> (0 <= Q2R q)%R.
Proof. intros H. rewrite <- Q2R_0. now apply Qle_Rle. Qed.

Lemma handle_zeros_sqrt (x : list Q) :
  handle_zeros_R (norm_R x) = sqrt (Q2R (handle_zeros (squared_norm x))).
Proof.
  unfold handle_zeros_R, handle_zeros, norm_R.
  destruct (Qeq_bool (squared_norm x) 0) eqn:E.
  - apply Qeq_bool_eq in E. rewrite (Qeq_eqR _ _ E), Q2R_0, sqrt_0, Q2R_1, sqrt_1.
    destruct (Req_dec_T 0 0) as [_|H]; [reflexivity | now elim H].
  - apply Qeq_bool_neq in E.
    destruct (Req_dec_T (sqrt (Q2R (squared_norm x))) 0) as [H|_]; [|reflexivity].
    exfalso. apply sqrt_eq_0 in H; [|apply Q2R_nonneg, squared_norm_nonneg].
    apply E. apply eqR_Qeq. now rewrite Q2R_0.
Qed.

Lemma dot_R_scaled (x y : list Q) (c d : R) :
  c <> 0%R -> d <> 0%R ->
  dot_R (map (fun v => (Q2R v / c)%R) x) (map (fun v => (Q2R v / d)%R) y)
  = (Q2R (dot x y) / (c * d))%R.
Proof.
  intros Hc Hd. unfold dot_R, dot. revert y.
  induction x as [|a x IH]; intros [|b y]; simpl;
    try (rewrite Q2R_0; unfold Rdiv; now rewrite Rmult_0_l).
  rewrite IH. rewrite Q2R_plus, Q2R_mult. field. now split.
Qed.

(** The stored pair stands for the number the library computes. *)
Lemma cosine_similarity_agrees (X : list (list Q)) (i j : nat) :
  (i < List.length X)%nat -> (j < List.length X)%nat ->
  sim_R (nth j (nth i (cosine_similarity X) []) blank)
  = nth j (nth i (cosine_similarity_R X) []) 0%R.
Proof.
  intros Hi Hj.
  rewrite cosine_similarity_entry by assumption.
  unfold cosine_similarity_R, normalize.
  set (N := fun x : list Q => map (fun v => (Q2R v / handle_zeros_R (norm_R x))%R) x).
  set (Xn := map N X).
  assert (Hlen : List.length Xn = List.length X) by (unfold Xn; now rewrite length_map).
  rewrite (nth_indep _ [] ((fun x => map (fun y => dot_R x y) Xn) [])) by (rewrite length_map; lia).
  rewrite (map_nth (fun x => map (fun y => dot_R x y) Xn)).
  rewrite (nth_indep _ 0%R (dot_R (nth i Xn []) [])) by (rewrite length_map; lia).
  rewrite (map_nth (fun y => dot_R (nth i Xn []) y)).
  unfold Xn.
  change (nth i (map N X) []) with (nth i (map N X) (N [])).
  change (nth j (map N X) []) with (nth j (map N X) (N [])).
  rewrite !(map_nth N). unfold N.
  set (x := nth i X []). set (y := nth j X []).
  pose proof (Q2R_pos _ (handle_zeros_pos x)) as Hx.
  pose proof (Q2R_pos _ (handle_zeros_pos y)) as Hy.
  rewrite !handle_zeros_sqrt.
  rewrite dot_R_scaled.
  - unfold sim_R. cbn [sim_dot sim_norm2].
    rewrite Q2R_mult, sqrt_mult by lra. reflexivity.
  - intros H. apply sqrt_eq_0 in H; lra.
  - intros H. apply sqrt_eq_0 in H; lra.
Qed.

Lemma Q2R_abs (q : Q) : Q2R (Qabs q) = Rabs (Q2R q).
Proof.
  destruct (Qlt_le_dec q 0) as [H|H].
  - rewrite (Qeq_eqR _ _ (Qabs_neg q (Qlt_le_weak _ _ H))), Q2R_opp.
    apply Qlt_Rlt in H. rewrite Q2R_0 in H. now rewrite Rabs_left.
  - rewrite (Qeq_eqR _ _ (Qabs_pos q H)).
    apply Qle_Rle in H. rewrite Q2R_0 in H. now rewrite Rabs_pos_eq.
Qed.

Lemma signed_square_le (a b : R) : (a <= b)%R <-> (a * Rabs a <= b * Rabs b)%R.
Proof.
  unfold Rabs. destruct (Rcase_abs a), (Rcase_abs b); split; intros; nra.
Qed.

(** The comparison the program sorts with is the order of the numbers. *)
Lemma sim_leb_order (s t : sim) :
  (0 < sim_norm2 s)%Q -> (0 < sim_norm2 t)%Q ->
  sim_leb s t = true <-> (sim_R s <= sim_R t)%R.
Proof.
  intros Hs Ht.
  assert (Hkey : forall u : sim, (0 < sim_norm2 u)%Q ->
            Q2R (sim_key u) = (sim_R u * Rabs (sim_R u))%R).
  { intros u Hu. unfold sim_key, sim_R.
    pose proof (Q2R_pos _ Hu) as Hp.
    rewrite Q2R_div by (intros E; rewrite E in Hu; discriminate).
    rewrite Q2R_mult, Q2R_abs.
    assert (Hq : (0 < sqrt (Q2R (sim_norm2 u)))%R) by (apply sqrt_lt_R0; exact Hp).
    unfold Rdiv at 2 3. rewrite Rabs_mult, (Rabs_pos_eq (/ _)) by (left; now apply Rinv_0_lt_compat).
    rewrite <- (sqrt_sqrt (Q2R (sim_norm2 u))) at 1 by lra.
    field. lra. }
  unfold sim_leb. rewrite Qle_bool_iff, signed_square_le, <- !Hkey by assumption.
  split; [apply Qle_Rle | apply Rle_Qle].
Qed.

(* ================================================================== *)
(** * What a stable sorting routine would give

    With [kind='stable'] the two rankings are the ones with ties in the
    original order. *)

Section Stable.
Context {A : Type} (le : A -> A -> bool).
Hypothesis le_total : total le.
Hypothesis le_trans : transitive le.

Lemma insert_front (x : A) (l : list A) :
  (forall z, In z l -> le x z = true) -> insert le x l = x :: l.
Proof.
  destruct l as [|y l]; intros H; simpl; [reflexivity|].
  now rewrite (H y (or_introl eq_refl)).
Qed.

Lemma insert_back (x : A) (l : list A) :
  (forall z, In z l -> le x z = false) -> insert le x l = l ++ [x].
Proof.
  induction l as [|y l IH]; intros H; simpl; [reflexivity|].
  rewrite (H y (or_introl eq_refl)), IH; [reflexivity|].
  intros z Hz. apply H. now right.
Qed.

Lemma insert_snoc (x y : A) (l : list A) :
  le x y = true -> insert le x (l ++ [y]) = insert le x l ++ [y].
Proof.
  intros E. induction l as [|z l IH]; simpl.
  - now rewrite E.
  - destruct (le x z); [reflexivity | now rewrite IH].
Qed.

Lemma filter_insert (p : A -> bool) (x : A) (l : list A) :
  StronglySorted (fun a b => le a b = true) l ->
  filter p (insert le x l) = if p x then insert le x (filter p l) else filter p l.
Proof.
  induction 1 as [|y l Hs IH Hy]; simpl.
  - now destruct (p x).
  - destruct (le x y) eqn:E; simpl.
    + destruct (p x); [|reflexivity].
      destruct (p y); simpl; [now rewrite E|].
      symmetry. apply insert_front. intros z Hz.
      apply filter_In in Hz. destruct Hz as [Hz _].
      rewrite Forall_forall in Hy. exact (le_trans _ _ _ E (Hy z Hz)).
    + rewrite IH. destruct (p x), (p y); simpl; try reflexivity. now rewrite E.
Qed.

Lemma filter_stable_sort (p : A -> bool) (l : list A) :
  filter p (stable_sort le l) = stable_sort le (filter p l).
Proof.
  induction l as [|x l IH]; simpl; [reflexivity|].
  rewrite filter_insert by (now apply stable_sort_sorted).
  rewrite IH. now destruct (p x).
Qed.

Lemma insert_insert_behind (a x : A) (l : list A) :
  insert le a (insert_behind le x l) = insert_behind le x (insert le a l).
Proof.
  induction l as [|y l IH]; simpl.
  - destruct (le a x); reflexivity.
  - destruct (le y x) eqn:Eyx, (le a y) eqn:Eay; simpl.
    + rewrite Eay, (le_trans _ _ _ Eay Eyx), Eyx. reflexivity.
    + rewrite Eay, Eyx, IH. reflexivity.
    + rewrite Eay, Eyx. destruct (le a x); reflexivity.
    + rewrite Eyx.
      assert (Eax : le a x = false).
      { destruct (le a x) eqn:Eax; [|reflexivity].
        rewrite (le_trans _ _ _ Eax (not_le_ge le le_total _ _ Eyx)) in Eay. discriminate. }
      now rewrite Eax, Eay.
Qed.

Lemma stable_sort_snoc (x : A) (l : list A) :
  stable_sort le (l ++ [x]) = insert_behind le x (stable_sort le l).
Proof.
  induction l as [|a l IH]; simpl; [reflexivity|].
  now rewrite IH, insert_insert_behind.
Qed.

End Stable.

Section StableDescending.
Context {A : Type} (le : A -> A -> bool).
Hypothesis le_total : total le.
Hypothesis le_trans : transitive le.

Lemma rev_insert_behind (x : A) (l : list A) :
  StronglySorted (fun a b => le a b = true) l ->
  rev (insert_behind le x l) = insert (fun a b => le b a) x (rev l).
Proof.
  induction 1 as [|y l Hs IH Hy]; simpl; [reflexivity|].
  destruct (le y x) eqn:E; simpl.
  - rewrite IH. symmetry. now apply insert_snoc.
  - symmetry. apply (insert_back (fun a b => le b a)).
    intros z Hz. apply in_app_or in Hz. destruct Hz as [Hz|[<-|[]]]; [|exact E].
    apply in_rev in Hz. rewrite Forall_forall in Hy.
    destruct (le z x) eqn:Ezx; [|reflexivity].
    rewrite (le_trans _ _ _ (Hy z Hz) Ezx) in E. discriminate.
Qed.

Lemma rev_stable_sort_rev (l : list A) :
  rev (stable_sort le (rev l)) = stable_sort (fun a b => le b a) l.
Proof.
  induction l as [|x l IH]; simpl; [reflexivity|].
  rewrite (stable_sort_snoc le le_total le_trans).
  rewrite rev_insert_behind by (now apply stable_sort_sorted).
  now rewrite IH.
Qed.

End StableDescending.

(** [sort_values] with a stable kind sorts in descending order and leaves
    equal values in their original order. *)
Lemma sort_values_stable {L V : Type} (le : V -> V -> bool) (s : Series L V) :
  total le -> transitive le ->
  sort_values (@stable_sort) le false s = sort_descending_stable le s.
Proof.
  intros Ht Htr. unfold sort_values, sort_descending_stable.
  apply (rev_stable_sort_rev (fun a b : L * V => le (snd a) (snd b))).
  - intros a b. apply Ht.
  - intros a b c. apply Htr.
Qed.

(** With a stable kind the similar users are the first 10 of the other users
    in descending order of similarity, ties in row order. *)
Lemma similar_users_stable (M : DataFrame Z string Q) (user_id : Z) :
  similar_users (@stable_sort) M user_id
  = head 10 (sort_descending_stable sim_leb (other_users M user_id)).
Proof.
  unfold similar_users. f_equal.
  rewrite <- (sort_values_stable sim_leb _ sim_leb_total sim_leb_transitive).
  rewrite <- other_users_filter.
  unfold sort_values. rewrite (filter_rev _ (stable_sort _ _)). f_equal.
  rewrite (filter_stable_sort (fun a b : Z * sim => sim_leb (snd a) (snd b))).
  - now rewrite filter_rev.
  - intros a b. apply sim_leb_total.
  - intros a b c. apply sim_leb_transitive.
Qed.

(** With a stable kind the recommendations are the first 10 of the candidates
    in descending order of score, ties in column order. *)
Lemma top_10_recommendations_stable (M : DataFrame Z string Q) (user_id : Z) :
  top_10_recommendations (@stable_sort) M user_id
  = head 10 (sort_descending_stable Qle_bool
               (candidates M user_id (map fst (similar_users (@stable_sort) M user_id)))).
Proof.
  unfold top_10_recommendations.
  now rewrite (sort_values_stable Qle_bool _ Qle_bool_total Qle_bool_transitive).
Qed.

(* ================================================================== *)
(** * Runs on the sample data *)

Example parse_int_examples :
  parse_int " 12 " = Some 12%Z /\ parse_int "-1_000" = Some (-1000)%Z
  /\ parse_int "+7" = Some 7%Z /\ parse_int "1__0" = None /\ parse_int "_1" = None
  /\ parse_int "" = None /\ parse_int "4.5" = None /\ parse_int "exit " = None
  /\ parse_int (String (ascii_of_nat 31) "7") = None
  /\ parse_int (String (ascii_of_nat 12) "7") = Some 7%Z.
Proof. repeat split; reflexivity. Qed.

(** User 3 has similarity 0 with user 1 and still counts in the means: C,
    rated 5 by user 3 alone, gets 5/2, and B, rated 4 by user 2 alone, gets
    4/2. *)
Example sample_run :
  get_recommendations (@stable_sort) 1 sample_matrix sample_table
  = ([CosineSimilarity 3;
      Print (MsgSimilarUsers 1 [(2%Z, {| sim_dot := 25; sim_norm2 := 1025 |});
                                (3%Z, {| sim_dot := 0; sim_norm2 := 625 |})]);
      Print (MsgHeader 1);
      Print (MsgRecommendation "C" "Action" (5 # 2));
      Print (MsgRecommendation "B" "Comedy" (4 # 2))],
     Returned tt).
Proof. vm_compute. reflexivity. Qed.

(** The only user of a matrix has no similar user. *)
Example lone_run :
  get_recommendations (@stable_sort) 1 lone_matrix []
  = ([CosineSimilarity 1; Print MsgNoSimilarUsers], Returned tt).
Proof. reflexivity. Qed.

(** Without [movies.csv] nothing is read and no prompt is shown; with a
    [movies.csv] that pandas cannot parse the process ends on its exception. *)
Example missing_file :
  main (@stable_sort) 5 Missing (Table sample_ratings) ["1"]
  = ([Print MsgFilesMissing], Some 0%Z)
  /\ main (@stable_sort) 5 (Unreadable (OtherError "EmptyDataError")) Missing ["1"]
     = ([], Some 1%Z).
Proof. split; reflexivity. Qed.

Example sample_session :
  main (@stable_sort) 5 (Table sample_movies) (Table sample_ratings)
       ["abc"; " 7 "; "EXIT"; "1"]
  = ([Print MsgDataLoaded; Print MsgMatrixCreated;
      Print MsgPrompt; Print MsgInvalidInput;
      Print MsgPrompt; Print (MsgUserNotFound 7);
      Print MsgPrompt],
     Some 0%Z).
Proof. vm_compute. reflexivity. Qed.

(** Two calls for user 1 on the same matrix and table: the lines of
    [sample_run] twice, and the two objects as they were. *)
Example two_calls_sample :
  two_calls (@stable_sort) 1 sample_heap
  = (sample_heap,
     ([CosineSimilarity 3;
       Print (MsgSimilarUsers 1 [(2%Z, {| sim_dot := 25; sim_norm2 := 1025 |});
                                 (3%Z, {| sim_dot := 0; sim_norm2 := 625 |})]);
       Print (MsgHeader 1);
       Print (MsgRecommendation "C" "Action" (5 # 2));
       Print (MsgRecommendation "B" "Comedy" (4 # 2));
       CosineSimilarity 3;
       Print (MsgSimilarUsers 1 [(2%Z, {| sim_dot := 25; sim_norm2 := 1025 |});
                                 (3%Z, {| sim_dot := 0; sim_norm2 := 625 |})]);
       Print (MsgHeader 1);
       Print (MsgRecommendation "C" "Action" (5 # 2));
       Print (MsgRecommendation "B" "Comedy" (4 # 2))],
      Returned tt)).
Proof. vm_compute. reflexivity. Qed.

(** A statement that wrote to the matrix would leave another heap: here
    the ratings of user 1 are overwritten with the row of user 2. *)
Example write_matrix_sample :
  fst (write_matrix
         (fun M => {| index := index M; columns := columns M;
                      values := match values M with
                                | _ :: second :: rest => second :: second :: rest
                                | rows => rows
                                end |})
         sample_heap)
  <> sample_heap.
Proof. intros H. apply (f_equal matrix_object) in H. vm_compute in H. discriminate. Qed.

(* ================================================================== *)
(** * More on the matrix builder *)

(** The joined table holds exactly the pairs of a rating and a movie of the
    catalog with the same identifier. *)
Lemma merge_In (ratings : list RatingRow) (movies : list MovieRow) (row : MergedRow) :
  In row (merge ratings movies) <->
  exists r m,
    In r ratings /\ In m movies /\ m_movieId m = r_movieId r
    /\ row = {| userId := r_userId r; movieId := r_movieId r; rating := r_rating r;
                title := m_title m; genres := m_genres m |}.
Proof.
  unfold merge. rewrite in_flat_map. split.
  - intros (r & Hr & Hrow). apply in_map_iff in Hrow.
    destruct Hrow as (m & <- & Hm). apply filter_In in Hm.
    destruct Hm as [Hm E]. apply Z.eqb_eq in E.
    exists r, m. repeat split; assumption.
  - intros (r & m & Hr & Hm & E & ->).
    exists r. split; [exact Hr|]. apply in_map_iff.
    exists m. split; [reflexivity|]. apply filter_In.
    split; [exact Hm | now apply Z.eqb_eq].
Qed.

Lemma filter_unique_id (movies : list MovieRow) (k : Z) :
  NoDup (map m_movieId movies) ->
  List.length (filter (fun m => Z.eqb (m_movieId m) k) movies)
  = if existsb (fun m => Z.eqb (m_movieId m) k) movies then 1%nat else 0%nat.
Proof.
  induction movies as [|m movies IH]; simpl; intros Hnd; [reflexivity|].
  inversion Hnd as [|? ? Hm Hnd']; subst.
  destruct (Z.eqb (m_movieId m) k) eqn:E; simpl.
  - apply Z.eqb_eq in E.
    rewrite IH by exact Hnd'.
    destruct (existsb (fun m0 => Z.eqb (m_movieId m0) k) movies) eqn:X; [|reflexivity].
    exfalso. apply existsb_exists in X. destruct X as (m' & Hm' & E').
    apply Z.eqb_eq in E'. apply Hm. rewrite E, <- E'. now apply in_map.
  - now apply IH.
Qed.

(** X1: when no movie identifier occurs twice in the catalog, the joined table is
    the ratings of catalogued movies, each once and in their order; the other
    ratings are dropped. *)
Theorem merge_keeps_catalogued_ratings (ratings : list RatingRow) (movies : list MovieRow) :
  NoDup (map m_movieId movies) ->
  map rating_of_row (merge ratings movies) = filter (catalogued movies) ratings.
Proof.
  intros Hnd. unfold merge.
  induction ratings as [|r ratings IH]; simpl; [reflexivity|].
  rewrite map_app, IH. unfold catalogued at 2.
  pose proof (filter_unique_id movies (r_movieId r) Hnd) as Hlen.
  destruct (existsb (fun m => Z.eqb (m_movieId m) (r_movieId r)) movies).
  - destruct (filter (fun m => Z.eqb (m_movieId m) (r_movieId r)) movies) as [|m [|m' l]];
      try discriminate.
    simpl. unfold rating_of_row at 1. simpl. now destruct r.
  - destruct (filter (fun m => Z.eqb (m_movieId m) (r_movieId r)) movies); [|discriminate].
    reflexivity.
Qed.

Lemma merge_keeps_catalogued_ratings_witness :
  NoDup (map m_movieId sample_movies)
  /\ map rating_of_row (merge sample_ratings sample_movies)
     = filter (catalogued sample_movies) sample_ratings.
Proof.
  assert (H : NoDup (map m_movieId sample_movies))
    by (simpl; repeat constructor; simpl; intuition discriminate).
  split; [exact H|].
  apply (merge_keeps_catalogued_ratings sample_ratings sample_movies H).
Defined.

Lemma ascii_compare_refl (a : ascii) : Ascii.compare a a = Eq.
Proof. unfold Ascii.compare. apply N.compare_refl. Qed.

Lemma ascii_compare_lt_trans (a b c : ascii) :
  Ascii.compare a b = Lt -> Ascii.compare b c = Lt -> Ascii.compare a c = Lt.
Proof.
  unfold Ascii.compare. rewrite !N.compare_lt_iff. apply N.lt_trans.
Qed.

Lemma string_compare_lt_trans (s1 s2 s3 : string) :
  String.compare s1 s2 = Lt -> String.compare s2 s3 = Lt -> String.compare s1 s3 = Lt.
Proof.
  revert s2 s3. induction s1 as [|a s1 IH]; intros [|b s2] [|c s3]; simpl;
    try discriminate; try reflexivity.
  destruct (Ascii.compare a b) eqn:Eab; try discriminate.
  - apply Ascii.compare_eq_iff in Eab. subst b.
    destruct (Ascii.compare a c); try discriminate; [apply IH | reflexivity].
  - intros _. destruct (Ascii.compare b c) eqn:Ebc; try discriminate.
    + apply Ascii.compare_eq_iff in Ebc. subst c. now rewrite Eab.
    + now rewrite (ascii_compare_lt_trans _ _ _ Eab Ebc).
Qed.

Lemma string_leb_transitive : transitive String.leb.
Proof.
  intros s1 s2 s3. unfold String.leb.
  destruct (String.compare s1 s2) eqn:E12; try discriminate;
    destruct (String.compare s2 s3) eqn:E23; try discriminate; intros _ _.
  - apply String.compare_eq_iff in E12. subst. now rewrite E23.
  - apply String.compare_eq_iff in E12. subst. now rewrite E23.
  - apply String.compare_eq_iff in E23. subst. now rewrite E12.
  - now rewrite (string_compare_lt_trans _ _ _ E12 E23).
Qed.

Lemma string_leb_total : total String.leb.
Proof. intros a b. apply String.leb_total. Qed.

Lemma Z_leb_total : total Z.leb.
Proof. intros a b. rewrite !Z.leb_le. lia. Qed.

Lemma Z_leb_transitive : transitive Z.leb.
Proof. intros a b c. rewrite !Z.leb_le. lia. Qed.

Lemma group_keys_sorted {L : Type} (eq_dec : forall a b : L, {a = b} + {a <> b})
    (le : L -> L -> bool) (l : list L) :
  total le -> transitive le ->
  StronglySorted (fun a b => le a b = true) (group_keys eq_dec le l).
Proof. intros Ht Htr. unfold group_keys. now apply stable_sort_sorted. Qed.

Lemma sorted_distinct_increasing (l : list Z) :
  NoDup l -> StronglySorted (fun a b => Z.leb a b = true) l -> StronglySorted Z.lt l.
Proof.
  intros Hnd Hs. induction Hs as [|a l Hs IH Ha]; constructor.
  - apply IH. now inversion Hnd.
  - inversion Hnd as [|? ? Hnot _]; subst.
    apply Forall_forall. intros b Hb. rewrite Forall_forall in Ha.
    specialize (Ha b Hb). apply Z.leb_le in Ha.
    assert (a <> b) by (intros ->; contradiction). lia.
Qed.

Lemma catalogued_exists (movies : list MovieRow) (r : RatingRow) :
  catalogued movies r = true <-> exists m, In m movies /\ m_movieId m = r_movieId r.
Proof.
  unfold catalogued. rewrite existsb_exists. split.
  - intros (m & Hm & E). apply Z.eqb_eq in E. now exists m.
  - intros (m & Hm & E). exists m. split; [exact Hm | now apply Z.eqb_eq].
Qed.

(** X2: the rows of the matrix are the users with at least one rating of a
    catalogued movie, each once, in increasing order of identifier: a user
    whose ratings all reference unknown movies has no row. *)
Theorem matrix_users (ratings : list RatingRow) (movies : list MovieRow)
    (t0 : list event) (M : DataFrame Z string Q) (df : list MergedRow) :
  create_user_item_matrix ratings movies = (t0, Returned (M, df)) ->
  (forall u, In u (index M) <->
             exists r, In r ratings /\ r_userId r = u /\ catalogued movies r = true)
  /\ StronglySorted Z.lt (index M).
Proof.
  intros Hc. unfold create_user_item_matrix, print in Hc. rewrite bind_Returned in Hc.
  simpl in Hc. injection Hc as _ HM Hdf. subst M df. simpl. split.
  - intros u. rewrite group_keys_In, in_map_iff. split.
    + intros (row & <- & Hrow). apply merge_In in Hrow.
      destruct Hrow as (r & m & Hr & Hm & E & ->). simpl.
      exists r. split; [exact Hr|]. split; [reflexivity|].
      apply catalogued_exists. now exists m.
    + intros (r & Hr & <- & Hcat). apply catalogued_exists in Hcat.
      destruct Hcat as (m & Hm & E).
      exists {| userId := r_userId r; movieId := r_movieId r; rating := r_rating r;
                title := m_title m; genres := m_genres m |}.
      split; [reflexivity|]. apply merge_In. now exists r, m.
  - apply sorted_distinct_increasing.
    + apply group_keys_NoDup.
    + apply group_keys_sorted; [exact Z_leb_total | exact Z_leb_transitive].
Qed.

Lemma matrix_users_witness :
  create_user_item_matrix sample_ratings sample_movies
    = ([Print MsgMatrixCreated], Returned (sample_matrix, sample_table))
  /\ StronglySorted Z.lt (index sample_matrix).
Proof.
  split; [reflexivity|].
  apply (matrix_users sample_ratings sample_movies [Print MsgMatrixCreated]
           sample_matrix sample_table eq_refl).
Defined.

(** X3: the columns of the matrix are the titles of the catalogued movies that
    have at least one rating, each once, in lexicographic order: movies that
    share a title share a column, and a movie nobody rated has none. *)
Theorem matrix_titles (ratings : list RatingRow) (movies : list MovieRow)
    (t0 : list event) (M : DataFrame Z string Q) (df : list MergedRow) :
  create_user_item_matrix ratings movies = (t0, Returned (M, df)) ->
  (forall t, In t (columns M) <->
             exists r m, In r ratings /\ In m movies /\ m_movieId m = r_movieId r
                         /\ m_title m = t)
  /\ NoDup (columns M)
  /\ StronglySorted (fun a b => String.leb a b = true) (columns M).
Proof.
  intros Hc. unfold create_user_item_matrix, print in Hc. rewrite bind_Returned in Hc.
  simpl in Hc. injection Hc as _ HM Hdf. subst M df. simpl. split; [|split].
  - intros t. rewrite group_keys_In, in_map_iff. split.
    + intros (row & <- & Hrow). apply merge_In in Hrow.
      destruct Hrow as (r & m & Hr & Hm & E & ->). simpl. now exists r, m.
    + intros (r & m & Hr & Hm & E & <-).
      exists {| userId := r_userId r; movieId := r_movieId r; rating := r_rating r;
                title := m_title m; genres := m_genres m |}.
      split; [reflexivity|]. apply merge_In. now exists r, m.
  - apply group_keys_NoDup.
  - apply group_keys_sorted; [exact string_leb_total | exact string_leb_transitive].
Qed.

Lemma matrix_titles_witness :
  create_user_item_matrix sample_ratings sample_movies
    = ([Print MsgMatrixCreated], Returned (sample_matrix, sample_table))
  /\ NoDup (columns sample_matrix).
Proof.
  split; [reflexivity|].
  apply (matrix_titles sample_ratings sample_movies [Print MsgMatrixCreated]
           sample_matrix sample_table eq_refl).
Defined.

Lemma position_None {L : Type} `{Label L} (x : L) (l : list L) :
  position x l = None -> ~ In x l.
Proof.
  intros E Hin. destruct (position_In x l Hin) as [k Hk]. congruence.
Qed.

Lemma filter_nil {X : Type} (f : X -> bool) (l : list X) :
  (forall x, In x l -> f x = false) -> filter f l = [].
Proof.
  induction l as [|x l IH]; intros Hf; simpl; [reflexivity|].
  rewrite (Hf x) by now left. apply IH. intros y Hy. apply Hf. now right.
Qed.

Lemma ratings_of_absent_user (df : list MergedRow) (u : Z) (t : string) :
  ~ In u (map userId df) -> ratings_of df u t = [].
Proof.
  intros Hnot. unfold ratings_of. rewrite filter_nil; [reflexivity|].
  intros r Hr. apply andb_false_iff. left. apply Z.eqb_neq.
  intros E. apply Hnot. rewrite <- E. now apply in_map.
Qed.

Lemma ratings_of_absent_title (df : list MergedRow) (u : Z) (t : string) :
  ~ In t (map title df) -> ratings_of df u t = [].
Proof.
  intros Hnot. unfold ratings_of. rewrite filter_nil; [reflexivity|].
  intros r Hr. apply andb_false_iff. right. apply String.eqb_neq.
  intros E. apply Hnot. rewrite <- E. now apply in_map.
Qed.

Lemma pivot_cell (df : list MergedRow) (d : Q) (u : Z) (t : string) :
  In u (index (pivot_table df)) -> In t (columns (pivot_table df)) ->
  cell (fillna d (pivot_table df)) u t = filled d (mean_opt (ratings_of df u t)).
Proof.
  intros Hu Ht. unfold cell, row. simpl columns. simpl index.
  simpl in Hu, Ht.
  destruct (position_In _ _ Ht) as [j Hj]. rewrite Hj.
  destruct (position_In _ _ Hu) as [k Hk]. rewrite Hk.
  destruct (position_Some _ _ _ Hj) as [_ Ej].
  destruct (position_Some _ _ _ Hk) as [_ Ek].
  simpl values. rewrite map_map.
  set (users := group_keys Z.eq_dec Z.leb (map userId df)) in *.
  set (titles := group_keys string_dec String.leb (map title df)) in *.
  erewrite (nth_error_nth _ k).
  2:{ rewrite nth_error_map, Ek. reflexivity. }
  rewrite map_map.
  erewrite (nth_error_nth _ j).
  2:{ rewrite nth_error_map, Ej. reflexivity. }
  reflexivity.
Qed.

Lemma created_cell (ratings : list RatingRow) (movies : list MovieRow)
    (t0 : list event) (M : DataFrame Z string Q) (df : list MergedRow)
    (u : Z) (t : string) :
  create_user_item_matrix ratings movies = (t0, Returned (M, df)) ->
  cell M u t = match ratings_of df u t with
               | [] => 0%Q
               | _ :: _ => mean (ratings_of df u t)
               end.
Proof.
  intros Hc. unfold create_user_item_matrix, print in Hc. rewrite bind_Returned in Hc.
  simpl in Hc. injection Hc as _ HM Hdf. subst M df.
  set (df := merge ratings movies).
  destruct (in_dec string_dec t (columns (pivot_table df))) as [Ht|Ht].
  - destruct (in_dec Z.eq_dec u (index (pivot_table df))) as [Hu|Hu].
    + rewrite (pivot_cell df 0 u t Hu Ht). unfold mean_opt, filled.
      now destruct (ratings_of df u t).
    + rewrite ratings_of_absent_user
        by (intros H; apply Hu; simpl; now apply group_keys_In).
      unfold cell, row. simpl index.
      destruct (position u _) as [k|] eqn:Ek.
      * apply position_Some in Ek. destruct Ek as [_ Ek].
        apply nth_error_In in Ek. contradiction.
      * destruct (position t _) as [j|]; [now destruct j | reflexivity].
  - rewrite ratings_of_absent_title
      by (intros H; apply Ht; simpl; now apply group_keys_In).
    unfold cell. destruct (position t _) as [j|] eqn:Ej; [|reflexivity].
    apply position_Some in Ej. destruct Ej as [_ Ej].
    apply nth_error_In in Ej. contradiction.
Qed.

(** X4: a cell of the matrix is the mean of all the ratings the user gave to the
    movies of that title, and 0 when there is no such rating; outside the
    rows and columns of the matrix every cell reads 0. *)
Theorem matrix_cell (ratings : list RatingRow) (movies : list MovieRow)
    (t0 : list event) (M : DataFrame Z string Q) (df : list MergedRow)
    (u : Z) (t : string) :
  create_user_item_matrix ratings movies = (t0, Returned (M, df)) ->
  cell M u t = match ratings_of df u t with
               | [] => 0%Q
               | _ :: _ => mean (ratings_of df u t)
               end.
Proof. apply created_cell. Qed.

Lemma matrix_cell_witness :
  create_user_item_matrix sample_ratings sample_movies
    = ([Print MsgMatrixCreated], Returned (sample_matrix, sample_table))
  /\ cell sample_matrix 2 "B" = mean (ratings_of sample_table 2 "B").
Proof.
  split; [reflexivity|].
  apply (matrix_cell sample_ratings sample_movies [Print MsgMatrixCreated]
           sample_matrix sample_table 2%Z "B" eq_refl).
Defined.

(** X5: a title is taken as unseen by a user exactly when it is a column of the
    matrix and the user has no rating for it or the mean of the user's
    ratings for it is 0: a rating of 0 counts as no rating. *)
Theorem unrated_titles (ratings : list RatingRow) (movies : list MovieRow)
    (t0 : list event) (M : DataFrame Z string Q) (df : list MergedRow)
    (u : Z) (t : string) :
  create_user_item_matrix ratings movies = (t0, Returned (M, df)) ->
  In t (unrated M u) <->
  In t (columns M) /\ (ratings_of df u t = [] \/ (mean (ratings_of df u t) == 0)%Q).
Proof.
  intros Hc. unfold unrated. rewrite filter_In, Qeq_bool_iff.
  rewrite (created_cell ratings movies t0 M df u t Hc).
  destruct (ratings_of df u t) as [|q l]; split; intros [Ht H]; split; auto.
  - reflexivity.
  - destruct H; [discriminate | assumption].
Qed.

Lemma unrated_titles_witness :
  create_user_item_matrix zero_ratings sample_movies
    = ([Print MsgMatrixCreated], Returned (zero_matrix, zero_table))
  /\ (In "B" (unrated zero_matrix 2) <->
      In "B" (columns zero_matrix)
      /\ (ratings_of zero_table 2 "B" = [] \/ (mean (ratings_of zero_table 2 "B") == 0)%Q)).
Proof.
  split; [reflexivity|].
  apply (unrated_titles zero_ratings sample_movies [Print MsgMatrixCreated]
           zero_matrix zero_table 2%Z "B" eq_refl).
Defined.

(* ================================================================== *)
(** * More on the recommender *)



Lemma similar_users_computed_ranked
    (quicksort : forall A : Type, (A -> A -> bool) -> list A -> list A)
    (cosine : list (list Q) -> list (list sim))
    (M : DataFrame Z string Q) (user_id : Z) :
  sorts quicksort ->
  exists ranked : Series Z sim,
    Permutation ranked (other_users_computed cosine M user_id)
    /\ descending sim_leb ranked
    /\ similar_users_computed quicksort cosine M user_id = head 10 ranked.
Proof.
  intros Hs.
  exists (filter (fun entry : Z * sim => negb (Z.eqb user_id (fst entry)))
            (sort_values quicksort sim_leb false
               (map (fun u => (u, computed_similarity cosine M u user_id)) (index M)))).
  split; [|split; [|reflexivity]].
  - rewrite <- other_users_computed_filter. apply Permutation_filter', Permutation_sym.
    apply (sort_values_perm quicksort Hs sim_leb sim_leb_total sim_leb_transitive).
  - apply StronglySorted_filter.
    apply (sort_values_descending quicksort Hs sim_leb sim_leb_total sim_leb_transitive).
Qed.

(** X7: in the order of the similarities as the routine computed them, no user
    that is left out stands above a user that is selected; the value printed
    with a selected user is the computed similarity of that user to the
    target. *)
Theorem similar_users_most_similar
    (quicksort : forall A : Type, (A -> A -> bool) -> list A -> list A)
    (cosine : list (list Q) -> list (list sim))
    (M : DataFrame Z string Q) (movies_df : list MergedRow) (user_id : Z)
    (su : Series Z sim) (u v : Z) (s : sim) :
  sorts quicksort -> row_per_user cosine ->
  well_formed M -> In user_id (index M) -> columns M <> [] ->
  similar_users_printed
    (trace (get_recommendations_computed quicksort cosine user_id M movies_df)) = [su] ->
  In (u, s) su ->
  In v (index M) -> v <> user_id -> ~ In v (map fst su) ->
  s = computed_similarity cosine M u user_id
  /\ sim_leb (computed_similarity cosine M v user_id) s = true.
Proof.
  intros Hs Hrows Hwf Hin _ Hprinted Hus Hv Hne Hout.
  rewrite (printed_similar_users_computed quicksort Hs cosine Hrows M movies_df user_id
             Hwf Hin) in Hprinted.
  destruct (similar_users_computed quicksort cosine M user_id) as [|e l] eqn:E;
    [discriminate|].
  injection Hprinted as <-. rewrite <- E in *. clear E e l.
  destruct (similar_users_computed_ranked quicksort cosine M user_id Hs)
    as (ranked & HP & Hd & Hsu).
  rewrite Hsu in Hus, Hout. unfold head in Hus, Hout.
  assert (Hs_eq : s = computed_similarity cosine M u user_id).
  { assert (Ho : In (u, s) (other_users_computed cosine M user_id)).
    { apply (Permutation_in _ HP).
      rewrite <- (firstn_skipn 10 ranked). apply in_or_app. now left. }
    unfold other_users_computed in Ho. apply in_map_iff in Ho.
    now destruct Ho as (u' & [= <- <-] & _). }
  split; [exact Hs_eq|].
  assert (Hvr : In (v, computed_similarity cosine M v user_id) (skipn 10 ranked)).
  { assert (Hvo : In (v, computed_similarity cosine M v user_id) ranked).
    { apply (Permutation_in _ (Permutation_sym HP)).
      unfold other_users_computed. apply in_map_iff. exists v. split; [reflexivity|].
      apply filter_In. split; [exact Hv|].
      apply negb_true_iff, Z.eqb_neq. congruence. }
    rewrite <- (firstn_skipn 10 ranked) in Hvo. apply in_app_or in Hvo.
    destruct Hvo as [Hvo|Hvo]; [|exact Hvo].
    exfalso. apply Hout. apply in_map_iff.
    now exists (v, computed_similarity cosine M v user_id). }
  unfold descending in Hd. rewrite <- (firstn_skipn 10 ranked) in Hd.
  exact (StronglySorted_app_le _ _ _ Hd _ _ Hus Hvr).
Qed.

Lemma similar_users_most_similar_witness :
  sorts (@stable_sort) /\ row_per_user cosine_similarity
  /\ well_formed crowd_matrix /\ In 1%Z (index crowd_matrix)
  /\ columns crowd_matrix <> []
  /\ In (2%Z, {| sim_dot := 25; sim_norm2 := 650 |})
        (similar_users_computed (@stable_sort) cosine_similarity crowd_matrix 1)
  /\ In 12%Z (index crowd_matrix) /\ 12%Z <> 1%Z
  /\ ~ In 12%Z (map fst (similar_users_computed (@stable_sort) cosine_similarity
                           crowd_matrix 1))
  /\ sim_leb (computed_similarity cosine_similarity crowd_matrix 12 1)
             {| sim_dot := 25; sim_norm2 := 650 |} = true.
Proof.
  assert (Hwf : well_formed crowd_matrix) by apply pivot_table_well_formed.
  assert (H1 : In 1%Z (index crowd_matrix)) by (vm_compute; auto).
  assert (H2 : In (2%Z, {| sim_dot := 25; sim_norm2 := 650 |})
                  (similar_users_computed (@stable_sort) cosine_similarity crowd_matrix 1))
    by (vm_compute; left; reflexivity).
  assert (H3 : In 12%Z (index crowd_matrix)) by (vm_compute; do 11 right; left; reflexivity).
  assert (H4 : 12%Z <> 1%Z) by discriminate.
  assert (H5 : ~ In 12%Z (map fst (similar_users_computed (@stable_sort) cosine_similarity
                                     crowd_matrix 1)))
    by (vm_compute; intros H; repeat (destruct H as [H|H]; [discriminate|]); exact H).
  split; [exact stable_sort_sorts|]. split; [exact cosine_similarity_rows|].
  assert (H6 : columns crowd_matrix <> []) by (vm_compute; discriminate).
  split; [exact Hwf|]. split; [exact H1|]. split; [exact H6|].
  split; [exact H2|]. split; [exact H3|]. split; [exact H4|]. split; [exact H5|].
  apply (similar_users_most_similar (@stable_sort) cosine_similarity crowd_matrix crowd_table
           1%Z (similar_users_computed (@stable_sort) cosine_similarity crowd_matrix 1)
           2%Z 12%Z _ stable_sort_sorts cosine_similarity_rows Hwf H1 H6); try assumption.
  vm_compute. reflexivity.
Defined.

Lemma printed_item
    (quicksort : forall A : Type, (A -> A -> bool) -> list A -> list A)
    (M : DataFrame Z string Q) (movies_df : list MergedRow) (user_id : Z)
    (t g : string) (s : Q) :
  sorts quicksort -> well_formed M -> In user_id (index M) ->
  In (t, g, s) (recommendations (trace (get_recommendations quicksort user_id M movies_df))) ->
  In (t, s) (top_10_recommendations quicksort M user_id)
  /\ similar_users quicksort M user_id <> [].
Proof.
  intros Hs Hwf Hin Hp.
  destruct (printed_recommendations quicksort Hs M movies_df user_id Hwf Hin)
    as (k & Hrec & Hk0).
  rewrite Hrec in Hp. apply in_map_iff in Hp.
  destruct Hp as ([t' s'] & [= <- _ <-] & Hitem). split.
  - rewrite <- (firstn_skipn k (top_10_recommendations _ _ _)).
    apply in_or_app. now left.
  - intros E. rewrite (Hk0 E) in Hitem. destruct Hitem.
Qed.

(** X10: for a user of a matrix with at least two users, when every title has a
    row in the joined table, exactly [min 10 m] recommendations are printed,
    [m] being the number of titles the target has the value 0 for, and no
    title is printed twice: the list is filled up to 10 whatever the scores
    are, a score of 0 included. *)
Theorem recommendations_count
    (quicksort : forall A : Type, (A -> A -> bool) -> list A -> list A)
    (M : DataFrame Z string Q) (movies_df : list MergedRow) (user_id : Z) :
  sorts quicksort -> well_formed M -> In user_id (index M) ->
  (1 < List.length (index M))%nat -> covers movies_df M ->
  List.length (recommendations (trace (get_recommendations quicksort user_id M movies_df)))
  = Nat.min 10 (List.length (unrated M user_id))
  /\ NoDup (map (fun r => fst (fst r))
              (recommendations (trace (get_recommendations quicksort user_id M movies_df)))).
Proof.
  intros Hs Hwf Hin Hn Hc.
  pose proof (similar_users_nonempty quicksort M user_id Hs (proj1 Hwf) Hin Hn) as Hne.
  destruct (printed_recommendations_covered quicksort Hs M movies_df user_id Hwf Hin Hc Hne)
    as [Hrec _].
  rewrite Hrec, map_map, length_map. cbn [fst].
  pose proof (sort_values_perm quicksort Hs Qle_bool Qle_bool_total Qle_bool_transitive
                (candidates M user_id (map fst (similar_users quicksort M user_id)))) as HP.
  unfold top_10_recommendations, head. split.
  - rewrite length_firstn, <- (Permutation_length HP).
    now rewrite <- (length_map fst), candidates_titles.
  - rewrite <- firstn_map. apply NoDup_firstn.
    apply (Permutation_NoDup (Permutation_map fst HP)).
    rewrite candidates_titles. apply NoDup_filter. exact (proj1 (proj2 Hwf)).
Qed.

Lemma recommendations_count_witness :
  sorts (@stable_sort) /\ well_formed sample_matrix /\ In 1%Z (index sample_matrix)
  /\ (1 < List.length (index sample_matrix))%nat /\ covers sample_table sample_matrix
  /\ List.length
       (recommendations (trace (get_recommendations (@stable_sort) 1 sample_matrix sample_table)))
     = Nat.min 10 (List.length (unrated sample_matrix 1)).
Proof.
  assert (H1 : In 1%Z (index sample_matrix)) by (simpl; auto).
  assert (H2 : (1 < List.length (index sample_matrix))%nat) by (simpl; lia).
  assert (H3 : covers sample_table sample_matrix) by apply pivot_table_covered.
  split; [exact stable_sort_sorts|]. split; [exact sample_matrix_well_formed|].
  split; [exact H1|]. split; [exact H2|]. split; [exact H3|].
  exact (proj1 (recommendations_count (@stable_sort) sample_matrix sample_table 1%Z
                  stable_sort_sorts sample_matrix_well_formed H1 H2 H3)).
Defined.

(** X11: when every title has a row in the joined table, no candidate that is left
    out has a higher score than a recommendation that is printed. *)
Theorem recommendations_best
    (quicksort : forall A : Type, (A -> A -> bool) -> list A -> list A)
    (M : DataFrame Z string Q) (movies_df : list MergedRow) (user_id : Z)
    (su : Series Z sim) (t g t' : string) (s : Q) :
  sorts quicksort -> well_formed M -> In user_id (index M) -> covers movies_df M ->
  similar_users_printed (trace (get_recommendations quicksort user_id M movies_df)) = [su] ->
  In (t, g, s) (recommendations (trace (get_recommendations quicksort user_id M movies_df))) ->
  In t' (unrated M user_id) ->
  ~ In t' (map (fun r => fst (fst r))
             (recommendations (trace (get_recommendations quicksort user_id M movies_df)))) ->
  (unweighted_mean M (map fst su) t' <= s)%Q.
Proof.
  intros Hs Hwf Hin Hc Hprinted Hp Ht' Hout.
  destruct (printed_item quicksort M movies_df user_id t g s Hs Hwf Hin Hp) as [Htop Hne].
  rewrite (printed_similar_users quicksort Hs M movies_df user_id Hwf Hin) in Hprinted.
  destruct (similar_users quicksort M user_id) as [|e l] eqn:E; [now elim Hne|].
  injection Hprinted as <-. rewrite <- E in *. clear E e l.
  destruct (printed_recommendations_covered quicksort Hs M movies_df user_id Hwf Hin Hc Hne)
    as [Hrec _].
  rewrite Hrec, map_map in Hout. cbn [fst] in Hout.
  set (users := map fst (similar_users quicksort M user_id)) in *.
  set (ranked := sort_values quicksort Qle_bool false (candidates M user_id users)).
  pose proof (sort_values_perm quicksort Hs Qle_bool Qle_bool_total Qle_bool_transitive
                (candidates M user_id users)) as HP.
  pose proof (sort_values_descending quicksort Hs Qle_bool Qle_bool_total Qle_bool_transitive
                (candidates M user_id users)) as Hd.
  fold ranked in HP, Hd.
  change (top_10_recommendations quicksort M user_id) with (firstn 10 ranked) in *.
  assert (Hskip : In (t', unweighted_mean M users t') (skipn 10 ranked)).
  { assert (Hr : In (t', unweighted_mean M users t') ranked).
    { apply (Permutation_in _ HP). unfold candidates. apply in_map_iff. now exists t'. }
    rewrite <- (firstn_skipn 10 ranked) in Hr. apply in_app_or in Hr.
    destruct Hr as [Hr|Hr]; [|exact Hr].
    exfalso. apply Hout. apply in_map_iff. now exists (t', unweighted_mean M users t'). }
  unfold descending in Hd. rewrite <- (firstn_skipn 10 ranked) in Hd.
  pose proof (StronglySorted_app_le _ _ _ Hd _ _ Htop Hskip) as Hle. simpl in Hle.
  now apply Qle_bool_iff.
Qed.

Lemma recommendations_best_witness :
  sorts (@stable_sort) /\ well_formed shelf_matrix /\ In 1%Z (index shelf_matrix)
  /\ covers shelf_table shelf_matrix
  /\ In "M12" (unrated shelf_matrix 1)
  /\ ~ In "M12" (map (fun r => fst (fst r))
                   (recommendations
                      (trace (get_recommendations (@stable_sort) 1 shelf_matrix shelf_table))))
  /\ (unweighted_mean shelf_matrix (map fst (similar_users (@stable_sort) shelf_matrix 1)) "M12"
      <= 5)%Q.
Proof.
  assert (Hwf : well_formed shelf_matrix) by apply pivot_table_well_formed.
  assert (Hc : covers shelf_table shelf_matrix) by apply pivot_table_covered.
  assert (H1 : In 1%Z (index shelf_matrix)) by (vm_compute; auto).
  assert (H2 : In "M12" (unrated shelf_matrix 1)) by (vm_compute; do 10 right; left; reflexivity).
  assert (H3 : ~ In "M12" (map (fun r => fst (fst r))
                   (recommendations
                      (trace (get_recommendations (@stable_sort) 1 shelf_matrix shelf_table)))))
    by (vm_compute; intros H; repeat (destruct H as [H|H]; [discriminate|]); exact H).
  split; [exact stable_sort_sorts|]. split; [exact Hwf|]. split; [exact H1|].
  split; [exact Hc|]. split; [exact H2|]. split; [exact H3|].
  apply (recommendations_best (@stable_sort) shelf_matrix shelf_table 1%Z
           (similar_users (@stable_sort) shelf_matrix 1) "M02" "Drama" "M12" 5%Q
           stable_sort_sorts Hwf H1 Hc); try assumption.
  - vm_compute. reflexivity.
  - vm_compute. left. reflexivity.
Defined.

Lemma show_recommendations_result (movies_df : list MergedRow) (items : Series string Q) :
  (snd (for_each items (show_recommendation movies_df)) = Returned tt
   /\ forall item, In item items -> first_match movies_df (fst item) <> None)
  \/ (snd (for_each items (show_recommendation movies_df)) = Raised IndexError
      /\ exists item, In item items /\ first_match movies_df (fst item) = None).
Proof.
  induction items as [|item items IH]; simpl for_each.
  - left. split; [reflexivity | intros item []].
  - unfold show_recommendation at 1 3.
    destruct (first_match movies_df (fst item)) as [r|] eqn:F.
    + unfold print. rewrite bind_Returned. cbn [snd].
      destruct IH as [[E Hall]|[E (bad & Hbad & Fbad)]].
      * left. split; [exact E|]. intros x [<-|Hx]; [congruence | now apply Hall].
      * right. split; [exact E|]. exists bad. split; [now right | exact Fbad].
    + right. split; [reflexivity|]. exists item. split; [now left | exact F].
Qed.

(** X14: for a user of a matrix with at least one title, the only exception
    [get_recommendations] can end with is the [IndexError] of the genre
    lookup, and it does so exactly when similar users were printed and one
    of the titles selected over them has no row in the table it was handed;
    the query loop reports it and goes on. *)
Theorem genre_lookup_failure
    (quicksort : forall A : Type, (A -> A -> bool) -> list A -> list A)
    (M : DataFrame Z string Q) (movies_df : list MergedRow) (user_id : Z) :
  sorts quicksort -> well_formed M -> In user_id (index M) -> columns M <> [] ->
  (result (get_recommendations quicksort user_id M movies_df) = Returned tt
   \/ result (get_recommendations quicksort user_id M movies_df) = Raised IndexError)
  /\ (result (get_recommendations quicksort user_id M movies_df) = Raised IndexError <->
      exists su,
        similar_users_printed (trace (get_recommendations quicksort user_id M movies_df))
          = [su]
        /\ exists item,
            In item (head 10 (sort_values quicksort Qle_bool false
                                (candidates M user_id (map fst su))))
            /\ forall r, In r movies_df -> title r <> fst item)
  /\ (forall line rest,
        lower line <> "exit" -> parse_int line = Some user_id ->
        result (get_recommendations quicksort user_id M movies_df) = Raised IndexError ->
        loop_body quicksort M movies_df (line :: rest)
        = (Print MsgPrompt :: trace (get_recommendations quicksort user_id M movies_df)
             ++ [Print (MsgUnexpected IndexError)],
           Continue)).
Proof.
  intros Hs Hwf Hin _.
  pose proof (printed_similar_users quicksort Hs M movies_df user_id Hwf Hin) as Hprinted.
  pose proof (get_recommendations_run quicksort Hs M movies_df user_id Hwf Hin) as Hrun.
  assert (Hnone : forall t, first_match movies_df t = None <->
                            forall r, In r movies_df -> title r <> t).
  { intros t. unfold first_match. split.
    - intros F r Hr. apply (find_none _ _ F) in Hr. now apply String.eqb_neq.
    - intros Hall. destruct (find _ movies_df) as [r|] eqn:F; [|reflexivity].
      apply find_some in F. destruct F as [Hr E]. apply String.eqb_eq in E.
      now elim (Hall r Hr). }
  split; [|split].
  - rewrite Hrun. destruct (similar_users quicksort M user_id); [now left|].
    simpl empty. cbv iota. unfold result. cbn [snd].
    destruct (show_recommendations_result movies_df
                (top_10_recommendations quicksort M user_id)) as [[E _]|[E _]]; auto.
  - rewrite Hprinted. rewrite Hrun at 1.
    unfold top_10_recommendations.
    destruct (similar_users quicksort M user_id) as [|e l].
    + simpl. split; [discriminate | intros (su & H & _); discriminate].
    + simpl empty. cbv iota. unfold result. cbn [snd].
      destruct (show_recommendations_result movies_df
                  (head 10 (sort_values quicksort Qle_bool false
                              (candidates M user_id (map fst (e :: l))))))
        as [[E Hall]|[E (bad & Hbad & Fbad)]]; rewrite E; split.
      * discriminate.
      * intros (su & [= <-] & item & Hitem & Hno). apply Hnone in Hno.
        now elim (Hall item Hitem).
      * intros _. exists (e :: l). split; [reflexivity|].
        exists bad. split; [exact Hbad|]. now apply Hnone.
      * reflexivity.
  - intros line rest Hl Hp Hr.
    rewrite (loop_body_query quicksort M movies_df line rest user_id Hl Hp).
    unfold result in Hr. unfold trace. now rewrite Hr.
Qed.

Lemma genre_lookup_failure_witness :
  sorts (@stable_sort) /\ well_formed sample_matrix /\ In 1%Z (index sample_matrix)
  /\ columns sample_matrix <> []
  /\ (result (get_recommendations (@stable_sort) 1 sample_matrix []) = Returned tt
      \/ result (get_recommendations (@stable_sort) 1 sample_matrix []) = Raised IndexError).
Proof.
  assert (H1 : In 1%Z (index sample_matrix)) by (simpl; auto).
  assert (H2 : columns sample_matrix <> []) by (vm_compute; discriminate).
  split; [exact stable_sort_sorts|]. split; [exact sample_matrix_well_formed|].
  split; [exact H1|]. split; [exact H2|].
  exact (proj1 (genre_lookup_failure (@stable_sort) sample_matrix [] 1%Z
                  stable_sort_sorts sample_matrix_well_formed H1 H2)).
Defined.

Lemma cell_in_row (M : DataFrame Z string Q) (u : Z) (t : string) :
  well_formed M -> In u (index M) -> In t (columns M) -> In (cell M u t) (row M u).
Proof.
  intros Hwf Hu Ht. unfold cell.
  destruct (position_In t (columns M) Ht) as [j Hj]. rewrite Hj.
  destruct (position_Some _ _ _ Hj) as [Hlt _].
  apply nth_In. now rewrite (row_length M Hwf u Hu).
Qed.

Lemma row_in_values (M : DataFrame Z string Q) (u : Z) :
  well_formed M -> In u (index M) -> In (row M u) (values M).
Proof.
  intros (_ & _ & Hlen & _) Hu. unfold row.
  destruct (position_In u (index M) Hu) as [k Hk]. rewrite Hk.
  destruct (position_Some _ _ _ Hk) as [Hlt _].
  apply nth_In. lia.
Qed.

Lemma Qsum_bounds (lo hi : Q) (l : list Q) :
  (forall v, In v l -> (lo <= v)%Q /\ (v <= hi)%Q) ->
  (inject_Z (Z.of_nat (List.length l)) * lo <= Qsum l)%Q
  /\ (Qsum l <= inject_Z (Z.of_nat (List.length l)) * hi)%Q.
Proof.
  induction l as [|v l IH]; intros Hb.
  - cbn [List.length Qsum fold_right]. change (inject_Z (Z.of_nat 0)) with 0%Q.
    split; Lqa.lra.
  - destruct IH as [IH1 IH2]; [intros w Hw; apply Hb; now right|].
    destruct (Hb v (or_introl eq_refl)) as [Hv1 Hv2].
    cbn [List.length Qsum fold_right].
    rewrite Nat2Z.inj_succ. unfold Z.succ. rewrite inject_Z_plus.
    change (fold_right Qplus (0 : Q) l) with (Qsum l).
    set (N := inject_Z (Z.of_nat (List.length l))) in *.
    change (inject_Z 1) with 1%Q.
    split; Lqa.lra.
Qed.

Lemma mean_bounds (lo hi : Q) (l : list Q) :
  l <> [] ->
  (forall v, In v l -> (lo <= v)%Q /\ (v <= hi)%Q) ->
  (lo <= mean l)%Q /\ (mean l <= hi)%Q.
Proof.
  intros Hne Hb. destruct (Qsum_bounds lo hi l Hb) as [H1 H2].
  assert (Hpos : (0 < inject_Z (Z.of_nat (List.length l)))%Q).
  { destruct l; [congruence|].
    change 0%Q with (inject_Z 0). rewrite <- Zlt_Qlt. cbn [List.length]. lia. }
  unfold mean. split.
  - apply Qle_shift_div_l; [exact Hpos|]. rewrite Qmult_comm. exact H1.
  - apply Qle_shift_div_r; [exact Hpos|]. rewrite Qmult_comm. exact H2.
Qed.

Lemma unweighted_mean_mean (M : DataFrame Z string Q) (users : list Z) (t : string) :
  unweighted_mean M users t = mean (map (fun u => cell M u t) users).
Proof. unfold unweighted_mean, mean. now rewrite length_map. Qed.

(** X12: every score printed lies between any two bounds that hold for all the
    values of the matrix: with ratings from 0.5 to 5 and 0 for the missing
    ones, every score is between 0 and 5. *)
Theorem scores_within_bounds
    (quicksort : forall A : Type, (A -> A -> bool) -> list A -> list A)
    (M : DataFrame Z string Q) (movies_df : list MergedRow) (user_id : Z)
    (lo hi : Q) (t g : string) (s : Q) :
  sorts quicksort -> well_formed M -> In user_id (index M) ->
  (forall r v, In r (values M) -> In v r -> (lo <= v)%Q /\ (v <= hi)%Q) ->
  In (t, g, s) (recommendations (trace (get_recommendations quicksort user_id M movies_df))) ->
  (lo <= s)%Q /\ (s <= hi)%Q.
Proof.
  intros Hs Hwf Hin Hb Hp.
  destruct (printed_item quicksort M movies_df user_id t g s Hs Hwf Hin Hp) as [Htop Hne].
  pose proof (top_10_unrated quicksort Hs M user_id (t, s) Htop) as Ht.
  apply unrated_columns in Ht. simpl in Ht.
  apply (top_10_candidates quicksort Hs) in Htop.
  unfold candidates in Htop. apply in_map_iff in Htop.
  destruct Htop as (t0 & [= <- <-] & _).
  rewrite unweighted_mean_mean.
  apply mean_bounds.
  - destruct (similar_users quicksort M user_id); [now elim Hne | discriminate].
  - intros v Hv. apply in_map_iff in Hv. destruct Hv as (u & <- & Hu).
    apply (similar_users_present quicksort Hs M user_id) in Hu.
    destruct Hu as [Hu _].
    apply (Hb (row M u)); [now apply row_in_values | now apply cell_in_row].
Qed.

Lemma scores_within_bounds_witness :
  sorts (@stable_sort) /\ well_formed sample_matrix /\ In 1%Z (index sample_matrix)
  /\ (forall r v, In r (values sample_matrix) -> In v r -> (0 <= v)%Q /\ (v <= 5)%Q)
  /\ In ("C", "Action", 5 # 2)
        (recommendations (trace (get_recommendations (@stable_sort) 1 sample_matrix sample_table)))
  /\ (0 <= 5 # 2)%Q /\ (5 # 2 <= 5)%Q.
Proof.
  assert (H1 : In 1%Z (index sample_matrix)) by (simpl; auto).
  assert (H2 : forall r v, In r (values sample_matrix) -> In v r -> (0 <= v)%Q /\ (v <= 5)%Q).
  { assert (Hall : forallb (forallb (fun v => Qle_bool 0 v && Qle_bool v 5))
                     (values sample_matrix) = true) by (vm_compute; reflexivity).
    intros r v Hr Hv. rewrite forallb_forall in Hall. specialize (Hall r Hr).
    rewrite forallb_forall in Hall. specialize (Hall v Hv).
    apply andb_true_iff in Hall. now rewrite !Qle_bool_iff in Hall. }
  assert (H3 : In ("C", "Action", 5 # 2)
                 (recommendations
                    (trace (get_recommendations (@stable_sort) 1 sample_matrix sample_table))))
    by (vm_compute; left; reflexivity).
  split; [exact stable_sort_sorts|]. split; [exact sample_matrix_well_formed|].
  split; [exact H1|]. split; [exact H2|]. split; [exact H3|].
  exact (scores_within_bounds (@stable_sort) sample_matrix sample_table 1%Z 0 5
           "C" "Action" (5 # 2) stable_sort_sorts sample_matrix_well_formed H1 H2 H3).
Defined.



(* ================================================================== *)
(** * The user without a similar user *)

Lemma mean_of_zeros (l : list Q) :
  l <> [] -> (forall v, In v l -> (v == 0)%Q) -> (mean l == 0)%Q.
Proof.
  intros Hne Hz.
  destruct (mean_bounds 0 0 l Hne) as [H1 H2].
  - intros v Hv. rewrite (Hz v Hv). split; apply Qle_refl.
  - now apply Qle_antisym.
Qed.

(** C6, as the program has it: no similar user remains exactly when the
    target is the only user of the matrix; [get_recommendations] then
    computes the similarity, prints the line that no similar user was found,
    and returns without a recommendation and without an exception.  When the
    matrix has another user, similar users are selected whatever their
    ratings are (all of the others when they are at most 10) and that line
    is not printed.  In particular, when every other user has an all-zero
    rating vector, these users are selected with similarity 0 and, every
    title having a row in the joined table, the run ends without an
    exception after recommending [min 10 m] titles with score 0, [m] being
    the number of titles the target has the value 0 for: the list is empty
    only when there is no such title. *)
Theorem no_similar_users
    (quicksort : forall A : Type, (A -> A -> bool) -> list A -> list A)
    (M : DataFrame Z string Q) (movies_df : list MergedRow) (user_id : Z) :
  sorts quicksort -> well_formed M -> In user_id (index M) -> columns M <> [] ->
  (similar_users_printed (trace (get_recommendations quicksort user_id M movies_df)) = []
   <-> (forall u, In u (index M) -> u = user_id))
  /\ ((forall u, In u (index M) -> u = user_id) ->
      get_recommendations quicksort user_id M movies_df
      = ([CosineSimilarity (List.length (values M)); Print MsgNoSimilarUsers], Returned tt))
  /\ ((exists u, In u (index M) /\ u <> user_id) ->
      (exists su,
          similar_users_printed (trace (get_recommendations quicksort user_id M movies_df))
            = [su]
          /\ List.length su = Nat.min 10 (List.length (index M) - 1)
          /\ ((List.length (other_users M user_id) <= 10)%nat ->
              Permutation su (other_users M user_id)))
      /\ In (Print (MsgHeader user_id))
            (trace (get_recommendations quicksort user_id M movies_df))
      /\ ~ In (Print MsgNoSimilarUsers)
              (trace (get_recommendations quicksort user_id M movies_df)))
  /\ ((exists u, In u (index M) /\ u <> user_id) ->
      (forall u, In u (index M) -> u <> user_id -> Forall (fun v => (v == 0)%Q) (row M u)) ->
      (forall su u s,
          similar_users_printed (trace (get_recommendations quicksort user_id M movies_df))
            = [su] ->
          In (u, s) su -> sim_R s = 0%R)
      /\ (covers movies_df M ->
          result (get_recommendations quicksort user_id M movies_df) = Returned tt
          /\ List.length
               (recommendations (trace (get_recommendations quicksort user_id M movies_df)))
             = Nat.min 10 (List.length (unrated M user_id))
          /\ forall t g s,
              In (t, g, s)
                 (recommendations (trace (get_recommendations quicksort user_id M movies_df))) ->
              (s == 0)%Q)).
Proof.
  intros Hs Hwf Hin _.
  destruct (similar_users_ranked quicksort M user_id Hs) as (ranked & HP & Hsu).
  pose proof (get_recommendations_run quicksort Hs M movies_df user_id Hwf Hin) as Hrun.
  pose proof (printed_similar_users quicksort Hs M movies_df user_id Hwf Hin) as Hprinted.
  pose proof (similar_users_length quicksort M user_id Hs (proj1 Hwf) Hin) as Hlen.
  assert (Hnil : similar_users quicksort M user_id = []
                 <-> (forall u, In u (index M) -> u = user_id)).
  { rewrite <- other_users_nil, Hsu. split.
    - intros E. destruct ranked as [|e r]; [|discriminate].
      now apply Permutation_nil in HP.
    - intros E. rewrite E in HP. apply Permutation_sym, Permutation_nil in HP.
      now subst ranked. }
  assert (Hsome : (exists u, In u (index M) /\ u <> user_id) ->
                  similar_users quicksort M user_id <> []).
  { intros (u & Hu & Hne) E. apply Hne. now apply (proj1 Hnil E). }
  split; [|split; [|split]].
  - rewrite <- Hnil, Hprinted.
    destruct (similar_users quicksort M user_id); split; congruence.
  - intros Hall. apply Hnil in Hall. rewrite Hrun, Hall. reflexivity.
  - intros Hother. specialize (Hsome Hother). split; [|split].
    + exists (similar_users quicksort M user_id). split; [|split].
      * rewrite Hprinted.
        destruct (similar_users quicksort M user_id); [now elim Hsome | reflexivity].
      * exact Hlen.
      * intros Hle. rewrite Hsu. unfold head.
        rewrite firstn_all2; [exact HP|].
        now rewrite (Permutation_length HP).
    + rewrite Hrun. unfold trace.
      destruct (similar_users quicksort M user_id); [now elim Hsome|].
      simpl. auto.
    + rewrite Hrun. unfold trace.
      destruct (similar_users quicksort M user_id) as [|e su]; [now elim Hsome|].
      simpl. intros [H|[H|[H|H]]]; try discriminate.
      apply show_recommendations_events in H. destruct H as (t & g & s & H). discriminate.
  - intros Hother Hzero. specialize (Hsome Hother).
    assert (Hsel : forall u, In u (map fst (similar_users quicksort M user_id)) ->
                             In u (index M) /\ u <> user_id)
      by (intros u; apply (similar_users_present quicksort Hs M user_id)).
    split.
    + intros su u s Hp Hus. rewrite Hprinted in Hp.
      destruct (similar_users quicksort M user_id) as [|e l] eqn:E; [discriminate|].
      injection Hp as <-. rewrite <- E in *. clear E e l.
      assert (Hentry : In (u, s) (other_users M user_id)).
      { apply (Permutation_in _ HP). rewrite Hsu in Hus. unfold head in Hus.
        rewrite <- (firstn_skipn 10 ranked). apply in_or_app. now left. }
      apply other_users_entry in Hentry. destruct Hentry as (Hu & Hne & ->).
      unfold sim_R, similarity. cbn [sim_dot sim_norm2].
      rewrite (Qeq_eqR _ 0 (dot_zero_row (row M u) (row M user_id) (Hzero u Hu Hne))).
      unfold Q2R. simpl. unfold Rdiv. now rewrite !Rmult_0_l.
    + intros Hc.
      destruct (printed_recommendations_covered quicksort Hs M movies_df user_id Hwf Hin Hc Hsome)
        as [Hrec Hret].
      split; [exact Hret|].
      pose proof (sort_values_perm quicksort Hs Qle_bool Qle_bool_total Qle_bool_transitive
                    (candidates M user_id (map fst (similar_users quicksort M user_id)))) as HPc.
      split.
      * rewrite Hrec, length_map. unfold top_10_recommendations, head.
        rewrite length_firstn, <- (Permutation_length HPc).
        now rewrite <- (length_map fst), candidates_titles.
      * intros t g s Hp. rewrite Hrec in Hp.
        apply in_map_iff in Hp. destruct Hp as ([t' s'] & [= <- _ <-] & Hitem).
        pose proof (top_10_unrated quicksort Hs M user_id (t', s') Hitem) as Ht.
        apply unrated_columns in Ht. cbn [fst] in Ht.
        apply (top_10_candidates quicksort Hs) in Hitem.
        unfold candidates in Hitem. apply in_map_iff in Hitem.
        destruct Hitem as (t0 & [= <- <-] & _).
        rewrite unweighted_mean_mean. apply mean_of_zeros.
        -- destruct (similar_users quicksort M user_id); [now elim Hsome | discriminate].
        -- intros v Hv. apply in_map_iff in Hv. destruct Hv as (u & <- & Hu).
           destruct (Hsel u Hu) as [Hui Hne].
           pose proof (Hzero u Hui Hne) as Hrow. rewrite Forall_forall in Hrow.
           apply Hrow. now apply cell_in_row.
Qed.

Lemma no_similar_users_witness :
  sorts (@stable_sort) /\ well_formed zero_matrix /\ In 1%Z (index zero_matrix)
  /\ columns zero_matrix <> []
  /\ (exists u, In u (index zero_matrix) /\ u <> 1%Z)
  /\ (forall u, In u (index zero_matrix) -> u <> 1%Z ->
        Forall (fun v => (v == 0)%Q) (row zero_matrix u))
  /\ covers zero_table zero_matrix
  /\ List.length
       (recommendations (trace (get_recommendations (@stable_sort) 1 zero_matrix zero_table)))
     = Nat.min 10 (List.length (unrated zero_matrix 1)).
Proof.
  assert (Hwf : well_formed zero_matrix) by apply pivot_table_well_formed.
  assert (H1 : In 1%Z (index zero_matrix)) by (simpl; auto).
  assert (H2 : exists u, In u (index zero_matrix) /\ u <> 1%Z)
    by (exists 2%Z; split; [simpl; auto | discriminate]).
  assert (H3 : forall u, In u (index zero_matrix) -> u <> 1%Z ->
                 Forall (fun v => (v == 0)%Q) (row zero_matrix u)).
  { intros u [<-|[<-|[]]] Hne; [now elim Hne|].
    vm_compute. repeat constructor. }
  assert (H4 : covers zero_table zero_matrix) by apply pivot_table_covered.
  assert (H5 : columns zero_matrix <> []) by (vm_compute; discriminate).
  split; [exact stable_sort_sorts|]. split; [exact Hwf|]. split; [exact H1|].
  split; [exact H5|]. split; [exact H2|]. split; [exact H3|]. split; [exact H4|].
  destruct (no_similar_users (@stable_sort) zero_matrix zero_table 1%Z
              stable_sort_sorts Hwf H1 H5) as (_ & _ & _ & Hzero).
  exact (proj1 (proj2 (proj2 (Hzero H2 H3) H4))).
Defined.

(** C6 as stated fails: the only neighbour of user 1 is user 2, whose rating
    vector is all-zero; user 2 is selected with similarity 0 and the unrated
    title B is recommended with score 0. *)
Lemma all_zero_neighbours_counterexample :
  create_user_item_matrix zero_ratings sample_movies
    = ([Print MsgMatrixCreated], Returned (zero_matrix, zero_table))
  /\ index zero_matrix = [1%Z; 2%Z]
  /\ row zero_matrix 2 = [0%Q; 0%Q]
  /\ get_recommendations (@stable_sort) 1 zero_matrix zero_table
     = ([CosineSimilarity 2;
         Print (MsgSimilarUsers 1 [(2%Z, {| sim_dot := 0; sim_norm2 := 25 |})]);
         Print (MsgHeader 1);
         Print (MsgRecommendation "B" "Comedy" 0%Q)],
        Returned tt)
  /\ recommendations (trace (get_recommendations (@stable_sort) 1 zero_matrix zero_table))
     <> [].
Proof.
  repeat split; try (vm_compute; reflexivity).
  vm_compute. discriminate.
Qed.

(* ================================================================== *)
(** * More on the query loop and on [main] *)

Lemma while_true_left
    (quicksort : forall A : Type, (A -> A -> bool) -> list A -> list A)
    (M : DataFrame Z string Q) (movies_df : list MergedRow)
    (fuel : nat) (stdin : list string) :
  (snd (while_true quicksort fuel M movies_df stdin) = true <->
   exists before e rest,
     stdin = before ++ e :: rest
     /\ (forall l, In l before -> lower l <> "exit")
     /\ lower e = "exit" /\ (List.length before < fuel)%nat)
  /\ (forall before e rest,
        stdin = before ++ e :: rest ->
        (forall l, In l before -> lower l <> "exit") ->
        lower e = "exit" -> (List.length before < fuel)%nat ->
        while_true quicksort fuel M movies_df stdin
        = (List.concat (map (fun l => fst (loop_body quicksort M movies_df [l])) before)
             ++ [Print MsgPrompt],
           true)).
Proof.
  assert (Hleft : forall before e rest,
             stdin = before ++ e :: rest ->
             (forall l, In l before -> lower l <> "exit") ->
             lower e = "exit" -> (List.length before < fuel)%nat ->
             while_true quicksort fuel M movies_df stdin
             = (List.concat (map (fun l => fst (loop_body quicksort M movies_df [l])) before)
                  ++ [Print MsgPrompt],
                true)).
  { intros before e rest -> Hb He Hlt.
    replace fuel with (List.length before + S (fuel - List.length before - 1))%nat by lia.
    rewrite (while_true_lines quicksort M movies_df before (e :: rest) _ Hb).
    now rewrite (while_true_exit quicksort M movies_df _ e rest He). }
  split; [|exact Hleft]. split.
  - clear Hleft. revert stdin. induction fuel as [|fuel IH]; intros stdin H.
    + discriminate.
    + destruct stdin as [|line rest].
      * rewrite while_true_eof in H. discriminate.
      * destruct (string_dec (lower line) "exit") as [E|E].
        -- exists [], line, rest. repeat split; [intros l [] | exact E | simpl; lia].
        -- rewrite (while_true_step quicksort M movies_df fuel line rest E) in H.
           cbn [snd] in H. destruct (IH rest H) as (before & e & rest' & -> & Hb & He & Hlt).
           exists (line :: before), e, rest'. repeat split.
           ++ intros l [<-|Hl]; [exact E | now apply Hb].
           ++ exact He.
           ++ simpl. lia.
  - intros (before & e & rest & Hst & Hb & He & Hlt).
    now rewrite (Hleft before e rest Hst Hb He Hlt).
Qed.

(** X15: the loop is left exactly when the exit keyword is read within the turns
    that are run; the lines behind the keyword are never read, and each line
    before it has its own turn. *)
Theorem loop_left_by_exit_only
    (quicksort : forall A : Type, (A -> A -> bool) -> list A -> list A)
    (M : DataFrame Z string Q) (movies_df : list MergedRow)
    (fuel : nat) (stdin : list string) :
  (snd (while_true quicksort fuel M movies_df stdin) = true <->
   exists before e rest,
     stdin = before ++ e :: rest
     /\ (forall l, In l before -> lower l <> "exit")
     /\ lower e = "exit" /\ (List.length before < fuel)%nat)
  /\ (forall before e rest,
        stdin = before ++ e :: rest ->
        (forall l, In l before -> lower l <> "exit") ->
        lower e = "exit" -> (List.length before < fuel)%nat ->
        while_true quicksort fuel M movies_df stdin
        = (List.concat (map (fun l => fst (loop_body quicksort M movies_df [l])) before)
             ++ [Print MsgPrompt],
           true)).
Proof. apply while_true_left. Qed.

Lemma loop_left_by_exit_only_witness :
  lower "quit" <> "exit" /\ lower "eXit" = "exit"
  /\ while_true (@stable_sort) 2 sample_matrix sample_table ["quit"; "eXit"; "1"]
     = (fst (loop_body (@stable_sort) sample_matrix sample_table ["quit"])
          ++ [Print MsgPrompt], true).
Proof.
  assert (H1 : lower "quit" <> "exit") by (vm_compute; discriminate).
  assert (H2 : lower "eXit" = "exit") by reflexivity.
  split; [exact H1|]. split; [exact H2|].
  rewrite (proj2 (loop_left_by_exit_only (@stable_sort) sample_matrix sample_table 2
                    ["quit"; "eXit"; "1"]) ["quit"] "eXit" ["1"] eq_refl).
  - cbn [map List.concat]. now rewrite app_nil_r.
  - intros l [<-|[]]. exact H1.
  - exact H2.
  - simpl. lia.
Defined.

(** X16: how [main] ends.  When a data file is missing, only the message about
    the files is printed, no prompt is shown and the exit code is 0.  When a
    file is there and pandas cannot read or parse it, nothing catches the
    exception: the process ends with exit code 1 and has printed nothing.
    With both tables read, no exception of a turn of the loop ends the
    process: it ends exactly when the exit keyword is read, and its exit
    code is 0 then. *)
Theorem main_ends
    (quicksort : forall A : Type, (A -> A -> bool) -> list A -> list A)
    (fuel : nat) (movies_csv : csv MovieRow) (ratings_csv : csv RatingRow)
    (stdin : list string) :
  (movies_csv = Missing
   \/ (exists movies, movies_csv = Table movies) /\ ratings_csv = Missing ->
   main quicksort fuel movies_csv ratings_csv stdin = ([Print MsgFilesMissing], Some 0%Z))
  /\ (forall e,
        e <> FileNotFoundError ->
        movies_csv = Unreadable e
        \/ (exists movies, movies_csv = Table movies) /\ ratings_csv = Unreadable e ->
        main quicksort fuel movies_csv ratings_csv stdin = ([], Some 1%Z))
  /\ (forall movies ratings,
        movies_csv = Table movies -> ratings_csv = Table ratings ->
        (forall code, snd (main quicksort fuel movies_csv ratings_csv stdin) = Some code ->
                      code = 0%Z)
        /\ (snd (main quicksort fuel movies_csv ratings_csv stdin) = Some 0%Z <->
            exists before e rest,
              stdin = before ++ e :: rest
              /\ (forall l, In l before -> lower l <> "exit")
              /\ lower e = "exit" /\ (List.length before < fuel)%nat)).
Proof.
  split; [|split].
  - intros [->|[[movies ->] ->]]; reflexivity.
  - intros e He [->|[[movies ->] ->]]; destruct e; try reflexivity; now elim He.
  - intros movies ratings -> ->.
    rewrite main_with_files. cbn [snd].
    pose proof (proj1 (while_true_left quicksort
                         (fillna 0 (pivot_table (merge ratings movies)))
                         (merge ratings movies) fuel stdin)) as Hiff.
    destruct (snd (while_true quicksort fuel _ _ stdin)); split.
    + now intros code [= <-].
    + split; [intros _; now apply Hiff | reflexivity].
    + discriminate.
    + split; [discriminate|].
      intros H. apply Hiff in H. discriminate.
Qed.

Lemma main_ends_witness :
  OtherError "EmptyDataError" <> FileNotFoundError
  /\ main (@stable_sort) 3 (Unreadable (OtherError "EmptyDataError")) (Table sample_ratings)
       ["1"]
     = ([], Some 1%Z).
Proof.
  assert (H : OtherError "EmptyDataError" <> FileNotFoundError) by discriminate.
  split; [exact H|].
  apply (proj1 (proj2 (main_ends (@stable_sort) 3 (Unreadable (OtherError "EmptyDataError"))
                         (Table sample_ratings) ["1"])) _ H).
  now left.
Defined.

(* ================================================================== *)
(** * What the loop takes for the keyword and for a number *)

Lemma lower_char_e (c : ascii) : lower_char c = "e"%char <-> c = "e"%char \/ c = "E"%char.
Proof.
  split.
  - destruct c as [[] [] [] [] [] [] [] []]; vm_compute; intros H;
      try discriminate; auto.
  - intros [->| ->]; reflexivity.
Qed.

Lemma lower_char_x (c : ascii) : lower_char c = "x"%char <-> c = "x"%char \/ c = "X"%char.
Proof.
  split.
  - destruct c as [[] [] [] [] [] [] [] []]; vm_compute; intros H;
      try discriminate; auto.
  - intros [->| ->]; reflexivity.
Qed.

Lemma lower_char_i (c : ascii) : lower_char c = "i"%char <-> c = "i"%char \/ c = "I"%char.
Proof.
  split.
  - destruct c as [[] [] [] [] [] [] [] []]; vm_compute; intros H;
      try discriminate; auto.
  - intros [->| ->]; reflexivity.
Qed.

Lemma lower_char_t (c : ascii) : lower_char c = "t"%char <-> c = "t"%char \/ c = "T"%char.
Proof.
  split.
  - destruct c as [[] [] [] [] [] [] [] []]; vm_compute; intros H;
      try discriminate; auto.
  - intros [->| ->]; reflexivity.
Qed.

(** X17: the lines taken for the exit keyword are the sixteen spellings of "exit"
    in upper and lower case, and nothing else: no blank before or behind. *)
Theorem exit_keyword_spellings (line : string) :
  lower line = "exit" <->
  exists c1 c2 c3 c4 : ascii,
    line = String c1 (String c2 (String c3 (String c4 EmptyString)))
    /\ (c1 = "e" \/ c1 = "E")%char /\ (c2 = "x" \/ c2 = "X")%char
    /\ (c3 = "i" \/ c3 = "I")%char /\ (c4 = "t" \/ c4 = "T")%char.
Proof.
  split.
  - destruct line as [|c1 [|c2 [|c3 [|c4 [|c5 rest]]]]]; simpl; try discriminate.
    intros [= H1 H2 H3 H4].
    exists c1, c2, c3, c4. split; [reflexivity|].
    rewrite <- lower_char_e, <- lower_char_x, <- lower_char_i, <- lower_char_t. auto.
  - intros (c1 & c2 & c3 & c4 & -> & H1 & H2 & H3 & H4). simpl.
    apply lower_char_e in H1. apply lower_char_x in H2.
    apply lower_char_i in H3. apply lower_char_t in H4.
    now rewrite H1, H2, H3, H4.
Qed.

Lemma letter_not_space (c : ascii) : is_letter c = true -> is_space c = false.
Proof. destruct c as [[] [] [] [] [] [] [] []]; vm_compute; congruence. Qed.

Lemma letter_not_digit (c : ascii) : is_letter c = true -> is_digit c = false.
Proof. destruct c as [[] [] [] [] [] [] [] []]; vm_compute; congruence. Qed.

Lemma letter_not_mark (c : ascii) :
  is_letter c = true -> c <> "_"%char /\ c <> "+"%char /\ c <> "-"%char.
Proof.
  destruct c as [[] [] [] [] [] [] [] []]; vm_compute; intros H;
    try discriminate; repeat split; discriminate.
Qed.

Lemma lstrip_keeps (c : ascii) (l : list ascii) :
  is_space c = false -> In c l -> In c (lstrip l).
Proof.
  intros Hc. induction l as [|a l IH]; simpl; [auto|].
  intros [->|Hin].
  - rewrite Hc. now left.
  - destruct (is_space a); [now apply IH | now right].
Qed.

Lemma strip_keeps (c : ascii) (l : list ascii) :
  is_space c = false -> In c l -> In c (strip l).
Proof.
  intros Hc Hin. unfold strip. apply -> in_rev.
  apply lstrip_keeps; [exact Hc|]. apply -> in_rev. now apply lstrip_keeps.
Qed.

Lemma digits_letter (c : ascii) (l : list ascii) (acc : Z) (b : bool) :
  is_letter c = true -> In c l -> digits acc b l = None.
Proof.
  intros Hc. revert acc b. induction l as [|a l IH]; intros acc b Hin; [destruct Hin|].
  simpl. destruct Hin as [->|Hin].
  - rewrite (letter_not_digit c Hc).
    destruct (letter_not_mark c Hc) as (Hu & _ & _).
    apply Ascii.eqb_neq in Hu. now rewrite Hu.
  - destruct (is_digit a); [now apply IH|].
    destruct (Ascii.eqb a "_" && b); [now apply IH | reflexivity].
Qed.

Lemma parse_int_letter (line : string) (c : ascii) :
  is_letter c = true -> In c (list_ascii_of_string line) -> parse_int line = None.
Proof.
  intros Hc Hin. unfold parse_int. cbv zeta.
  destruct (max_str_digits <? _)%Z; [reflexivity|].
  pose proof (strip_keeps c _ (letter_not_space c Hc) Hin) as Hs.
  destruct (letter_not_mark c Hc) as (_ & Hplus & Hminus).
  destruct (strip (list_ascii_of_string line)) as [|a l]; [destruct Hs|].
  assert (Hall : digits 0 false (a :: l) = None) by (now apply (digits_letter c)).
  assert (Hrest : a <> c -> digits 0 false l = None).
  { intros Hne. destruct Hs as [->|Hs]; [congruence|]. now apply (digits_letter c). }
  destruct a as [[] [] [] [] [] [] [] []]; try exact Hall;
    rewrite Hrest by congruence; reflexivity.
Qed.

(** X18: a line with a letter in it that is not the exit keyword is never taken
    for a number: the turn prints the invalid-input message, no user is
    looked up, and the loop goes on. *)
Theorem line_with_letter_invalid
    (quicksort : forall A : Type, (A -> A -> bool) -> list A -> list A)
    (M : DataFrame Z string Q) (movies_df : list MergedRow)
    (line : string) (rest : list string) (c : ascii) :
  In c (list_ascii_of_string line) -> is_letter c = true -> lower line <> "exit" ->
  loop_body quicksort M movies_df (line :: rest)
  = ([Print MsgPrompt; Print MsgInvalidInput], Continue).
Proof.
  intros Hin Hc Hl.
  apply loop_body_invalid; [exact Hl|].
  now apply (parse_int_letter line c).
Qed.

Lemma line_with_letter_invalid_witness :
  In "x"%char (list_ascii_of_string " exit") /\ is_letter "x" = true
  /\ lower " exit" <> "exit"
  /\ loop_body (@stable_sort) sample_matrix sample_table [" exit"]
     = ([Print MsgPrompt; Print MsgInvalidInput], Continue).
Proof.
  assert (H1 : In "x"%char (list_ascii_of_string " exit")) by (simpl; auto).
  assert (H2 : is_letter "x" = true) by reflexivity.
  assert (H3 : lower " exit" <> "exit") by (vm_compute; discriminate).
  split; [exact H1|]. split; [exact H2|]. split; [exact H3|].
  exact (line_with_letter_invalid (@stable_sort) sample_matrix sample_table
           " exit" [] "x"%char H1 H2 H3).
Defined.

(** X8: the number printed with a similar user is the cosine of the angle
    between the rating vector of that user and the one of the target, the
    dot product divided by the product of the two norms, and 0 when one of
    the two vectors is all-zero. *)
Theorem printed_similarity
    (quicksort : forall A : Type, (A -> A -> bool) -> list A -> list A)
    (M : DataFrame Z string Q) (movies_df : list MergedRow) (user_id : Z)
    (su : Series Z sim) (u : Z) (s : sim) :
  sorts quicksort -> well_formed M -> In user_id (index M) ->
  similar_users_printed (trace (get_recommendations quicksort user_id M movies_df)) = [su] ->
  In (u, s) su ->
  In u (index M) /\ u <> user_id
  /\ ((~ (squared_norm (row M u) == 0)%Q /\ ~ (squared_norm (row M user_id) == 0)%Q ->
       sim_R s = (Q2R (dot (row M u) (row M user_id))
                  / (norm_R (row M u) * norm_R (row M user_id)))%R)
      /\ ((squared_norm (row M u) == 0)%Q \/ (squared_norm (row M user_id) == 0)%Q ->
          sim_R s = 0%R)).
Proof.
  intros Hs Hwf Hin Hprinted Hus.
  rewrite (printed_similar_users quicksort Hs M movies_df user_id Hwf Hin) in Hprinted.
  destruct (similar_users quicksort M user_id) as [|e l] eqn:E; [discriminate|].
  injection Hprinted as <-. rewrite <- E in *. clear E e l.
  destruct (similar_users_ranked quicksort M user_id Hs) as (ranked & HP & Hsu).
  rewrite Hsu in Hus. unfold head in Hus.
  assert (Ho : In (u, s) (other_users M user_id)).
  { apply (Permutation_in _ HP). rewrite <- (firstn_skipn 10 ranked).
    apply in_or_app. now left. }
  apply other_users_entry in Ho. destruct Ho as (Hu & Hne & ->).
  split; [exact Hu|]. split; [exact Hne|].
  unfold sim_R, similarity. cbn [sim_dot sim_norm2]. split.
  - intros [Hnu Hnt].
    assert (Hh : forall x, ~ (squared_norm x == 0)%Q -> handle_zeros (squared_norm x) = squared_norm x).
    { intros x Hx. unfold handle_zeros.
      destruct (Qeq_bool (squared_norm x) 0) eqn:B; [|reflexivity].
      apply Qeq_bool_eq in B. contradiction. }
    rewrite (Hh _ Hnu), (Hh _ Hnt), Q2R_mult.
    rewrite sqrt_mult by (apply Q2R_nonneg, squared_norm_nonneg).
    reflexivity.
  - intros Hz.
    assert (Hd : (dot (row M u) (row M user_id) == 0)%Q).
    { destruct Hz as [Hz|Hz].
      - apply dot_zero_row. now apply squared_norm_zero.
      - rewrite dot_comm. apply dot_zero_row. now apply squared_norm_zero. }
    rewrite (Qeq_eqR _ _ Hd), Q2R_0. unfold Rdiv. apply Rmult_0_l.
Qed.

Lemma printed_similarity_witness :
  sorts (@stable_sort) /\ well_formed zero_matrix /\ In 1%Z (index zero_matrix)
  /\ In (2%Z, {| sim_dot := 0; sim_norm2 := 25 |}) (similar_users (@stable_sort) zero_matrix 1)
  /\ ((squared_norm (row zero_matrix 2) == 0)%Q \/ (squared_norm (row zero_matrix 1) == 0)%Q)
  /\ sim_R {| sim_dot := 0; sim_norm2 := 25 |} = 0%R.
Proof.
  assert (Hwf : well_formed zero_matrix) by apply pivot_table_well_formed.
  assert (H1 : In 1%Z (index zero_matrix)) by (vm_compute; auto).
  assert (H2 : In (2%Z, {| sim_dot := 0; sim_norm2 := 25 |})
                  (similar_users (@stable_sort) zero_matrix 1))
    by (vm_compute; left; reflexivity).
  assert (H3 : (squared_norm (row zero_matrix 2) == 0)%Q
               \/ (squared_norm (row zero_matrix 1) == 0)%Q)
    by (left; vm_compute; reflexivity).
  split; [exact stable_sort_sorts|]. split; [exact Hwf|]. split; [exact H1|].
  split; [exact H2|]. split; [exact H3|].
  refine (proj2 (proj2 (proj2 (printed_similarity (@stable_sort) zero_matrix zero_table 1%Z
                                 (similar_users (@stable_sort) zero_matrix 1) 2%Z _
                                 stable_sort_sorts Hwf H1 _ H2))) H3).
  vm_compute. reflexivity.
Defined.
